(** * Outline extraction (round1a.py) and persona-driven ranking (round1b.py)

    A shallow embedding of the two pipelines of the repository and the
    properties of them that the specification states.

    Modelling conventions.
    - A Python [str] is a [pystr], a list of characters.  Characters are
      taken from the ASCII range: the character classes below ([\s], [\d],
      [\w], case) are those of Python on code points below 128, and code
      points from 128 on are treated as unclassified.
    - A finite Python [float] is the rational [Q] it stands for, and a
      comparison of floats is the comparison of these rationals.
      In round1a.py the arithmetic on font sizes ([avg_font_size * 1.1],
      [sum(font_sizes) / len(font_sizes)]) goes through [float_ops]: a
      literal is the float nearest to it, the result of [*] and [/] is
      rounded, and [sum] is what the interpreter computes.  The theorems
      hold for every [float_ops]; [binary64] is the instance that rounds
      to IEEE doubles.
      In round1b.py similarities and scores are rationals and the
      constants [0.5], [1.1], [1.2] are [1/2], [11/10], [12/10]: the
      rounding of the score is not modelled there.
    - A Python [int] is a [Z]; a length is a [nat].
    - The PDF layer (fitz), the file system, the clock and the sentence
      embedding model are outside the repository: they are parameters. *)

From Stdlib Require Import QArith Qminmax Lqa Ascii String.
From stdpp Require Import gmap strings list sorting.

Open Scope Q_scope.
Open Scope Z_scope.
Open Scope nat_scope.
Open Scope list_scope.

Abbreviation pystr := (list ascii).

(** A string literal as a [pystr]. *)
Definition str (s : string) : pystr := list_ascii_of_string s.

(** ** Python string operations *)
Module PyStr.

Definition code (c : ascii) : N := N_of_ascii c.

Definition between (lo hi : N) (c : ascii) : bool :=
  ((lo <=? code c) && (code c <=? hi))%N.

(** [str.isspace] on one character, which is also the class [\s]:
    TAB LF VT FF CR, the separators FS GS RS US, and the space. *)
Definition is_space (c : ascii) : bool :=
  between 9 13 c || between 28 32 c.

(** The class [\d] and [str.isdigit] on one character. *)
Definition is_digit (c : ascii) : bool := between 48 57 c.

Definition is_upper (c : ascii) : bool := between 65 90 c.
Definition is_lower (c : ascii) : bool := between 97 122 c.
Definition is_cased (c : ascii) : bool := is_upper c || is_lower c.

(** The class [\w]: letters, digits and the underscore. *)
Definition is_word (c : ascii) : bool :=
  is_cased c || is_digit c || (code c =? 95)%N.

Definition lower_char (c : ascii) : ascii :=
  if is_upper c then ascii_of_N (code c + 32) else c.

Definition upper_char (c : ascii) : ascii :=
  if is_lower c then ascii_of_N (code c - 32) else c.

Definition chr_eqb (a b : ascii) : bool := Ascii.eqb a b.

(** [s.lower()] *)
Definition lower (s : pystr) : pystr := lower_char <$> s.

Fixpoint drop_while (p : ascii -> bool) (s : pystr) : pystr :=
  match s with
  | [] => []
  | c :: s' => if p c then drop_while p s' else s
  end.

(** [s.strip()] *)
Definition lstrip (s : pystr) : pystr := drop_while is_space s.
Definition rstrip (s : pystr) : pystr := rev (drop_while is_space (rev s)).
Definition strip (s : pystr) : pystr := rstrip (lstrip s).

(** [s.isdigit()]: not empty, and digits only. *)
Definition isdigit (s : pystr) : bool :=
  match s with
  | [] => false
  | _ => forallb is_digit s
  end.

(** [s.isupper()]: at least one cased character and no lowercase one. *)
Definition isupper (s : pystr) : bool :=
  existsb is_cased s && forallb (fun c => negb (is_lower c)) s.

(** [s.istitle()]: an uppercase character may only follow an uncased one,
    a lowercase character only a cased one, and there is a cased
    character.  [prev] is whether the previous character is cased,
    [cased] whether a cased character has been seen. *)
Fixpoint istitle_from (prev cased : bool) (s : pystr) : bool :=
  match s with
  | [] => cased
  | c :: s' =>
      if is_upper c then
        if prev then false else istitle_from true true s'
      else if is_lower c then
        if prev then istitle_from true true s' else false
      else istitle_from false cased s'
  end.

Definition istitle (s : pystr) : bool := istitle_from false false s.

(** [s.startswith(p)] *)
Fixpoint startswith (p s : pystr) : bool :=
  match p, s with
  | [], _ => true
  | _ :: _, [] => false
  | a :: p', b :: s' => chr_eqb a b && startswith p' s'
  end.

(** [s.endswith(p)] *)
Definition endswith (p s : pystr) : bool := startswith (rev p) (rev s).

(** [p in s] for strings: [p] occurs in [s]. *)
Fixpoint contains (p s : pystr) : bool :=
  startswith p s ||
  match s with
  | [] => false
  | _ :: s' => contains p s'
  end.

(** [t in l] for a list of strings. *)
Definition mem (t : pystr) (l : list pystr) : bool :=
  existsb (fun u => bool_decide (t = u)) l.

(** [s.split(sep)] for a non-empty separator: the pieces between the
    leftmost non-overlapping occurrences of [sep].  [skip] counts the
    characters of an occurrence still to pass over, [acc] is the piece
    being read, reversed. *)
Fixpoint split_from (sep : pystr) (skip : nat) (acc : pystr) (s : pystr)
  : list pystr :=
  match s with
  | [] => [rev acc]
  | c :: s' =>
      match skip with
      | S n => split_from sep n acc s'
      | O =>
          if startswith sep s
          then rev acc :: split_from sep (length sep - 1) [] s'
          else split_from sep 0 (c :: acc) s'
      end
  end.

Definition split (sep s : pystr) : list pystr := split_from sep 0 [] s.

(** [os.path.basename] on POSIX paths: what follows the last slash. *)
Definition basename (p : pystr) : pystr :=
  List.last (split (str "/") p) [].

End PyStr.

(** ** Regular expressions as Python's [re] runs them

    A backtracking matcher: alternatives are tried left to right, a star
    is greedy, and the first way to match that lets the rest of the
    pattern succeed is taken. *)
Module Re.

Inductive regex : Type :=
| Eps : regex
| Cls : (ascii -> bool) -> regex
| Seq : regex -> regex -> regex
| Alt : regex -> regex -> regex
| Star : regex -> regex.

Definition Plus (r : regex) : regex := Seq r (Star r).
Definition Opt (r : regex) : regex := Alt r Eps.
Definition Chr (c : ascii) : regex := Cls (PyStr.chr_eqb c).

Fixpoint Lit (s : pystr) : regex :=
  match s with
  | [] => Eps
  | c :: s' => Seq (Chr c) (Lit s')
  end.

Fixpoint Alts (rs : list regex) (last : regex) : regex :=
  match rs with
  | [] => last
  | r :: rs' => Alt r (Alts rs' last)
  end.

Fixpoint Rep (n : nat) (r : regex) : regex :=
  match n with
  | O => Eps
  | S n' => Seq r (Rep n' r)
  end.

(** [\d], [\s], [\w] and bracketed classes. *)
Definition digit : regex := Cls PyStr.is_digit.
Definition space : regex := Cls PyStr.is_space.
Definition word : regex := Cls PyStr.is_word.
Definition range (lo hi : ascii) : regex :=
  Cls (PyStr.between (PyStr.code lo) (PyStr.code hi)).
Definition one_of (s : pystr) : regex :=
  Cls (fun c => existsb (PyStr.chr_eqb c) s).

(** [re.IGNORECASE]: a character matches a class if its lowercase or its
    uppercase form does. *)
Fixpoint icase (r : regex) : regex :=
  match r with
  | Eps => Eps
  | Cls p => Cls (fun c => p c || p (PyStr.lower_char c) || p (PyStr.upper_char c))
  | Seq a b => Seq (icase a) (icase b)
  | Alt a b => Alt (icase a) (icase b)
  | Star a => Star (icase a)
  end.

(** [exec r s k]: match [r] at the start of [s] and hand what is left to
    the continuation [k]; [None] makes the matcher backtrack.  A star
    stops iterating when an iteration consumes nothing. *)
Fixpoint exec {A : Type} (r : regex) (s : pystr) (k : pystr -> option A)
  : option A :=
  match r with
  | Eps => k s
  | Cls p =>
      match s with
      | c :: s' => if p c then k s' else None
      | [] => None
      end
  | Seq a b => exec a s (fun s' => exec b s' k)
  | Alt a b =>
      match exec a s k with
      | Some x => Some x
      | None => exec b s k
      end
  | Star a =>
      (fix loop (fuel : nat) (s : pystr) : option A :=
         match fuel with
         | O => k s
         | S fuel' =>
             match exec a s (fun s' =>
                     if length s' <? length s then loop fuel' s' else None) with
             | Some x => Some x
             | None => k s
             end
         end) (length s) s
  end.

(** What is left of [s] after the match of [r] at its start. *)
Definition rest_after (r : regex) (s : pystr) : option pystr :=
  exec r s Some.

(** [re.match(r, s)] as a truth value. *)
Definition matches (r : regex) (s : pystr) : bool :=
  bool_decide (is_Some (rest_after r s)).

(** [re.search(r, s)] as a truth value: a match at some position. *)
Fixpoint search (r : regex) (s : pystr) : bool :=
  matches r s ||
  match s with
  | [] => false
  | _ :: s' => search r s'
  end.

(** [re.sub('^' + r, '', s)]: the pattern is anchored, so at most the
    match at the start is removed. *)
Definition sub_start (r : regex) (s : pystr) : pystr :=
  match rest_after r s with
  | Some s' => s'
  | None => s
  end.

(** [re.sub(r, repl, s)] for a pattern [r] that matches no empty string:
    every leftmost non-overlapping match is replaced.  [skip] counts the
    characters of the current match still to pass over. *)
Fixpoint sub_from (r : regex) (repl : pystr) (skip : nat) (s : pystr) : pystr :=
  match s with
  | [] => []
  | c :: s' =>
      match skip with
      | S n => sub_from r repl n s'
      | O =>
          match rest_after r s with
          | Some rest =>
              repl ++ sub_from r repl (length s - length rest - 1) s'
          | None => c :: sub_from r repl 0 s'
          end
      end
  end.

Definition sub (r : regex) (repl s : pystr) : pystr := sub_from r repl 0 s.

End Re.

(** ** Comparisons of floats *)
Definition Qgtb (a b : Q) : bool := negb (Qle_bool a b).
Definition Qgeb (a b : Q) : bool := Qle_bool b a.

(** ** Arithmetic of floats

    The operations of the interpreter on finite floats.  [fround q] is
    the float that the real number [q] is rounded to: the value of a
    literal and the result of one multiplication or division.  [fsum] is
    the built-in [sum] on a list of floats; it is a field of its own
    because interpreters differ in how they add up (left to right, or
    with a compensation term). *)
Record float_ops : Type := {
  fround : Q -> Q;
  fsum : list Q -> Q
}.

(** The float written as the decimal literal [q]. *)
Definition flit (ops : float_ops) (q : Q) : Q := fround ops q.

(** [x * y] on floats. *)
Definition fmul (ops : float_ops) (x y : Q) : Q := fround ops (x * y)%Q.

(** [x / y] on floats, for [y] other than zero. *)
Definition fdiv (ops : float_ops) (x y : Q) : Q := fround ops (x / y)%Q.

(** *** IEEE 754 binary64, round to nearest, ties to even

    Finite results only: a result beyond the largest double is not
    turned into an infinity. *)
Module Binary64.

(** [2^e] for an integer [e] of either sign. *)
Definition pow2 (e : Z) : Q :=
  if (0 <=? e)%Z then inject_Z (2 ^ e) else 1 # Z.to_pos (2 ^ (- e)).

(** The integer nearest to [n / d] for [0 < d], the even one of the two
    when [n / d] lies half way. *)
Definition round_half_even (n d : Z) : Z :=
  let q := (n / d)%Z in
  let r := (n mod d)%Z in
  match (2 * r ?= d)%Z with
  | Lt => q
  | Gt => (q + 1)%Z
  | Eq => if Z.even q then q else (q + 1)%Z
  end.

(** The exponent of the last bit of the double nearest to [q], for
    [0 < q]: the [e] with [2^52 <= q / 2^e < 2^53], and [-1074] for the
    subnormal numbers. *)
Definition exponent (q : Q) : Z :=
  let e0 := (Z.log2 (Qnum q) - Z.log2 (Zpos (Qden q)) - 52)%Z in
  let e1 := if Qgtb (pow2 (e0 + 52)) q then (e0 - 1)%Z else e0 in
  Z.max e1 (-1074).

Definition round_pos (q : Q) : Q :=
  let e := exponent q in
  let s := (q * pow2 (- e))%Q in
  Qred (inject_Z (round_half_even (Qnum s) (Zpos (Qden s))) * pow2 e)%Q.

Definition round64 (q : Q) : Q :=
  match Qnum q with
  | Z0 => 0 # 1
  | Zpos _ => round_pos q
  | Zneg _ => (- round_pos (- q))%Q
  end.

(** [sum] by additions from the left, each one rounded. *)
Definition sum_left (xs : list Q) : Q :=
  fold_left (fun acc x => round64 (acc + x)%Q) xs (0 # 1).

End Binary64.

Definition binary64 : float_ops :=
  {| fround := Binary64.round64; fsum := Binary64.sum_left |}.

(** ** Exceptions

    A computation either raises (with the text of the exception) or
    returns a value. *)
Inductive exc (A : Type) : Type :=
| Raise : pystr -> exc A
| Ret : A -> exc A.
Arguments Raise {A} _.
Arguments Ret {A} _.

#[global] Instance exc_ret : MRet exc := fun A a => Ret a.

#[global] Instance exc_bind : MBind exc := fun A B f m =>
  match m with
  | Raise e => Raise e
  | Ret a => f a
  end.

(** [try: m  except Exception as e: h e] *)
Definition try_except {A : Type} (m : exc A) (h : pystr -> A) : A :=
  match m with
  | Raise e => h e
  | Ret a => a
  end.

(** ** [list.sort]

    Python's sort is stable, also with [reverse=True]; a stable sort has
    one possible result, which insertion from the right computes.  [leb a b]
    says that [a] may stand before [b]: [key a <= key b] for an ascending
    sort and [key b <= key a] for a descending one. *)
Section StableSort.
Context {A : Type} (leb : A -> A -> bool).

Fixpoint insert_sorted (x : A) (l : list A) : list A :=
  match l with
  | [] => [x]
  | y :: l' => if leb x y then x :: l else y :: insert_sorted x l'
  end.

Fixpoint stable_sort (l : list A) : list A :=
  match l with
  | [] => []
  | x :: l' => insert_sorted x (stable_sort l')
  end.
End StableSort.

(** ** round1a.py: [PDFOutlineExtractor] *)
Module Round1a.
Import Re.

(** A span as the PDF layer gives it. *)
Record span : Type := {
  span_text : pystr; size : Q; flags : Z; span_bbox : list Q; span_font : pystr
}.

(** An entry of [text_blocks]. *)
Record block : Type := {
  text : pystr; font_size : Q; font_flags : Z; bbox : list Q; font : pystr
}.

Record page : Type := { page_number : Z; text_blocks : list block }.

Inductive heading_level : Type := H1 | H2 | H3.

(** A heading: the keys ['level'], ['text'] and ['page']. *)
Record heading : Type := {
  level : heading_level; heading_text : pystr; heading_page : Z
}.

(** The result: the keys ['title'] and ['outline']. *)
Record outline_result : Type := { title : pystr; outline : list heading }.

#[global] Instance heading_level_eq_dec : EqDecision heading_level.
Proof. solve_decision. Defined.

#[global] Instance heading_level_countable : Countable heading_level.
Proof.
  refine (inj_countable'
            (fun l => match l with H1 => 0 | H2 => 1 | H3 => 2 end)
            (fun n => match n with 0 => H1 | 1 => H2 | _ => H3 end) _).
  intros []; reflexivity.
Defined.

(** [self.font_size_threshold] *)
Definition threshold_title : Q := 18 # 1.
Definition threshold_h1 : Q := 16 # 1.
Definition threshold_h2 : Q := 14 # 1.
Definition threshold_h3 : Q := 12 # 1.

(** [self.heading_patterns], in the order of the source. *)
Definition heading_patterns : list regex :=
  [ (* ^(\d+\.?\d*\s+) *)
    Seq (Plus digit) (Seq (Opt (Chr ".")) (Seq (Star digit) (Plus space)));
    (* ^([A-Z]\.?\s+) *)
    Seq (range "A" "Z") (Seq (Opt (Chr ".")) (Plus space));
    (* ^([IVX]+\.?\s+) *)
    Seq (Plus (one_of (str "IVX"))) (Seq (Opt (Chr ".")) (Plus space));
    (* ^(Chapter\s+\d+) *)
    Seq (Lit (str "Chapter")) (Seq (Plus space) (Plus digit));
    (* ^(Section\s+\d+) *)
    Seq (Lit (str "Section")) (Seq (Plus space) (Plus digit));
    (* ^(CHAPTER\s+\d+) *)
    Seq (Lit (str "CHAPTER")) (Seq (Plus space) (Plus digit));
    (* ^(Part\s+\d+) *)
    Seq (Lit (str "Part")) (Seq (Plus space) (Plus digit)) ].

Section WithPdfLayer.
(** The float arithmetic of the interpreter. *)
Variable ops : float_ops.

(** [fitz]: opening a document and reading the spans of its pages, in
    reading order, either raises or gives one span list per page. *)
Variable fitz_spans : pystr -> exc (list (list span)).

Definition block_of_span (sp : span) : option block :=
  let t := PyStr.strip (span_text sp) in
  match t with
  | [] => None
  | _ => Some {| text := t; font_size := size sp; font_flags := flags sp;
                 bbox := span_bbox sp; font := span_font sp |}
  end.

Definition extract_text_with_formatting (pdf_path : pystr) : exc (list page) :=
  doc ← fitz_spans pdf_path;
  Ret (imap (fun page_num spans =>
               {| page_number := Z.of_nat page_num + 1;
                  text_blocks := omap block_of_span spans |}) doc).

(** [bool(flags & 16)] *)
Definition is_bold (fl : Z) : bool := negb (Z.land fl 16 =? 0)%Z.

Definition is_heading_pattern (t : pystr) : bool :=
  existsb (fun pattern => matches pattern (PyStr.strip t)) heading_patterns.

(** [max(title_candidates, key=len)]: the first of the longest. *)
Definition longest (best : pystr) (rest : list pystr) : pystr :=
  fold_left (fun b c => if length b <? length c then c else b) rest best.

(** The loop of [extract_title]: the state is [max_font_size] and
    [title_candidates]. *)
Definition title_step (st : Q * list pystr) (b : block) : Q * list pystr :=
  let '(max_font_size, title_candidates) := st in
  let t := PyStr.strip (text b) in
  if Qgtb (font_size b) max_font_size && (3 <? length t) then
    (font_size b, [t])
  else if Qeq_bool (font_size b) max_font_size && (3 <? length t) then
    (max_font_size, title_candidates ++ [t])
  else st.

Definition extract_title (pages_data : list page) : pystr :=
  match pages_data with
  | [] => str "Untitled Document"
  | first_page :: _ =>
      match snd (fold_left title_step (text_blocks first_page) (0 # 1, [])) with
      | c :: cs => longest c cs
      | [] => str "Untitled Document"
      end
  end.

Definition classify_heading_level (b : block) (avg_font_size : Q)
  : option heading_level :=
  let fs := font_size b in
  let t := PyStr.strip (text b) in
  let bold := is_bold (font_flags b) in
  if (length t <? 2) || PyStr.isdigit t then None
  else if Qgeb fs threshold_title then Some H1
  else if Qgeb fs threshold_h1 then Some H1
  else if Qgeb fs threshold_h2 then Some H2
  else if Qgeb fs threshold_h3 then Some H3
  else if is_heading_pattern t then
    if bold || Qgtb fs (fmul ops avg_font_size (flit ops (12 # 10))) then Some H1
    else if Qgtb fs (fmul ops avg_font_size (flit ops (11 # 10))) then Some H2
    else Some H3
  else if bold && Qgtb fs (fmul ops avg_font_size (flit ops (11 # 10))) then
    if Qgtb fs (fmul ops avg_font_size (flit ops (13 # 10))) then Some H1
    else if Qgtb fs (fmul ops avg_font_size (flit ops (12 # 10))) then Some H2
    else Some H3
  else None.

Definition calculate_average_font_size (pages_data : list page) : Q :=
  let font_sizes := concat (map (fun p => map font_size (text_blocks p)) pages_data) in
  match font_sizes with
  | [] => 12 # 1
  | _ => fdiv ops (fsum ops font_sizes) (inject_Z (Z.of_nat (length font_sizes)))
  end.

(** The allow-list of [extract_headings]. *)
Definition allowed_headings : list pystr :=
  map str [ "Revision History"; "Table of Contents"; "Acknowledgements";
            "References"; "Syllabus"; "Business Outcomes"; "Content";
            "Trademarks"; "Documents and Web Sites" ]%string.

(** [^[0-9]+\.[ ]] *)
Definition numbered_heading : regex :=
  Seq (Plus (range "0" "9")) (Seq (Chr ".") (Chr " ")).

(** The body of the inner loop of [extract_headings]: the heading a
    block contributes, if any. *)
Definition heading_of_block (avg_font_size : Q) (page_no : Z) (b : block)
  : option heading :=
  match classify_heading_level b avg_font_size with
  | Some lvl =>
      let t := PyStr.strip (text b) in
      let t := sub (Plus space) (str " ") t in
      let is_numbered := matches numbered_heading t in
      let is_allowed := existsb (fun h => PyStr.startswith h t) allowed_headings in
      if is_numbered || is_allowed
      then Some {| level := lvl; heading_text := t; heading_page := page_no |}
      else None
  | None => None
  end.

(** The key of [filter_duplicate_headings]. *)
Definition heading_key (h : heading) : pystr * heading_level :=
  (PyStr.lower (heading_text h), level h).

(** The loop of [filter_duplicate_headings], from the set [seen]. *)
Fixpoint filter_seen (seen : gset (pystr * heading_level)) (headings : list heading)
  : list heading :=
  match headings with
  | [] => []
  | h :: rest =>
      if decide (heading_key h ∈ seen)
      then filter_seen seen rest
      else h :: filter_seen ({[heading_key h]} ∪ seen) rest
  end.

Definition filter_duplicate_headings (headings : list heading) : list heading :=
  filter_seen ∅ headings.

(** The headings in scan order, before duplicates are removed. *)
Definition scan_headings (pages_data : list page) : list heading :=
  let avg_font_size := calculate_average_font_size pages_data in
  concat (map (fun p => omap (heading_of_block avg_font_size (page_number p))
                             (text_blocks p)) pages_data).

Definition extract_headings (pages_data : list page) : list heading :=
  filter_duplicate_headings (scan_headings pages_data).

(** [headings.sort(key=lambda x: x['page'])] *)
Definition sort_by_page (headings : list heading) : list heading :=
  stable_sort (fun a b => (heading_page a <=? heading_page b)%Z) headings.

Definition empty_document : outline_result :=
  {| title := str "Empty Document"; outline := [] |}.

Definition error_document : outline_result :=
  {| title := str "Error Processing Document"; outline := [] |}.

Definition extract_outline (pdf_path : pystr) : outline_result :=
  try_except
    (pages_data ← extract_text_with_formatting pdf_path;
     match pages_data with
     | [] => Ret empty_document
     | _ =>
         let t := extract_title pages_data in
         let headings := extract_headings pages_data in
         let headings := sort_by_page headings in
         Ret {| title := t; outline := headings |}
     end)
    (fun _ => error_document).
End WithPdfLayer.
End Round1a.

(** ** round1b.py: [PersonaDrivenAnalyzer] *)
Module Round1b.
Import Re.

(** An entry of [pages_content]. *)
Record page_content : Type := {
  page_number : Z; text : pystr; page_document : pystr
}.

(** A section as [identify_sections] builds it. *)
Record section : Type := {
  document : pystr; section_title : pystr;
  page_start : Z; page_end : Z; content : pystr
}.

(** A section after [section['relevance_score'] = ...]. *)
Record scored_section : Type := { scored : section; relevance_score : Q }.

(** An entry of the list [extract_subsections] returns. *)
Record subsection : Type := {
  sub_document : pystr; sub_page_number : Z;
  refined_text : pystr; sub_relevance_score : Q
}.

(** [self.section_markers], in the order of the source; they are matched
    with [re.IGNORECASE]. *)
Definition section_markers : list regex :=
  [ (* ^(\d+\.?\d*\s+) *)
    Seq (Plus digit) (Seq (Opt (Chr ".")) (Seq (Star digit) (Plus space)));
    (* ^([A-Z]\.?<TAB>?\s+) *)
    Seq (range "A" "Z") (Seq (Opt (Chr ".")) (Seq (Opt (Chr "009")) (Plus space)));
    (* ^([IVX]+\.?<TAB>?\s+) *)
    Seq (Plus (one_of (str "IVX")))
        (Seq (Opt (Chr ".")) (Seq (Opt (Chr "009")) (Plus space)));
    (* ^(Chapter\s+\d+) *)
    Seq (Lit (str "Chapter")) (Seq (Plus space) (Plus digit));
    (* ^(Section\s+\d+) *)
    Seq (Lit (str "Section")) (Seq (Plus space) (Plus digit));
    (* ^(Abstract|Introduction|Conclusion|Results|Discussion|Methods|Methodology) *)
    Alts (map (fun w => Lit (str w))
              [ "Abstract"; "Introduction"; "Conclusion"; "Results";
                "Discussion"; "Methods" ]%string)
         (Lit (str "Methodology"));
    (* ^(Executive Summary|Overview|Background|Findings|Recommendations) *)
    Alts (map (fun w => Lit (str w))
              [ "Executive Summary"; "Overview"; "Background"; "Findings" ]%string)
         (Lit (str "Recommendations")) ].

(** [self.preferred_sections] *)
Definition preferred_sections : list pystr :=
  map str [ "Comprehensive Guide to Major Cities in the South of France";
            "Coastal Adventures"; "Culinary Experiences";
            "General Packing Tips and Tricks"; "Nightlife and Entertainment";
            "Travel Tips"; "Family-Friendly Hotels" ]%string.

(** [^[\d\.\s\w]+[:.]?\s*], the pattern of the title clean-up. *)
Definition title_cleanup : regex :=
  Seq (Plus (Cls (fun c => PyStr.is_digit c || PyStr.chr_eqb "." c
                           || PyStr.is_space c || PyStr.is_word c)))
      (Seq (Opt (one_of (str ":."))) (Star space)).

(** [\d{4}|\$|\%] *)
Definition year_or_money : regex :=
  Alt (Rep 4 digit) (Alt (Chr "$") (Chr "%")).

(** The header test of [identify_sections] on a stripped, non-empty
    line: [is_section_header] and [section_title]. *)
Definition header_of_line (line : pystr) : bool * pystr :=
  let '(is_section_header, section_title) :=
    if existsb (fun pattern => matches (icase pattern) line) section_markers
    then (true, PyStr.strip (sub_start title_cleanup line))
    else (false, line) in
  if (5 <? length line) && (length line <? 100)
     && (PyStr.isupper line || PyStr.istitle line)
     && negb (search year_or_money line)
  then (true, line)
  else (is_section_header, section_title).

(** [current_section and current_section['content'].strip()] *)
Definition has_content (current_section : option section) : bool :=
  match current_section with
  | Some cs => match PyStr.strip (content cs) with [] => false | _ => true end
  | None => false
  end.

Definition save (sections : list section) (current_section : option section)
  : list section :=
  match current_section with
  | Some cs => if has_content current_section then sections ++ [cs] else sections
  | None => sections
  end.

(** The body of the loop over the lines of a page; the state is
    [sections] and [current_section]. *)
Definition line_step (pg : page_content)
    (st : list section * option section) (raw_line : pystr)
  : list section * option section :=
  let '(sections, current_section) := st in
  let line := PyStr.strip raw_line in
  match line with
  | [] => st
  | _ =>
      let '(is_section_header, title) := header_of_line line in
      if is_section_header then
        (save sections current_section,
         Some {| document := page_document pg; section_title := title;
                 page_start := page_number pg; page_end := page_number pg;
                 content := [] |})
      else
        match current_section with
        | Some cs =>
            (sections,
             Some {| document := document cs; section_title := section_title cs;
                     page_start := page_start cs; page_end := page_number pg;
                     content := content cs ++ line ++ str " " |})
        | None =>
            (sections,
             Some {| document := page_document pg;
                     section_title := str "Introduction";
                     page_start := page_number pg; page_end := page_number pg;
                     content := line ++ str " " |})
        end
  end.

Definition page_step (st : list section * option section) (pg : page_content)
  : list section * option section :=
  fold_left (line_step pg) (PyStr.split (str (String "010" EmptyString)) (text pg)) st.

Definition identify_sections (pages_content : list page_content) : list section :=
  let '(sections, current_section) := fold_left page_step pages_content ([], None) in
  save sections current_section.

(** The keywords of the title boost. *)
Definition boost_keywords : list pystr :=
  map str [ "result"; "finding"; "conclusion"; "method"; "analysis" ]%string.

(** [s[:n]] for [n >= 0] *)
Definition prefix_of (n : nat) (s : pystr) : pystr := take n s.

(** The output records of [analyze_documents]. *)
Record metadata : Type := {
  input_documents : list pystr; persona : pystr;
  job_to_be_done : pystr; processing_timestamp : pystr
}.

Record extracted_section : Type := {
  es_document : pystr; es_section_title : pystr;
  importance_rank : Z; es_page_number : Z
}.

Record subsection_entry : Type := {
  se_document : pystr; se_refined_text : pystr; se_page_number : Z
}.

Record analysis : Type := {
  meta : metadata;
  extracted_sections : list extracted_section;
  subsection_analysis : list subsection_entry
}.

(** The two shapes of the result: the analysis, or the error with its
    timestamp. *)
Inductive analysis_result : Type :=
| Analysis : analysis -> analysis_result
| AnalysisError : pystr -> pystr -> analysis_result.

(** [input_data] *)
Record input_data : Type := {
  in_documents : list pystr; in_persona : pystr; in_job_to_be_done : pystr
}.

Section WithModel.
(** [similarity q t] is
    [cosine_similarity(model.encode([q]), model.encode([t]))[0][0]]. *)
Variable similarity : pystr -> pystr -> Q.
(** [fitz]: the text of each page of a document, or an exception. *)
Variable fitz_text : pystr -> exc (list pystr).
(** [os.path.exists] *)
Variable os_path_exists : pystr -> bool.
(** [datetime.now().isoformat()] *)
Variable now : pystr.

Definition query_text (persona job : pystr) : pystr :=
  persona ++ str " " ++ job.

(** The boosts of [calculate_relevance_score] that depend on the
    title, applied to the similarity. *)
Definition title_boosted (sec : section) (sim : Q) : Q :=
  let score := sim in
  let score :=
    if PyStr.mem (section_title sec) preferred_sections
    then (score + (1 # 2))%Q else score in
  let title_lower := PyStr.lower (section_title sec) in
  if existsb (fun keyword => PyStr.contains keyword title_lower) boost_keywords
  then (score * (12 # 10))%Q else score.

(** The boost for longer sections, and the cap. *)
Definition boosted (sec : section) (sim : Q) : Q :=
  let score := title_boosted sec sim in
  let content_length := length (content sec) in
  let score :=
    if 500 <? content_length then (score * (11 # 10))%Q
    else if 1000 <? content_length then (score * (12 # 10))%Q
    else score in
  Qmin score (1 # 1).

Definition calculate_relevance_score (sec : section) (persona job : pystr) : Q :=
  let section_text :=
    section_title sec ++ str " " ++ prefix_of 1000 (content sec) in
  boosted sec (similarity (query_text persona job) section_text).

(** [[p.strip() for p in content.split(sep) if len(p.strip()) > 50]] *)
Definition long_pieces (sep content : pystr) : list pystr :=
  map PyStr.strip
      (List.filter (fun p => 50 <? length (PyStr.strip p)) (PyStr.split sep content)).

Definition paragraphs_of (content : pystr) : list pystr :=
  match long_pieces (str (String "010" (String "010" EmptyString))) content with
  | [] => long_pieces (str ".") content
  | ps => ps
  end.

Definition subsection_of (sec : section) (q paragraph : pystr) : subsection :=
  {| sub_document := document sec;
     sub_page_number := page_start sec;
     refined_text :=
       prefix_of 500 paragraph
       ++ (if 500 <? length paragraph then str "..." else []);
     sub_relevance_score := similarity q paragraph |}.

(** The subsections before they are sorted. *)
Definition candidate_subsections (sec : section) (persona job : pystr)
  : list subsection :=
  map (subsection_of sec (query_text persona job))
      (List.filter (fun paragraph => 100 <? length paragraph)
                   (take 10 (paragraphs_of (content sec)))).

(** [l.sort(key=lambda x: x['relevance_score'], reverse=True)] *)
Definition sort_subsections (l : list subsection) : list subsection :=
  stable_sort (fun a b => Qle_bool (sub_relevance_score b) (sub_relevance_score a)) l.

Definition sort_sections (l : list scored_section) : list scored_section :=
  stable_sort (fun a b => Qle_bool (relevance_score b) (relevance_score a)) l.

Definition extract_subsections (sec : section) (persona job : pystr) (top_k : nat)
  : list subsection :=
  take top_k (sort_subsections (candidate_subsections sec persona job)).

Definition page_of_text (pdf_path : pystr) (page_num : nat) (t : pystr)
  : option page_content :=
  match PyStr.strip t with
  | [] => None
  | stripped =>
      Some {| page_number := Z.of_nat page_num + 1; text := stripped;
              page_document := PyStr.basename pdf_path |}
  end.

Definition extract_text_from_pdf (pdf_path : pystr) : exc (list page_content) :=
  doc ← fitz_text pdf_path;
  Ret (omap id (imap (page_of_text pdf_path) doc)).

(** [os.path.exists(doc_path) and doc_path.lower().endswith('.pdf')] *)
Definition is_readable_pdf (doc_path : pystr) : bool :=
  os_path_exists doc_path && PyStr.endswith (str ".pdf") (PyStr.lower doc_path).

Definition score_section (persona job : pystr) (sec : section) : scored_section :=
  {| scored := sec; relevance_score := calculate_relevance_score sec persona job |}.

(** The loop over the documents: [all_sections], or the exception the
    PDF layer raised. *)
Fixpoint collect_sections (documents : list pystr) (persona job : pystr)
  : exc (list scored_section) :=
  match documents with
  | [] => Ret []
  | doc_path :: rest =>
      sections ←
        (if is_readable_pdf doc_path then
           pages_content ← extract_text_from_pdf doc_path;
           Ret (map (score_section persona job) (identify_sections pages_content))
         else Ret []);
      more ← collect_sections rest persona job;
      Ret (sections ++ more)
  end.

(** The entry of [extracted_sections] for the section at index [i] of
    [top_sections]. *)
Definition extracted_entry (i : nat) (s : scored_section) : extracted_section :=
  let sec := scored s in
  {| es_document := document sec;
     es_section_title := section_title sec;
     importance_rank := Z.of_nat i + 1;
     es_page_number :=
       if (page_start sec =? page_end sec)%Z then page_start sec else page_start sec |}.

Definition subsection_entry_of (s : subsection) : subsection_entry :=
  {| se_document := sub_document s;
     se_refined_text := refined_text s;
     se_page_number := sub_page_number s |}.

(** What [analyze_documents] does with [all_sections] once every
    document is read. *)
Definition rank (inp : input_data) (all_sections : list scored_section) : analysis :=
  let all_sections := sort_sections all_sections in
  let top_sections := take 10 all_sections in
  let subsection_analysis :=
    concat (map (fun s => extract_subsections (scored s) (in_persona inp)
                                              (in_job_to_be_done inp) 3)
                (take 5 top_sections)) in
  let subsection_analysis := sort_subsections subsection_analysis in
  {| meta := {| input_documents := map PyStr.basename (in_documents inp);
                persona := in_persona inp;
                job_to_be_done := in_job_to_be_done inp;
                processing_timestamp := now |};
     extracted_sections := imap extracted_entry top_sections;
     subsection_analysis := map subsection_entry_of (take 15 subsection_analysis) |}.

Definition analyze_documents (inp : input_data) : analysis_result :=
  try_except
    (all_sections ← collect_sections (in_documents inp) (in_persona inp)
                                     (in_job_to_be_done inp);
     Ret (Analysis (rank inp all_sections)))
    (fun e => AnalysisError e now).
End WithModel.
End Round1b.

(** ** What a pattern matches

    The words of a pattern, and two facts about them that can be read off
    the pattern: a lower bound on their length, and whether each of them
    has a character that is no digit. *)
Module ReLang.
Import Re.

Inductive lang : regex -> pystr -> Prop :=
| lang_eps : lang Eps []
| lang_cls p c : p c = true -> lang (Cls p) [c]
| lang_seq a b u v : lang a u -> lang b v -> lang (Seq a b) (u ++ v)
| lang_alt_l a b u : lang a u -> lang (Alt a b) u
| lang_alt_r a b u : lang b u -> lang (Alt a b) u
| lang_star_nil a : lang (Star a) []
| lang_star_cons a u v : lang a u -> lang (Star a) v -> lang (Star a) (u ++ v).

Fixpoint min_len (r : regex) : nat :=
  match r with
  | Eps => 0
  | Cls _ => 1
  | Seq a b => min_len a + min_len b
  | Alt a b => Nat.min (min_len a) (min_len b)
  | Star _ => 0
  end.

Definition all_ascii : list ascii := map ascii_of_nat (seq 0 256).

Definition has_nondigit (s : pystr) : bool :=
  existsb (fun c => negb (PyStr.is_digit c)) s.

Fixpoint forces_nondigit (r : regex) : bool :=
  match r with
  | Eps => false
  | Cls p => forallb (fun c => negb (p c && PyStr.is_digit c)) all_ascii
  | Seq a b => forces_nondigit a || forces_nondigit b
  | Alt a b => forces_nondigit a && forces_nondigit b
  | Star _ => false
  end.
End ReLang.

(** ** Concrete inputs used below *)
Module Examples.
Import Round1b.

(** A section titled "Coastal Adventures" whose content has [n]
    characters, on pages 2 to 4. *)
Definition coastal (n : nat) : section :=
  {| document := str "guide.pdf"; section_title := str "Coastal Adventures";
     page_start := 2; page_end := 4; content := repeat "a"%char n |}.

(** A short section with no boosted title. *)
Definition notes : section :=
  {| document := str "guide.pdf"; section_title := str "Notes";
     page_start := 1; page_end := 1; content := str "a few words" |}.

(** Embedding models that give every pair of texts the same similarity. *)
Definition constant_similarity (q : Q) : pystr -> pystr -> Q := fun _ _ => q.
(** A text block with the given text, font size and font flags. *)
Definition block_of (t : string) (sz : Q) (fl : Z) : Round1a.block :=
  {| Round1a.text := str t; Round1a.font_size := sz; Round1a.font_flags := fl;
     Round1a.bbox := []; Round1a.font := str "Arial" |}.

(** A page whose first line is a numbered heading. *)
Definition methodology_page : page_content :=
  {| page_number := 1;
     text := str "3.2 Methodology Overview" ++ ["010"%char]
             ++ str "the approach is described below.";
     page_document := str "paper.pdf" |}.

(** The same page with the heading in lowercase. *)
Definition lowercase_methodology_page : page_content :=
  {| page_number := 1;
     text := str "3.2 methodology overview" ++ ["010"%char]
             ++ str "the approach is described below.";
     page_document := str "paper.pdf" |}.

(** A PDF layer with one document of two pages, and a similarity that
    grows with the length of the section text. *)
Definition two_pages (path : pystr) : exc (list pystr) :=
  Ret [ text methodology_page;
        str "RESULTS AND FIGURES" ++ ["010"%char] ++ str "the numbers are good." ].

Definition length_similarity (q t : pystr) : Q :=
  Z.of_nat (length t) # 100.

Definition one_document : input_data :=
  {| in_documents := [str "/app/input/paper.pdf"];
     in_persona := str "Researcher"; in_job_to_be_done := str "Review methods" |}.

Definition every_path_exists (path : pystr) : bool := true.

Definition fixed_clock : pystr := str "2025-07-28T10:00:00".

(** A span with the given text, size and flags. *)
Definition span_of (t : string) (sz : Q) (fl : Z) : Round1a.span :=
  {| Round1a.span_text := str t; Round1a.size := sz; Round1a.flags := fl;
     Round1a.span_bbox := []; Round1a.span_font := str "Arial" |}.

(** A PDF layer with one document of two pages: a heading of page 2 is
    repeated, up to case and spacing, from page 1. *)
Definition report (path : pystr) : exc (list (list Round1a.span)) :=
  Ret [ [ span_of "Annual Report" (24 # 1) 0;
          span_of "1. Introduction" (14 # 1) 0;
          span_of "body text of the first page" (10 # 1) 0;
          span_of " References " (13 # 1) 16 ];
        [ span_of "2. Methods" (14 # 1) 0;
          span_of "1.  introduction" (14 # 1) 0;
          span_of "7" (20 # 1) 0 ] ].

(** PDF layers that fail, and that find no page. *)
Definition unreadable (path : pystr) : exc (list (list Round1a.span)) :=
  Raise (str "cannot open broken document").

Definition no_pages (path : pystr) : exc (list (list Round1a.span)) := Ret [].

End Examples.

(** ** Shapes of texts *)
Module Shapes.

(** No whitespace character other than the space, and no two whitespace
    characters in a row; [prev] says that the character before is a
    whitespace character. *)
Fixpoint single_spaced_from (prev : bool) (t : pystr) : bool :=
  match t with
  | [] => true
  | c :: t' =>
      if PyStr.is_space c
      then PyStr.chr_eqb c " " && negb prev && single_spaced_from true t'
      else single_spaced_from false t'
  end.

Definition single_spaced (t : pystr) : bool := single_spaced_from false t.

(** A text that does not start with a whitespace character, and a text
    that neither starts nor ends with one. *)
Definition starts_solid (t : pystr) : Prop :=
  match t with
  | [] => True
  | c :: _ => PyStr.is_space c = false
  end.

Definition trimmed (t : pystr) : Prop := starts_solid t /\ starts_solid (rev t).

(** A text without the character [c]. *)
Definition free_of (c : ascii) (t : pystr) : Prop :=
  forall d, In d t -> PyStr.chr_eqb c d = false.

(** The content of a section while it is built: no line feed; and empty,
    or a trimmed text followed by one space. *)
Definition content_shape (t : pystr) : Prop :=
  free_of "010" t /\
  (t = [] \/ exists body, t = body ++ str " " /\ body <> [] /\ trimmed body).

(** The state of the loop of [identify_sections] when the page with
    number [n] is read: the closed sections have content and satisfy [P]
    at some page, the open section satisfies [P] at page [n]. *)
Definition segmenter_inv (P : Z -> Round1b.section -> Prop) (n : Z)
    (st : list Round1b.section * option Round1b.section) : Prop :=
  Forall (fun s => (exists m, P m s) /\ Round1b.has_content (Some s) = true) (fst st) /\
  forall cs, snd st = Some cs -> P n cs.

End Shapes.

(** ** Paths and replacement *)
Module PyPath.

(** [os.path.isabs] on POSIX *)
Definition isabs (p : pystr) : bool := PyStr.startswith (str "/") p.

(** [os.path.join(a, b)] on POSIX *)
Definition join (a b : pystr) : pystr :=
  if isabs b then b
  else match a with
       | [] => b
       | _ => if PyStr.endswith (str "/") a then a ++ b else a ++ str "/" ++ b
       end.

(** [s.replace(old, new)] for a non-empty [old]: every leftmost
    non-overlapping occurrence is replaced.  [skip] counts the characters
    of the current occurrence still to pass over. *)
Fixpoint replace_from (old new : pystr) (skip : nat) (s : pystr) : pystr :=
  match s with
  | [] => []
  | c :: s' =>
      match skip with
      | S n => replace_from old new n s'
      | O =>
          if PyStr.startswith old s
          then new ++ replace_from old new (length old - 1) s'
          else c :: replace_from old new 0 s'
      end
  end.

Definition replace (old new s : pystr) : pystr := replace_from old new 0 s.

End PyPath.

(** ** round1a.py: [process_pdfs] *)
Module Round1aMain.
Import Round1a.

Definition input_dir : pystr := str "/app/input".
Definition output_dir : pystr := str "/app/output".

(** [filename.lower().endswith('.pdf')] *)
Definition is_pdf_name (filename : pystr) : bool :=
  PyStr.endswith (str ".pdf") (PyStr.lower filename).

(** [filename.replace('.pdf', '.json')] *)
Definition output_filename (filename : pystr) : pystr :=
  PyPath.replace (str ".pdf") (str ".json") filename.

(** The loop of [process_pdfs] over the listing of the input directory:
    the files it writes, in order, each with the outline saved in it.
    Creating the output directory and writing a file are taken to
    succeed. *)
Definition process_pdfs (ops : float_ops)
    (fitz_spans : pystr -> exc (list (list span)))
    (listing : list pystr) : list (pystr * outline_result) :=
  map (fun filename =>
         (PyPath.join output_dir (output_filename filename),
          extract_outline ops fitz_spans (PyPath.join input_dir filename)))
      (List.filter is_pdf_name listing).

End Round1aMain.

(** ** round1b.py: the input of [process_round1b] *)
Module Round1bMain.

(** A value read by [json.load]; an object lists each of its keys once.
    The input specification itself is an object. *)
#[local] Unset Elimination Schemes.
Inductive json : Type :=
| JNull : json
| JBool : bool -> json
| JNum : Q -> json
| JStr : pystr -> json
| JArr : list json -> json
| JObj : list (pystr * json) -> json.
#[local] Set Elimination Schemes.

(** The exceptions that the normalisation can raise; they are not caught. *)
Inductive py_error : Type :=
| KeyError : pystr -> py_error
| TypeError : py_error.

Inductive outcome (A : Type) : Type :=
| Crash : py_error -> outcome A
| Done : A -> outcome A.
Arguments Crash {A} _.
Arguments Done {A} _.

(** [d.get(key)] on an object, [None] when [key not in d]. *)
Fixpoint get (key : pystr) (fields : list (pystr * json)) : option json :=
  match fields with
  | [] => None
  | (k, v) :: rest => if bool_decide (k = key) then Some v else get key rest
  end.

Definition input_dir : pystr := str "/app/input".

(** [doc['filename']] *)
Definition filename_of (doc : json) : outcome json :=
  match doc with
  | JObj fields =>
      match get (str "filename") fields with
      | Some v => Done v
      | None => Crash (KeyError (str "filename"))
      end
  | _ => Crash TypeError
  end.

(** A list comprehension whose body can raise. *)
Fixpoint each {A B : Type} (f : A -> outcome B) (l : list A) : outcome (list B) :=
  match l with
  | [] => Done []
  | x :: rest =>
      match f x with
      | Crash e => Crash e
      | Done y =>
          match each f rest with
          | Crash e => Crash e
          | Done ys => Done (y :: ys)
          end
      end
  end.

(** [document_files] *)
Definition document_files (input_data : list (pystr * json)) : outcome (list json) :=
  match get (str "documents") input_data with
  | Some (JArr documents) =>
      match documents with
      | JObj _ :: _ => each filename_of documents
      | _ => Done documents
      end
  | _ => Done []
  end.

(** [os.path.join(input_dir, doc) if not os.path.isabs(doc) else doc] *)
Definition resolve_path (doc : pystr) : pystr :=
  if negb (PyPath.isabs doc) then PyPath.join input_dir doc else doc.

Definition resolve (doc : json) : outcome pystr :=
  match doc with
  | JStr s => Done (resolve_path s)
  | _ => Crash TypeError
  end.

(** [input_data['documents']] after the normalisation. *)
Definition normalise_documents (input_data : list (pystr * json)) : outcome (list pystr) :=
  match document_files input_data with
  | Crash e => Crash e
  | Done files => each resolve files
  end.

(** [input_data[field]] after the normalisation of the persona or of the
    job: an object is replaced by its entry [inner], when it has one. *)
Definition normalise_field (field inner : pystr) (input_data : list (pystr * json))
  : option json :=
  match get field input_data with
  | Some (JObj d) =>
      Some (match get inner d with
            | Some v => v
            | None => JObj d
            end)
  | other => other
  end.

End Round1bMain.

(** * Properties *)

(** ** The stable sort *)
Section StableSortFacts.
Context {A : Type} (leb : A -> A -> bool).

Lemma insert_sorted_perm (x : A) (l : list A) :
  Permutation (insert_sorted leb x l) (x :: l).
Proof.
  induction l as [|y l IH]; simpl; [reflexivity|].
  destruct (leb x y); [reflexivity|].
  rewrite IH. apply perm_swap.
Qed.

Lemma stable_sort_perm (l : list A) : Permutation (stable_sort leb l) l.
Proof.
  induction l as [|x l IH]; simpl; [reflexivity|].
  rewrite insert_sorted_perm. by constructor.
Qed.

Lemma stable_sort_length (l : list A) : length (stable_sort leb l) = length l.
Proof. apply Permutation_length, stable_sort_perm. Qed.

(** Elements that the order does not separate keep their relative
    positions: the sort is stable. *)
Lemma insert_sorted_filter (P : A -> bool) (x : A) (l : list A) :
  (forall a b, P a = true -> P b = true -> leb a b = true) ->
  List.filter P (insert_sorted leb x l) = List.filter P (x :: l).
Proof.
  intros HP. induction l as [|y l IH]; [reflexivity|].
  simpl. destruct (leb x y) eqn:Hxy; [reflexivity|].
  simpl in *. rewrite IH.
  destruct (P x) eqn:Hx, (P y) eqn:Hy; try reflexivity.
  rewrite (HP x y Hx Hy) in Hxy. discriminate.
Qed.

Lemma stable_sort_filter (P : A -> bool) (l : list A) :
  (forall a b, P a = true -> P b = true -> leb a b = true) ->
  List.filter P (stable_sort leb l) = List.filter P l.
Proof.
  intros HP. induction l as [|x l IH]; [reflexivity|].
  simpl stable_sort. rewrite insert_sorted_filter by exact HP.
  simpl. by rewrite IH.
Qed.

Hypothesis leb_total : forall a b, leb a b = true \/ leb b a = true.
Hypothesis leb_trans : forall a b c, leb a b = true -> leb b c = true -> leb a c = true.

Lemma insert_sorted_sorted (x : A) (l : list A) :
  StronglySorted (fun a b => leb a b = true) l ->
  StronglySorted (fun a b => leb a b = true) (insert_sorted leb x l).
Proof.
  induction 1 as [|y l Hl IH Hy]; simpl.
  - repeat constructor.
  - destruct (leb x y) eqn:Hxy.
    + constructor; [by constructor|].
      constructor; [exact Hxy|].
      eapply Forall_impl; [exact Hy|]. intros z Hz. by eapply leb_trans.
    + constructor; [exact IH|].
      rewrite insert_sorted_perm. constructor; [|exact Hy].
      destruct (leb_total x y) as [H|H]; [congruence|exact H].
Qed.

Lemma stable_sort_sorted (l : list A) :
  StronglySorted (fun a b => leb a b = true) (stable_sort leb l).
Proof.
  induction l as [|x l IH]; simpl; [constructor|].
  by apply insert_sorted_sorted.
Qed.
End StableSortFacts.

(** ** The relevance score *)
Section ScoreFacts.
Import Round1b.
Variable similarity : pystr -> pystr -> Q.

Lemma Qmin_cap_le (a : Q) : (Qmin a 1 <= 1)%Q.
Proof. apply Q.le_min_r. Qed.

Lemma Qmin_cap_ge (a b : Q) : (b <= a)%Q -> (b <= 1)%Q -> (b <= Qmin a 1)%Q.
Proof. intros. by apply Q.min_glb. Qed.

Lemma Qmin_cap_id (a : Q) : (a <= 1)%Q -> (Qmin a 1 == a)%Q.
Proof. intros. by apply Q.min_l. Qed.

(** The branch for more than 1000 characters is never taken: every
    content longer than 500 characters gets the factor 1.1. *)
Lemma boosted_long_content (sec : section) (sim : Q) :
  500 < length (content sec) ->
  boosted sec sim = Qmin (title_boosted sec sim * (11 # 10)) 1.
Proof.
  intros H. unfold boosted. apply Nat.ltb_lt in H. by rewrite H.
Qed.

Lemma title_boosted_preferred (sec : section) (sim : Q) :
  PyStr.mem (section_title sec) preferred_sections = true ->
  (0 <= sim)%Q -> (1 # 2 <= title_boosted sec sim)%Q.
Proof.
  intros Hp Hs. unfold title_boosted. rewrite Hp.
  destruct (existsb _ _); lra.
Qed.

Lemma boosted_preferred (sec : section) (sim : Q) :
  PyStr.mem (section_title sec) preferred_sections = true ->
  (0 <= sim)%Q -> (1 # 2 <= boosted sec sim)%Q.
Proof.
  intros Hp Hs. pose proof (title_boosted_preferred sec sim Hp Hs) as Ht.
  unfold boosted. cbv zeta.
  apply Qmin_cap_ge; [|lra].
  destruct (500 <? _); [lra|]. destruct (1000 <? _); lra.
Qed.

Lemma boosted_plain (sec : section) (sim : Q) :
  PyStr.mem (section_title sec) preferred_sections = false ->
  existsb (fun keyword => PyStr.contains keyword (PyStr.lower (section_title sec)))
          boost_keywords = false ->
  length (content sec) <= 500 ->
  (sim <= 1)%Q ->
  (boosted sec sim == sim)%Q.
Proof.
  intros Hp Hk Hl Hs. unfold boosted, title_boosted. rewrite Hp, Hk.
  assert ((500 <? length (content sec)) = false) as -> by (apply Nat.ltb_ge; lia).
  assert ((1000 <? length (content sec)) = false) as -> by (apply Nat.ltb_ge; lia).
  by apply Qmin_cap_id.
Qed.
End ScoreFacts.

(** ** Claims on [calculate_relevance_score] *)
Section ScoreClaims.
Import Round1b Examples.

(** C1: on a section titled "Coastal Adventures" with 1200 characters of
    content and similarity 0.3, [calculate_relevance_score] gives
    (0.3 + 0.5) * 1.1 = 0.88, not the (0.3 + 0.5) * 1.2 = 0.96 of the
    stated rule order: the test for more than 500 characters comes first
    and shadows the one for more than 1000. *)
Theorem length_bonus_at_1200 :
  length (content (coastal 1200)) = 1200 /\
  PyStr.mem (section_title (coastal 1200)) preferred_sections = true /\
  (calculate_relevance_score (constant_similarity (3 # 10)) (coastal 1200)
                             (str "Travel Planner") (str "Plan a trip")
   == 88 # 100)%Q /\
  ~ (calculate_relevance_score (constant_similarity (3 # 10)) (coastal 1200)
                               (str "Travel Planner") (str "Plan a trip")
     == 96 # 100)%Q.
Proof.
  split; [apply repeat_length|].
  split; [reflexivity|].
  split; [reflexivity|].
  intros H. vm_compute in H. discriminate.
Qed.

(** C5: the score is at most 1; with a preferred title and similarity
    zero it is at least 0.5; there is no lower clamp: with a negative
    similarity and no boost (no preferred title, no keyword, content of
    at most 500 characters) the score is the similarity, so negative. *)
Theorem relevance_score_bounds
    (similarity : pystr -> pystr -> Q) (sec : section) (persona job : pystr) :
  let sim := similarity (query_text persona job)
               (section_title sec ++ str " " ++ prefix_of 1000 (content sec)) in
  let score := calculate_relevance_score similarity sec persona job in
  (score <= 1)%Q /\
  (PyStr.mem (section_title sec) preferred_sections = true ->
   (sim == 0)%Q -> (1 # 2 <= score)%Q) /\
  (PyStr.mem (section_title sec) preferred_sections = false ->
   existsb (fun keyword => PyStr.contains keyword (PyStr.lower (section_title sec)))
           boost_keywords = false ->
   length (content sec) <= 500 ->
   (sim < 0)%Q -> (score == sim)%Q /\ (score < 0)%Q).
Proof.
  intros sim score. subst score. unfold calculate_relevance_score. fold sim.
  split; [apply Qmin_cap_le|]. split.
  - intros Hp Hs. apply boosted_preferred; [exact Hp|]. rewrite Hs. apply Qle_refl.
  - intros Hp Hk Hl Hs.
    assert (boosted sec sim == sim)%Q as He
      by (apply boosted_plain; [exact Hp|exact Hk|exact Hl|lra]).
    split; [exact He|]. rewrite He. exact Hs.
Qed.

Lemma relevance_score_bounds_witness :
  (calculate_relevance_score (constant_similarity 0) (coastal 40) [] [] <= 1)%Q /\
  (1 # 2 <= calculate_relevance_score (constant_similarity 0) (coastal 40) [] [])%Q /\
  (calculate_relevance_score (constant_similarity (-1 # 4)) notes [] [] < 0)%Q.
Proof.
  split; [apply (relevance_score_bounds (constant_similarity 0) (coastal 40) [] [])|].
  split.
  - apply (relevance_score_bounds (constant_similarity 0) (coastal 40) [] []);
      reflexivity.
  - apply (relevance_score_bounds (constant_similarity (-1 # 4)) notes [] []);
      [reflexivity|reflexivity|vm_compute; lia|reflexivity].
Defined.
End ScoreClaims.

(** ** Claims on [extract_subsections] *)
Section SubsectionClaims.
Import Round1b Examples.

(** Where a returned subsection comes from: one of the first ten
    candidate paragraphs, longer than 100 characters. *)
Lemma extract_subsections_In
    (similarity : pystr -> pystr -> Q) (sec : section) (persona job : pystr)
    (top_k : nat) (s : subsection) :
  In s (extract_subsections similarity sec persona job top_k) ->
  exists paragraph,
    In paragraph (take 10 (paragraphs_of (content sec))) /\
    100 < length paragraph /\
    s = subsection_of similarity sec (query_text persona job) paragraph.
Proof.
  unfold extract_subsections, sort_subsections, candidate_subsections.
  intros H. apply list_elem_of_In, subseteq_take, list_elem_of_In in H.
  eapply Permutation_in in H; [|apply stable_sort_perm].
  apply in_map_iff in H as (p & <- & Hp).
  apply filter_In in Hp as [Hp Hlen].
  exists p. split; [exact Hp|]. split; [by apply Nat.ltb_lt|reflexivity].
Qed.

Lemma length_refined_text
    (similarity : pystr -> pystr -> Q) (sec : section) (q paragraph : pystr) :
  length (refined_text (subsection_of similarity sec q paragraph)) =
  if 500 <? length paragraph then 503 else length paragraph.
Proof.
  cbn [refined_text subsection_of]. unfold prefix_of.
  rewrite length_app, length_take.
  destruct (500 <? length paragraph) eqn:H.
  - apply Nat.ltb_lt in H. change (length (str "...")) with 3. lia.
  - apply Nat.ltb_ge in H. change (length (@nil ascii)) with 0. lia.
Qed.

(** C9, as stated, fails: a paragraph of 501 characters gives a
    [refined_text] of 503 characters. *)
Lemma refined_text_longer_than_500 :
  map (fun s => length (refined_text s))
      (extract_subsections (constant_similarity (3 # 10)) (coastal 501)
                           (str "Travel Planner") (str "Plan a trip") 3)
  = [503] /\
  ~ Forall (fun s => length (refined_text s) <= 500)
      (extract_subsections (constant_similarity (3 # 10)) (coastal 501)
                           (str "Travel Planner") (str "Plan a trip") 3).
Proof.
  split; [vm_compute; reflexivity|].
  intros H. apply Forall_forall with (x := subsection_of (constant_similarity (3 # 10))
    (coastal 501) (query_text (str "Travel Planner") (str "Plan a trip"))
    (repeat "a"%char 501)) in H.
  - rewrite length_refined_text in H. vm_compute in H. lia.
  - vm_compute. left.
Qed.

(** C9, amended: the [refined_text] of a returned subsection is the
    first 500 characters of its paragraph, followed by "..." exactly
    when the paragraph has more than 500 characters; it has at most 503
    characters, and is the whole paragraph when nothing is cut. *)
Theorem refined_text_truncation
    (similarity : pystr -> pystr -> Q) (sec : section) (persona job : pystr)
    (top_k : nat) (s : subsection) :
  In s (extract_subsections similarity sec persona job top_k) ->
  exists paragraph,
    In paragraph (paragraphs_of (content sec)) /\
    refined_text s =
      take 500 paragraph ++ (if 500 <? length paragraph then str "..." else []) /\
    (length paragraph <= 500 -> refined_text s = paragraph) /\
    (500 < length paragraph -> length (refined_text s) = 503) /\
    length (refined_text s) <= 503.
Proof.
  intros H. apply extract_subsections_In in H as (p & Hp & _ & ->).
  exists p. split; [by apply list_elem_of_In, subseteq_take, list_elem_of_In in Hp|].
  split; [reflexivity|].
  rewrite length_refined_text. cbn [refined_text subsection_of]. unfold prefix_of.
  destruct (500 <? length p) eqn:Hlen.
  - apply Nat.ltb_lt in Hlen. repeat split; lia.
  - apply Nat.ltb_ge in Hlen. repeat split; try lia.
    intros _. by rewrite app_nil_r, take_ge.
Qed.

Lemma refined_text_truncation_witness :
  exists paragraph,
    In paragraph (paragraphs_of (content (coastal 501))) /\
    refined_text (subsection_of (constant_similarity (3 # 10)) (coastal 501)
                    (query_text [] []) (repeat "a"%char 501)) =
      take 500 paragraph ++ (if 500 <? length paragraph then str "..." else []) /\
    (length paragraph <= 500 ->
     refined_text (subsection_of (constant_similarity (3 # 10)) (coastal 501)
                     (query_text [] []) (repeat "a"%char 501)) = paragraph) /\
    (500 < length paragraph ->
     length (refined_text (subsection_of (constant_similarity (3 # 10)) (coastal 501)
                             (query_text [] []) (repeat "a"%char 501))) = 503) /\
    length (refined_text (subsection_of (constant_similarity (3 # 10)) (coastal 501)
                            (query_text [] []) (repeat "a"%char 501))) <= 503.
Proof.
  apply (refined_text_truncation (constant_similarity (3 # 10)) (coastal 501) [] [] 3).
  vm_compute. left. reflexivity.
Defined.

(** C10: every subsection that [extract_subsections] returns carries the
    [page_start] of its section as [page_number], whatever the section,
    the query and the page the paragraph lies on. *)
Theorem subsection_page_is_page_start
    (similarity : pystr -> pystr -> Q) (sec : section) (persona job : pystr)
    (top_k : nat) :
  Forall (fun s => sub_page_number s = page_start sec)
         (extract_subsections similarity sec persona job top_k).
Proof.
  apply Forall_forall. intros s Hs.
  apply list_elem_of_In, extract_subsections_In in Hs as (p & _ & _ & ->).
  reflexivity.
Qed.

(** A section on pages 2 to 4: its subsection reports page 2. *)
Example subsection_page_of_three_page_section :
  page_end (coastal 501) = 4%Z /\
  map sub_page_number
      (extract_subsections (constant_similarity (3 # 10)) (coastal 501) [] [] 3)
  = [2%Z].
Proof. split; vm_compute; reflexivity. Qed.
End SubsectionClaims.

(** ** The matcher is sound for the words of a pattern *)
Section ReFacts.
Import Re ReLang.

Lemma exec_sound {A : Type} (r : regex) :
  forall (s : pystr) (k : pystr -> option A) (x : A),
    exec r s k = Some x ->
    exists u v, s = u ++ v /\ lang r u /\ k v = Some x.
Proof.
  induction r as [|p|a IHa b IHb|a IHa b IHb|a IHa]; intros s k x H; simpl in H.
  - exists [], s. repeat split; [constructor|exact H].
  - destruct s as [|c s']; [discriminate|].
    destruct (p c) eqn:Hp; [|discriminate].
    exists [c], s'. repeat split; [by constructor|exact H].
  - apply IHa in H as (u & v & -> & Hu & H).
    apply IHb in H as (u' & v' & -> & Hu' & H).
    exists (u ++ u'), v'. rewrite <- app_assoc. repeat split; [by constructor|exact H].
  - destruct (exec a s k) eqn:Ha.
    + injection H as ->. apply IHa in Ha as (u & v & -> & Hu & Hk).
      exists u, v. repeat split; [by apply lang_alt_l|exact Hk].
    + apply IHb in H as (u & v & -> & Hu & Hk).
      exists u, v. repeat split; [by apply lang_alt_r|exact Hk].
  - revert H. generalize (length s) at 1. intros fuel. revert s.
    induction fuel as [|fuel IH]; intros s H.
    + exists [], s. repeat split; [constructor|exact H].
    + match type of H with
      | match ?e with _ => _ end = _ => destruct e eqn:Hit
      end.
      * injection H as ->. apply IHa in Hit as (u & v & -> & Hu & Hk).
        destruct (length v <? length (u ++ v)); [|discriminate].
        apply IH in Hk as (u' & v' & -> & Hu' & Hk).
        exists (u ++ u'), v'. rewrite <- app_assoc.
        repeat split; [by constructor|exact Hk].
      * exists [], s. repeat split; [constructor|exact H].
Qed.

Lemma matches_lang (r : regex) (s : pystr) :
  matches r s = true -> exists u v, s = u ++ v /\ lang r u.
Proof.
  unfold matches, rest_after. intros H.
  apply bool_decide_eq_true in H as [rest H].
  apply exec_sound in H as (u & v & -> & Hu & _). by exists u, v.
Qed.

Lemma lang_min_len (r : regex) (u : pystr) : lang r u -> min_len r <= length u.
Proof.
  induction 1; simpl; rewrite ?length_app; lia.
Qed.

Lemma all_ascii_complete (c : ascii) : In c all_ascii.
Proof.
  unfold all_ascii. rewrite <- (ascii_nat_embedding c).
  apply in_map, in_seq. pose proof (nat_ascii_bounded c). lia.
Qed.

Lemma has_nondigit_app (u v : pystr) :
  has_nondigit (u ++ v) = has_nondigit u || has_nondigit v.
Proof. apply existsb_app. Qed.

Lemma lang_nondigit (r : regex) (u : pystr) :
  lang r u -> forces_nondigit r = true -> has_nondigit u = true.
Proof.
  induction 1 as [|p c Hp|a b u v _ IHu _ IHv|a b u _ IH|a b u _ IH| |];
    cbn [forces_nondigit]; intros Hf; try discriminate.
  - rewrite forallb_forall in Hf. specialize (Hf c (all_ascii_complete c)).
    rewrite Hp in Hf. unfold has_nondigit. cbn [existsb]. cbn in Hf. by rewrite Hf.
  - rewrite has_nondigit_app. apply orb_true_iff in Hf as [Hf|Hf].
    + by rewrite IHu.
    + rewrite IHv by exact Hf. apply orb_true_r.
  - apply andb_true_iff in Hf as [Hf _]. by apply IH.
  - apply andb_true_iff in Hf as [_ Hf]. by apply IH.
Qed.
End ReFacts.

(** ** Doubles *)
Section FloatFacts.

(** The literals of the classifier as doubles, and three products and a
    quotient that are not the exact ones: [3 * 1.1] is
    3.3000000000000003, [9 * 1.2] is 10.799999999999999, [12 * 1.2] is
    14.399999999999999, and [10.7 + 10.7 + 10.7] divided by 3 is
    10.699999999999998. *)
Lemma binary64_values :
  flit binary64 (11 # 10) = 2476979795053773 # 2251799813685248 /\
  flit binary64 (12 # 10) = 5404319552844595 # 4503599627370496 /\
  flit binary64 (13 # 10) = 5854679515581645 # 4503599627370496 /\
  fmul binary64 (3 # 1) (flit binary64 (11 # 10))
  = 7430939385161319 # 2251799813685248 /\
  fmul binary64 (9 # 1) (flit binary64 (12 # 10))
  = 6079859496950169 # 562949953421312 /\
  fmul binary64 (12 # 1) (flit binary64 (12 # 10))
  = 2026619832316723 # 140737488355328 /\
  fdiv binary64 (fsum binary64 (repeat (flit binary64 (107 # 10)) 3)) (3 # 1)
  = 6023564501608037 # 562949953421312.
Proof. vm_compute. repeat split. Qed.

(** A double is rounded to itself, and the neighbours of a double above
    [2^53] are two apart: a number half way goes to the even one. *)
Lemma binary64_rounding :
  fround binary64 (2476979795053773 # 2251799813685248)
  = 2476979795053773 # 2251799813685248 /\
  fround binary64 (9007199254740993 # 1) = 9007199254740992 # 1 /\
  fround binary64 (9007199254740995 # 1) = 9007199254740996 # 1 /\
  fround binary64 (-1 # 10) = -3602879701896397 # 36028797018963968.
Proof. vm_compute. repeat split. Qed.
End FloatFacts.

(** ** Claims on [classify_heading_level] *)
Section ClassifierClaims.
Import Re ReLang Round1a Examples.

Lemma Qgeb_true (a b : Q) : Qgeb a b = true <-> (b <= a)%Q.
Proof. unfold Qgeb. apply Qle_bool_iff. Qed.

Lemma Qgeb_false (a b : Q) : Qgeb a b = false <-> (a < b)%Q.
Proof.
  unfold Qgeb. rewrite <- not_true_iff_false, Qle_bool_iff. split.
  - apply Qnot_le_lt.
  - apply Qlt_not_le.
Qed.

Lemma Qgtb_true (a b : Q) : Qgtb a b = true <-> (b < a)%Q.
Proof.
  unfold Qgtb. rewrite negb_true_iff. apply (Qgeb_false b a).
Qed.

Lemma Qgtb_false (a b : Q) : Qgtb a b = false <-> (a <= b)%Q.
Proof.
  unfold Qgtb. rewrite negb_false_iff. apply Qle_bool_iff.
Qed.

Lemma drop_while_suffix (p : ascii -> bool) (s : pystr) :
  exists a, s = a ++ PyStr.drop_while p s.
Proof.
  induction s as [|c s [a IH]]; [by exists []|].
  simpl. destruct (p c).
  - exists (c :: a). simpl. by rewrite <- IH.
  - by exists [].
Qed.

(** Stripping removes characters at the two ends only. *)
Lemma strip_infix (s : pystr) : exists a b, s = a ++ PyStr.strip s ++ b.
Proof.
  unfold PyStr.strip, PyStr.rstrip, PyStr.lstrip.
  destruct (drop_while_suffix PyStr.is_space s) as [a Ha].
  destruct (drop_while_suffix PyStr.is_space (rev (PyStr.drop_while PyStr.is_space s)))
    as [b Hb].
  exists a, (rev b). rewrite <- rev_app_distr, <- Hb, rev_involutive. exact Ha.
Qed.

Lemma has_nondigit_not_isdigit (t : pystr) :
  has_nondigit t = true -> PyStr.isdigit t = false.
Proof.
  unfold has_nondigit, PyStr.isdigit. intros H.
  destruct t as [|c t]; [reflexivity|].
  apply existsb_exists in H as (d & Hd & Hnd).
  apply not_true_iff_false. intros Hall.
  rewrite forallb_forall in Hall. rewrite (Hall d Hd) in Hnd. discriminate.
Qed.

(** Every heading pattern needs two characters, one of them no digit. *)
Lemma heading_patterns_shape :
  forallb (fun r => (2 <=? min_len r) && forces_nondigit r) heading_patterns = true.
Proof. vm_compute. reflexivity. Qed.

(** So a text that matches a heading pattern passes the first test of
    the classifier. *)
Lemma heading_pattern_text (t : pystr) :
  is_heading_pattern t = true -> 2 <= length t /\ PyStr.isdigit t = false.
Proof.
  unfold is_heading_pattern. intros H.
  apply existsb_exists in H as (r & Hr & Hm).
  pose proof heading_patterns_shape as Hs.
  rewrite forallb_forall in Hs. specialize (Hs r Hr).
  apply andb_true_iff in Hs as [Hlen Hnd]. apply Nat.leb_le in Hlen.
  apply matches_lang in Hm as (u & v & Huv & Hu).
  destruct (strip_infix t) as (a & b & Ht).
  pose proof (lang_min_len r u Hu) as Hmin.
  pose proof (lang_nondigit r u Hu Hnd) as Hn.
  split.
  - rewrite Ht, Huv, !length_app. lia.
  - apply has_nondigit_not_isdigit.
    rewrite Ht, Huv, !has_nondigit_app, Hn. by rewrite orb_true_r.
Qed.

(** C2, as stated, fails: a span of 20 points whose text is "7" is
    rejected. *)
Lemma large_font_digit_is_rejected :
  (18 <= font_size (block_of "7" (20 # 1) 0))%Q /\
  classify_heading_level binary64 (block_of "7" (20 # 1) 0) (12 # 1) = None.
Proof. split; [vm_compute; discriminate|reflexivity]. Qed.

(** C2, amended: a span with a font size of at least 18 is classified
    H1 when its stripped text has at least two characters and is not all
    digits, and is rejected otherwise; it is never H2 or H3. *)
Theorem large_font_is_H1 (ops : float_ops) (b : block) (avg_font_size : Q) :
  (18 <= font_size b)%Q ->
  (2 <= length (PyStr.strip (text b)) ->
   PyStr.isdigit (PyStr.strip (text b)) = false ->
   classify_heading_level ops b avg_font_size = Some H1) /\
  (length (PyStr.strip (text b)) < 2 \/ PyStr.isdigit (PyStr.strip (text b)) = true ->
   classify_heading_level ops b avg_font_size = None) /\
  classify_heading_level ops b avg_font_size <> Some H2 /\
  classify_heading_level ops b avg_font_size <> Some H3.
Proof.
  intros Hfs. unfold classify_heading_level.
  assert (Qgeb (font_size b) threshold_title = true) as Ht by by apply Qgeb_true.
  rewrite Ht.
  destruct (length (PyStr.strip (text b)) <? 2) eqn:Hlen.
  - apply Nat.ltb_lt in Hlen. simpl.
    split; [intros; lia|]. split; [reflexivity|]. split; discriminate.
  - apply Nat.ltb_ge in Hlen.
    destruct (PyStr.isdigit (PyStr.strip (text b))) eqn:Hd; simpl.
    + split; [discriminate|]. split; [reflexivity|]. split; discriminate.
    + split; [reflexivity|].
      split; [intros [H|H]; [lia|discriminate]|]. split; discriminate.
Qed.

Lemma large_font_is_H1_witness :
  classify_heading_level binary64 (block_of "Annual Report" (20 # 1) 0) (12 # 1)
  = Some H1 /\
  classify_heading_level binary64 (block_of "2024" (20 # 1) 0) (12 # 1) = None.
Proof.
  split.
  - apply (large_font_is_H1 binary64 (block_of "Annual Report" (20 # 1) 0) (12 # 1));
      [vm_compute; discriminate|vm_compute; lia|reflexivity].
  - apply (large_font_is_H1 binary64 (block_of "2024" (20 # 1) 0) (12 # 1));
      [vm_compute; discriminate|right; reflexivity].
Defined.

(** C4, as stated, fails: a bold span of 10 points with the text
    "1. Intro", in a document whose average font size is 10, is below
    every absolute threshold and not larger than 1.1 times the average
    (exactly, and as the float [10 * 1.1]), and is classified H1, not
    H3. *)
Lemma bold_numbered_span_is_H1 :
  (font_size (block_of "1. Intro" (10 # 1) 16) < 12)%Q /\
  is_heading_pattern (PyStr.strip (text (block_of "1. Intro" (10 # 1) 16))) = true /\
  (font_size (block_of "1. Intro" (10 # 1) 16) <= (10 # 1) * (11 # 10))%Q /\
  (font_size (block_of "1. Intro" (10 # 1) 16)
   <= fmul binary64 (10 # 1) (flit binary64 (11 # 10)))%Q /\
  classify_heading_level binary64 (block_of "1. Intro" (10 # 1) 16) (10 # 1) = Some H1 /\
  classify_heading_level binary64 (block_of "1. Intro" (10 # 1) 16) (10 # 1) <> Some H3.
Proof.
  split; [reflexivity|]. split; [reflexivity|].
  split; [vm_compute; discriminate|]. split; [vm_compute; discriminate|].
  split; [vm_compute; reflexivity|]. vm_compute. discriminate.
Qed.

(** C4, amended: a span below all absolute thresholds whose text matches
    a heading pattern is H1 when it is bold or larger than the float
    [avg_font_size * 1.2]; when it is not bold it is classified by
    relative size alone: H1 above [avg_font_size * 1.2], H2 above
    [avg_font_size * 1.1], H3 otherwise.  The two products are the
    rounded ones that the code computes. *)
Theorem pattern_heading_level (ops : float_ops) (b : block) (avg_font_size : Q) :
  (font_size b < 12)%Q ->
  is_heading_pattern (PyStr.strip (text b)) = true ->
  (is_bold (font_flags b) = true \/
   (fmul ops avg_font_size (flit ops (12 # 10)) < font_size b)%Q ->
   classify_heading_level ops b avg_font_size = Some H1) /\
  (is_bold (font_flags b) = false ->
   (font_size b <= fmul ops avg_font_size (flit ops (12 # 10)))%Q ->
   (fmul ops avg_font_size (flit ops (11 # 10)) < font_size b)%Q ->
   classify_heading_level ops b avg_font_size = Some H2) /\
  (is_bold (font_flags b) = false ->
   (font_size b <= fmul ops avg_font_size (flit ops (12 # 10)))%Q ->
   (font_size b <= fmul ops avg_font_size (flit ops (11 # 10)))%Q ->
   classify_heading_level ops b avg_font_size = Some H3).
Proof.
  intros Hfs Hpat. unfold classify_heading_level.
  destruct (heading_pattern_text _ Hpat) as [Hlen Hd].
  assert ((length (PyStr.strip (text b)) <? 2) = false) as -> by (apply Nat.ltb_ge; lia).
  rewrite Hd, Hpat. simpl orb at 1.
  assert (Qgeb (font_size b) threshold_title = false) as ->
    by (apply Qgeb_false; unfold threshold_title; lra).
  assert (Qgeb (font_size b) threshold_h1 = false) as ->
    by (apply Qgeb_false; unfold threshold_h1; lra).
  assert (Qgeb (font_size b) threshold_h2 = false) as ->
    by (apply Qgeb_false; unfold threshold_h2; lra).
  assert (Qgeb (font_size b) threshold_h3 = false) as ->
    by (apply Qgeb_false; unfold threshold_h3; lra).
  repeat split.
  - intros [Hb|Hgt].
    + by rewrite Hb.
    + apply Qgtb_true in Hgt. rewrite Hgt. by rewrite orb_true_r.
  - intros Hb H12 H11. apply Qgtb_false in H12. apply Qgtb_true in H11.
    by rewrite Hb, H12, H11.
  - intros Hb H12 H11. apply Qgtb_false in H12. apply Qgtb_false in H11.
    by rewrite Hb, H12, H11.
Qed.

(** With doubles: a bold span is H1; at an average of 10 a span of 11.5
    points is H2 and one of 10 points H3; a span of 10.8 points is H1 at
    an average of 9, where [9 * 1.2] is 10.799999999999999; a span of
    3.3000000000000003 points is H3 at an average of 3, where [3 * 1.1]
    is 3.3000000000000003 as well. *)
Lemma pattern_heading_level_witness :
  classify_heading_level binary64 (block_of "1. Intro" (10 # 1) 16) (10 # 1)
  = Some H1 /\
  classify_heading_level binary64 (block_of "1. Intro" (115 # 10) 0) (10 # 1)
  = Some H2 /\
  classify_heading_level binary64 (block_of "1. Intro" (10 # 1) 0) (10 # 1)
  = Some H3 /\
  classify_heading_level binary64
    (block_of "1. Intro" (flit binary64 (108 # 10)) 0) (9 # 1)
  = Some H1 /\
  classify_heading_level binary64
    (block_of "1. Intro" (7430939385161319 # 2251799813685248) 0) (3 # 1)
  = Some H3.
Proof.
  split; [|split; [|split; [|split]]].
  - apply (pattern_heading_level binary64 (block_of "1. Intro" (10 # 1) 16) (10 # 1));
      [reflexivity|reflexivity|left; reflexivity].
  - apply (pattern_heading_level binary64 (block_of "1. Intro" (115 # 10) 0) (10 # 1));
      [reflexivity|reflexivity|reflexivity|vm_compute; discriminate
      |vm_compute; reflexivity].
  - apply (pattern_heading_level binary64 (block_of "1. Intro" (10 # 1) 0) (10 # 1));
      [reflexivity|reflexivity|reflexivity|vm_compute; discriminate
      |vm_compute; discriminate].
  - apply (pattern_heading_level binary64
             (block_of "1. Intro" (flit binary64 (108 # 10)) 0) (9 # 1));
      [vm_compute; reflexivity|reflexivity|right; vm_compute; reflexivity].
  - apply (pattern_heading_level binary64
             (block_of "1. Intro" (7430939385161319 # 2251799813685248) 0) (3 # 1));
      [reflexivity|reflexivity|reflexivity|vm_compute; discriminate
      |vm_compute; discriminate].
Defined.
End ClassifierClaims.

(** ** Claims on [identify_sections] *)
Section SegmenterClaims.
Import Re Round1b Examples.

(** C3: the line "3.2 Methodology Overview" matches the first section
    marker, but the section it opens is not titled "Methodology
    Overview": the clean-up pattern removes the whole line (its class
    has [\w] and [\s], so it eats the words too), and the title-case
    test that follows puts the raw line back.  In lowercase the title
    stays empty. *)
Theorem numbered_heading_title :
  existsb (fun pattern => matches (icase pattern) (str "3.2 Methodology Overview"))
          (take 1 section_markers) = true /\
  PyStr.strip (sub_start title_cleanup (str "3.2 Methodology Overview")) = [] /\
  map section_title (identify_sections [methodology_page])
    = [str "3.2 Methodology Overview"] /\
  map section_title (identify_sections [methodology_page])
    <> [str "Methodology Overview"] /\
  map section_title (identify_sections [lowercase_methodology_page]) = [ [] ].
Proof.
  split; [reflexivity|]. split; [reflexivity|].
  split; [reflexivity|]. split; [discriminate|reflexivity].
Qed.
End SegmenterClaims.

(** ** Claims on [analyze_documents] *)
Section RankingClaims.
Import Round1b Examples.

Lemma StronglySorted_weaken {A : Type} (R R' : A -> A -> Prop) (l : list A) :
  (forall a b, R a b -> R' a b) -> StronglySorted R l -> StronglySorted R' l.
Proof.
  intros HR. induction 1 as [|x l _ IH Hx]; constructor; [exact IH|].
  eapply Forall_impl; [exact Hx|]. intros y. apply HR.
Qed.

Lemma sort_sections_perm (l : list scored_section) :
  Permutation (sort_sections l) l.
Proof. apply stable_sort_perm. Qed.

Lemma sort_sections_sorted (l : list scored_section) :
  StronglySorted (fun a b => (relevance_score b <= relevance_score a)%Q)
                 (sort_sections l).
Proof.
  eapply StronglySorted_weaken; [|apply stable_sort_sorted].
  - intros a b H. by apply Qle_bool_iff in H.
  - intros a b.
    destruct (Qlt_le_dec (relevance_score a) (relevance_score b)) as [H|H].
    + right. apply Qle_bool_iff. by apply Qlt_le_weak.
    + left. by apply Qle_bool_iff.
  - intros a b c H1 H2. apply Qle_bool_iff in H1, H2. apply Qle_bool_iff.
    by apply Qle_trans with (relevance_score b).
Qed.

(** Sections with equal scores keep the order they were found in. *)
Lemma sort_sections_stable (l : list scored_section) (q : Q) :
  List.filter (fun s => Qeq_bool (relevance_score s) q) (sort_sections l)
  = List.filter (fun s => Qeq_bool (relevance_score s) q) l.
Proof.
  apply stable_sort_filter. intros a b Ha Hb.
  apply Qeq_bool_iff in Ha, Hb. apply Qle_bool_iff. rewrite Ha, Hb. apply Qle_refl.
Qed.

Lemma StronglySorted_take {A : Type} (R : A -> A -> Prop) (n : nat) (l : list A) :
  StronglySorted R l -> StronglySorted R (take n l).
Proof.
  intros H. rewrite <- (take_drop n l) in H. by apply StronglySorted_app_1_l in H.
Qed.

(** C6: when every document is read, [analyze_documents] returns an
    analysis whose [extracted_sections] has min(10, number of scored
    sections) entries; they are the first entries of the scored sections
    sorted by non-increasing score, sections of equal score in the order
    they were found; and the entry at position [i] (from 0) has
    [importance_rank] [i + 1]. *)
Theorem extracted_sections_ranked
    (similarity : pystr -> pystr -> Q) (fitz_text : pystr -> exc (list pystr))
    (os_path_exists : pystr -> bool) (now : pystr)
    (inp : input_data) (all_sections : list scored_section) :
  collect_sections similarity fitz_text os_path_exists
    (in_documents inp) (in_persona inp) (in_job_to_be_done inp) = Ret all_sections ->
  exists r,
    analyze_documents similarity fitz_text os_path_exists now inp = Analysis r /\
    let sorted := sort_sections all_sections in
    let top_sections := take 10 sorted in
    length (extracted_sections r) = Nat.min 10 (length all_sections) /\
    Permutation sorted all_sections /\
    StronglySorted (fun a b => (relevance_score b <= relevance_score a)%Q)
                   top_sections /\
    (forall q,
        List.filter (fun s => Qeq_bool (relevance_score s) q) sorted
        = List.filter (fun s => Qeq_bool (relevance_score s) q) all_sections) /\
    (forall i e,
        extracted_sections r !! i = Some e ->
        importance_rank e = (Z.of_nat i + 1)%Z /\
        exists s,
          top_sections !! i = Some s /\
          es_document e = document (scored s) /\
          es_section_title e = section_title (scored s) /\
          es_page_number e = page_start (scored s)).
Proof.
  intros Hall. unfold analyze_documents. rewrite Hall.
  eexists. split; [reflexivity|]. cbn [rank extracted_sections].
  split.
  { rewrite length_imap, length_take.
    unfold sort_sections. by rewrite stable_sort_length. }
  split; [apply sort_sections_perm|].
  split; [apply StronglySorted_take, sort_sections_sorted|].
  split; [intros q; apply sort_sections_stable|].
  intros i e He. rewrite list_lookup_imap in He.
  destruct (take 10 (sort_sections all_sections) !! i) as [s|] eqn:Hs;
    [|discriminate].
  injection He as <-. split; [reflexivity|].
  exists s. split; [reflexivity|]. split; [reflexivity|]. split; [reflexivity|].
  cbn [extracted_entry es_page_number]. by destruct (_ =? _)%Z.
Qed.

Lemma extracted_sections_ranked_witness :
  exists all_sections,
    collect_sections length_similarity two_pages every_path_exists
      (in_documents one_document) (in_persona one_document)
      (in_job_to_be_done one_document) = Ret all_sections /\
    length all_sections = 2 /\
    exists r,
      analyze_documents length_similarity two_pages every_path_exists fixed_clock
        one_document = Analysis r /\
      length (extracted_sections r) = Nat.min 10 (length all_sections) /\
      map importance_rank (extracted_sections r) = [1%Z; 2%Z].
Proof.
  eexists. split; [reflexivity|]. split; [reflexivity|].
  destruct (extracted_sections_ranked length_similarity two_pages every_path_exists
              fixed_clock one_document _ eq_refl) as (r & Hr & Hlen & _).
  exists r. split; [exact Hr|]. split; [exact Hlen|].
  unfold analyze_documents in Hr. injection Hr as <-. reflexivity.
Defined.
End RankingClaims.

(** ** Claims on [extract_outline] *)
Section OutlineClaims.
Import Round1a Examples.

(** A heading that the filter keeps has a key that was not seen, and is
    the first heading of the list with its key. *)
Lemma filter_seen_first (seen : gset (pystr * heading_level)) (hs : list heading)
    (h : heading) :
  In h (filter_seen seen hs) ->
  (heading_key h ∉ seen) /\
  exists l1 l2, hs = l1 ++ h :: l2 /\
                forall x, In x l1 -> heading_key x <> heading_key h.
Proof.
  revert seen. induction hs as [|a hs IH]; intros seen Hin; [destruct Hin|].
  simpl in Hin. destruct (decide (heading_key a ∈ seen)) as [Ha|Ha].
  - destruct (IH _ Hin) as (Hh & l1 & l2 & -> & Hl1). split; [exact Hh|].
    exists (a :: l1), l2. split; [reflexivity|].
    intros x [<-|Hx]; [congruence|by apply Hl1].
  - destruct Hin as [<-|Hin].
    + split; [exact Ha|]. exists [], hs. split; [reflexivity|]. intros x [].
    + destruct (IH _ Hin) as (Hh & l1 & l2 & -> & Hl1).
      split; [intros Hs; apply Hh, elem_of_union; by right|].
      exists (a :: l1), l2. split; [reflexivity|].
      intros x [<-|Hx]; [|by apply Hl1].
      intros He. apply Hh, elem_of_union. left. by apply elem_of_singleton.
Qed.

Lemma filter_seen_NoDup (seen : gset (pystr * heading_level)) (hs : list heading) :
  NoDup (map heading_key (filter_seen seen hs)).
Proof.
  revert seen. induction hs as [|a hs IH]; intros seen; simpl; [constructor|].
  destruct (decide (heading_key a ∈ seen)); [apply IH|].
  simpl. constructor; [|apply IH].
  rewrite list_elem_of_In, in_map_iff. intros (h & Hk & Hin).
  apply filter_seen_first in Hin as [Hin _].
  apply Hin, elem_of_union. left. by apply elem_of_singleton.
Qed.

Lemma filter_seen_sublist (seen : gset (pystr * heading_level)) (hs : list heading) :
  sublist (filter_seen seen hs) hs.
Proof.
  revert seen. induction hs as [|a hs IH]; intros seen; simpl; [constructor|].
  destruct (decide (heading_key a ∈ seen)).
  - apply sublist_cons, IH.
  - apply sublist_skip, IH.
Qed.

(** Every key that was not seen keeps a heading. *)
Lemma filter_seen_complete (seen : gset (pystr * heading_level)) (hs : list heading)
    (h : heading) :
  In h hs -> heading_key h ∉ seen ->
  exists h', In h' (filter_seen seen hs) /\ heading_key h' = heading_key h.
Proof.
  revert seen. induction hs as [|a hs IH]; intros seen Hin Hk; [destruct Hin|].
  simpl. destruct (decide (heading_key a ∈ seen)) as [Ha|Ha].
  - destruct Hin as [->|Hin]; [contradiction|]. by apply IH.
  - destruct (decide (heading_key a = heading_key h)) as [He|He].
    + exists a. split; [by left|exact He].
    + destruct Hin as [->|Hin]; [contradiction|].
      destruct (IH ({[heading_key a]} ∪ seen) Hin) as (h' & Hh' & Hk').
      { intros [Hs%elem_of_singleton|Hs]%elem_of_union; [congruence|contradiction]. }
      exists h'. split; [by right|exact Hk'].
Qed.

Lemma sort_by_page_perm (hs : list heading) : Permutation (sort_by_page hs) hs.
Proof. apply stable_sort_perm. Qed.

Lemma sort_by_page_sorted (hs : list heading) :
  StronglySorted (fun a b => (heading_page a <= heading_page b)%Z) (sort_by_page hs).
Proof.
  eapply StronglySorted_weaken; [|apply stable_sort_sorted].
  - intros a b H. by apply Z.leb_le in H.
  - intros a b. rewrite !Z.leb_le. lia.
  - intros a b c. rewrite !Z.leb_le. lia.
Qed.

(** Headings of one page keep the order of the scan. *)
Lemma sort_by_page_stable (hs : list heading) (p : Z) :
  List.filter (fun h => (heading_page h =? p)%Z) (sort_by_page hs)
  = List.filter (fun h => (heading_page h =? p)%Z) hs.
Proof.
  apply stable_sort_filter. intros a b Ha Hb.
  apply Z.eqb_eq in Ha, Hb. apply Z.leb_le. lia.
Qed.

Lemma extract_outline_of_pages (ops : float_ops)
    (fitz_spans : pystr -> exc (list (list span))) (pdf_path : pystr)
    (pages_data : list page) :
  extract_text_with_formatting fitz_spans pdf_path = Ret pages_data ->
  pages_data <> [] ->
  extract_outline ops fitz_spans pdf_path
  = {| title := extract_title pages_data;
       outline := sort_by_page (extract_headings ops pages_data) |}.
Proof.
  intros H Hne. unfold extract_outline. rewrite H. simpl.
  destruct pages_data; [contradiction|reflexivity].
Qed.

Lemma extract_outline_cases (ops : float_ops)
    (fitz_spans : pystr -> exc (list (list span))) (pdf_path : pystr) :
  outline (extract_outline ops fitz_spans pdf_path) = [] \/
  exists pages_data,
    extract_text_with_formatting fitz_spans pdf_path = Ret pages_data /\
    pages_data <> [] /\
    outline (extract_outline ops fitz_spans pdf_path)
    = sort_by_page (extract_headings ops pages_data).
Proof.
  destruct (extract_text_with_formatting fitz_spans pdf_path) as [e|pages_data] eqn:H.
  - left. unfold extract_outline. by rewrite H.
  - destruct pages_data as [|pg pages_data].
    + left. unfold extract_outline. by rewrite H.
    + right. exists (pg :: pages_data). split; [reflexivity|]. split; [discriminate|].
      by rewrite (extract_outline_of_pages _ _ _ _ H).
Qed.

(** C7: in every outline that [extract_outline] returns, no two headings
    have the same lowercased text and level, and the pages do not
    decrease.  When the document has pages, the outline is a
    rearrangement of the headings the filter keeps from the scan: of the
    headings of the scan with one key the first is kept, and the
    headings of one page stand in scan order. *)
Theorem outline_well_formed (ops : float_ops)
    (fitz_spans : pystr -> exc (list (list span))) (pdf_path : pystr) :
  let out := outline (extract_outline ops fitz_spans pdf_path) in
  NoDup (map heading_key out) /\
  StronglySorted (fun a b => (heading_page a <= heading_page b)%Z) out /\
  forall pages_data,
    extract_text_with_formatting fitz_spans pdf_path = Ret pages_data ->
    pages_data <> [] ->
    let scan := scan_headings ops pages_data in
    let kept := filter_duplicate_headings scan in
    sublist kept scan /\
    Permutation out kept /\
    (forall p,
        List.filter (fun h => (heading_page h =? p)%Z) out
        = List.filter (fun h => (heading_page h =? p)%Z) kept) /\
    (forall h, In h out ->
               exists l1 l2, scan = l1 ++ h :: l2 /\
                             forall x, In x l1 -> heading_key x <> heading_key h) /\
    (forall h, In h scan ->
               exists h', In h' out /\ heading_key h' = heading_key h).
Proof.
  intros out. subst out. split; [|split].
  - destruct (extract_outline_cases ops fitz_spans pdf_path) as [->|(pages & _ & _ & ->)];
      [constructor|].
    rewrite (Permutation_map heading_key (sort_by_page_perm _)).
    apply filter_seen_NoDup.
  - destruct (extract_outline_cases ops fitz_spans pdf_path) as [->|(pages & _ & _ & ->)];
      [constructor|apply sort_by_page_sorted].
  - intros pages_data H Hne scan kept.
    rewrite (extract_outline_of_pages _ _ _ _ H Hne). cbn [outline].
    fold scan. unfold extract_headings. fold scan. fold kept.
    split; [apply filter_seen_sublist|].
    split; [apply sort_by_page_perm|].
    split; [intros p; apply sort_by_page_stable|].
    split.
    + intros h Hh. eapply Permutation_in in Hh; [|apply sort_by_page_perm].
      by apply filter_seen_first in Hh as [_ Hh].
    + intros h Hh.
      destruct (filter_seen_complete ∅ scan h Hh) as (h' & Hh' & Hk);
        [apply not_elem_of_empty|].
      exists h'. split; [|exact Hk].
      eapply Permutation_in; [symmetry; apply sort_by_page_perm|exact Hh'].
Qed.

Lemma outline_well_formed_witness :
  exists pages_data,
    extract_text_with_formatting report (str "report.pdf") = Ret pages_data /\
    pages_data <> [] /\
    map heading_text (scan_headings binary64 pages_data)
    = map str ["1. Introduction"; "References"; "2. Methods"; "1. introduction"]%string /\
    map heading_text (outline (extract_outline binary64 report (str "report.pdf")))
    = map str ["1. Introduction"; "References"; "2. Methods"]%string /\
    sublist (filter_duplicate_headings (scan_headings binary64 pages_data))
            (scan_headings binary64 pages_data) /\
    Permutation (outline (extract_outline binary64 report (str "report.pdf")))
                (filter_duplicate_headings (scan_headings binary64 pages_data)).
Proof.
  eexists. split; [reflexivity|]. split; [discriminate|].
  split; [reflexivity|]. split; [reflexivity|].
  destruct (outline_well_formed binary64 report (str "report.pdf")) as (_ & _ & H).
  destruct (H _ eq_refl) as (Hsub & Hperm & _); [discriminate|].
  split; [exact Hsub|exact Hperm].
Defined.

(** C8: [extract_outline] returns a result in every case.  When the PDF
    layer raises, the result is the title "Error Processing Document" with
    an empty outline; when the document has no page, it is the title
    "Empty Document" with an empty outline; otherwise it is the title and
    the sorted headings of the pages. *)
Theorem extract_outline_failure_modes (ops : float_ops)
    (fitz_spans : pystr -> exc (list (list span))) (pdf_path : pystr) :
  (forall e,
      fitz_spans pdf_path = Raise e ->
      extract_outline ops fitz_spans pdf_path
      = {| title := str "Error Processing Document"; outline := [] |}) /\
  (fitz_spans pdf_path = Ret [] ->
   extract_outline ops fitz_spans pdf_path
   = {| title := str "Empty Document"; outline := [] |}) /\
  (forall doc,
      fitz_spans pdf_path = Ret doc -> doc <> [] ->
      exists pages_data,
        extract_text_with_formatting fitz_spans pdf_path = Ret pages_data /\
        length pages_data = length doc /\
        extract_outline ops fitz_spans pdf_path
        = {| title := extract_title pages_data;
             outline := sort_by_page (extract_headings ops pages_data) |}).
Proof.
  split; [|split].
  - intros e H. unfold extract_outline, extract_text_with_formatting. by rewrite H.
  - intros H. unfold extract_outline, extract_text_with_formatting. by rewrite H.
  - intros doc H Hne. eexists. split.
    + unfold extract_text_with_formatting. rewrite H. reflexivity.
    + split; [apply length_imap|].
      apply extract_outline_of_pages.
      * unfold extract_text_with_formatting. rewrite H. reflexivity.
      * destruct doc; [contradiction|discriminate].
Qed.

Lemma extract_outline_failure_modes_witness :
  extract_outline binary64 unreadable (str "broken.pdf")
  = {| title := str "Error Processing Document"; outline := [] |} /\
  extract_outline binary64 no_pages (str "empty.pdf")
  = {| title := str "Empty Document"; outline := [] |} /\
  exists pages_data,
    extract_text_with_formatting report (str "report.pdf") = Ret pages_data /\
    length pages_data = 2 /\
    extract_outline binary64 report (str "report.pdf")
    = {| title := extract_title pages_data;
         outline := sort_by_page (extract_headings binary64 pages_data) |}.
Proof.
  split; [|split].
  - destruct (extract_outline_failure_modes binary64 unreadable (str "broken.pdf"))
      as (H & _ & _).
    apply (H (str "cannot open broken document")). reflexivity.
  - destruct (extract_outline_failure_modes binary64 no_pages (str "empty.pdf"))
      as (_ & H & _).
    apply H. reflexivity.
  - destruct (extract_outline_failure_modes binary64 report (str "report.pdf"))
      as (_ & _ & H).
    edestruct H as (pages_data & Hp & Hlen & Hout); [reflexivity|discriminate|].
    exists pages_data. split; [exact Hp|]. split; [exact Hlen|exact Hout].
Defined.
End OutlineClaims.


(** * Further properties of round1a.py *)

(** ** Stripping *)
Section StripFacts.

Lemma drop_while_head (p : ascii -> bool) (s : pystr) :
  match PyStr.drop_while p s with
  | [] => True
  | c :: _ => p c = false
  end.
Proof.
  induction s as [|c s IH]; simpl; [exact I|].
  destruct (p c) eqn:Hc; [exact IH|exact Hc].
Qed.

Lemma drop_while_fixed (p : ascii -> bool) (s : pystr) :
  match s with [] => True | c :: _ => p c = false end ->
  PyStr.drop_while p s = s.
Proof. destruct s as [|c s]; simpl; [reflexivity|]. by intros ->. Qed.

(** A stripped text is empty, or starts and ends with a character that is
    no whitespace. *)
Lemma strip_ends (s : pystr) :
  match PyStr.strip s with [] => True | c :: _ => PyStr.is_space c = false end /\
  match rev (PyStr.strip s) with [] => True | c :: _ => PyStr.is_space c = false end.
Proof.
  unfold PyStr.strip, PyStr.rstrip, PyStr.lstrip.
  set (x := PyStr.drop_while PyStr.is_space s).
  pose proof (drop_while_head PyStr.is_space s) as Hx. fold x in Hx.
  pose proof (drop_while_head PyStr.is_space (rev x)) as Hy.
  destruct (drop_while_suffix PyStr.is_space (rev x)) as [b Hb].
  split; [|by rewrite rev_involutive].
  assert (x = rev (PyStr.drop_while PyStr.is_space (rev x)) ++ rev b) as Hxy
    by (rewrite <- rev_app_distr, <- Hb; by rewrite rev_involutive).
  destruct (rev (PyStr.drop_while PyStr.is_space (rev x))) as [|c y]; [exact I|].
  rewrite Hxy in Hx. exact Hx.
Qed.

(** [s.strip().strip() == s.strip()] *)
Lemma strip_idempotent (s : pystr) : PyStr.strip (PyStr.strip s) = PyStr.strip s.
Proof.
  destruct (strip_ends s) as [Hhead Hlast].
  set (y := PyStr.strip s) in *.
  unfold PyStr.strip, PyStr.rstrip, PyStr.lstrip.
  rewrite (drop_while_fixed _ y Hhead), (drop_while_fixed _ (rev y) Hlast).
  apply rev_involutive.
Qed.

Lemma strip_length (s : pystr) : length (PyStr.strip s) <= length s.
Proof.
  destruct (strip_infix s) as (a & b & H).
  rewrite H at 2. rewrite !length_app. lia.
Qed.
End StripFacts.

(** ** The PDF layer and the flags *)
Section ExtractionFacts.
Import Round1a.

(** X1: [is_bold] reads bit 4 of the font flags, and nothing else. *)
Theorem is_bold_is_bit_4 (fl : Z) : is_bold fl = Z.testbit fl 4.
Proof.
  unfold is_bold. destruct (Z.testbit fl 4) eqn:Hb.
  - apply negb_true_iff, Z.eqb_neq. intros H0.
    assert (Z.testbit (Z.land fl 16) 4 = true) as Ht
      by (rewrite Z.land_spec, Hb; reflexivity).
    rewrite H0 in Ht. discriminate.
  - apply negb_false_iff, Z.eqb_eq. apply Z.bits_inj'. intros n Hn.
    rewrite Z.land_spec, Z.bits_0. change 16%Z with (2 ^ 4)%Z.
    rewrite Z.pow2_bits_eqb by lia.
    destruct (Z.eqb_spec 4 n) as [<-|Hne]; [by rewrite Hb|apply andb_false_r].
Qed.

Lemma block_of_span_text (sp : span) (b : block) :
  block_of_span sp = Some b ->
  text b = PyStr.strip (span_text sp) /\ text b <> [] /\
  font_size b = size sp /\ font_flags b = flags sp.
Proof.
  unfold block_of_span. destruct (PyStr.strip (span_text sp)) eqn:Hs; [discriminate|].
  intros [= <-]. simpl. by rewrite ?Hs.
Qed.

(** The pages of a document that the PDF layer could read, and their
    numbers. *)
Lemma pages_of_document
    (fitz_spans : pystr -> exc (list (list span))) (pdf_path : pystr)
    (doc : list (list span)) :
  fitz_spans pdf_path = Ret doc ->
  exists pages_data,
    extract_text_with_formatting fitz_spans pdf_path = Ret pages_data /\
    length pages_data = length doc /\
    (forall i pg, pages_data !! i = Some pg -> page_number pg = (Z.of_nat i + 1)%Z).
Proof.
  intros H. unfold extract_text_with_formatting. rewrite H. eexists.
  split; [reflexivity|]. split; [apply length_imap|].
  intros i pg Hpg. rewrite list_lookup_imap in Hpg.
  destruct (doc !! i); [|discriminate]. by injection Hpg as <-.
Qed.

(** The blocks of an extracted page hold stripped, non-empty texts. *)
Lemma blocks_of_page
    (fitz_spans : pystr -> exc (list (list span))) (pdf_path : pystr)
    (pages_data : list page) (pg : page) (b : block) :
  extract_text_with_formatting fitz_spans pdf_path = Ret pages_data ->
  In pg pages_data -> In b (text_blocks pg) ->
  text b <> [] /\ PyStr.strip (text b) = text b.
Proof.
  unfold extract_text_with_formatting.
  destruct (fitz_spans pdf_path) as [e|doc]; [discriminate|].
  intros [= <-] Hpg Hb. apply list_elem_of_In, list_elem_of_lookup in Hpg as [i Hpg].
  rewrite list_lookup_imap in Hpg.
  destruct (doc !! i) as [spans|]; [|discriminate]. injection Hpg as <-.
  simpl in Hb. apply list_elem_of_In, list_elem_of_omap in Hb as (sp & _ & Hsp).
  apply block_of_span_text in Hsp as (Ht & Hne & _).
  split; [exact Hne|]. rewrite Ht. apply strip_idempotent.
Qed.

(** X2: the pages that [extract_text_with_formatting] builds are as many as
    the document has, the page at index [i] has number [i + 1], and every
    text block holds a non-empty text that stripping leaves unchanged, so
    the [strip()] calls of the later stages do nothing. *)
Theorem extracted_pages_shape
    (fitz_spans : pystr -> exc (list (list span))) (pdf_path : pystr)
    (doc : list (list span)) :
  fitz_spans pdf_path = Ret doc ->
  exists pages_data,
    extract_text_with_formatting fitz_spans pdf_path = Ret pages_data /\
    length pages_data = length doc /\
    (forall i pg, pages_data !! i = Some pg -> page_number pg = (Z.of_nat i + 1)%Z) /\
    (forall pg b, In pg pages_data -> In b (text_blocks pg) ->
                  text b <> [] /\ PyStr.strip (text b) = text b).
Proof.
  intros Hdoc.
  destruct (pages_of_document fitz_spans pdf_path doc Hdoc) as (pages & Hp & Hlen & Hnum).
  exists pages. split; [exact Hp|]. split; [exact Hlen|]. split; [exact Hnum|].
  intros pg b Hpg Hb. exact (blocks_of_page fitz_spans pdf_path pages pg b Hp Hpg Hb).
Qed.

Lemma extracted_pages_shape_witness :
  exists pages_data,
    extract_text_with_formatting Examples.report (str "report.pdf") = Ret pages_data /\
    length pages_data = 2 /\
    map page_number pages_data = [1%Z; 2%Z].
Proof.
  destruct (extracted_pages_shape Examples.report (str "report.pdf") _ eq_refl)
    as (pages_data & Hp & Hlen & _).
  exists pages_data. split; [exact Hp|]. split; [exact Hlen|].
  injection Hp as <-. reflexivity.
Defined.
End ExtractionFacts.

(** ** The title *)
Section TitleFacts.
Import Round1a.

Lemma longest_spec (rest : list pystr) (best : pystr) :
  In (longest best rest) (best :: rest) /\
  forall y, In y (best :: rest) -> length y <= length (longest best rest).
Proof.
  unfold longest. revert best. induction rest as [|c rest IH]; intros best; simpl.
  - split; [by left|]. intros y [<-|[]]. lia.
  - destruct (IH (if length best <? length c then c else best)) as [Hin Hmax].
    split.
    + destruct Hin as [Hin|Hin]; [|by right; right].
      rewrite <- Hin. destruct (length best <? length c); [right; by left|by left].
    + intros y Hy. destruct (length best <? length c) eqn:Hlt.
      * apply Nat.ltb_lt in Hlt. destruct Hy as [<-|[<-|Hy]].
        -- specialize (Hmax c (or_introl eq_refl)). lia.
        -- apply Hmax. by left.
        -- apply Hmax. by right.
      * apply Nat.ltb_ge in Hlt. destruct Hy as [<-|[<-|Hy]].
        -- apply Hmax. by left.
        -- specialize (Hmax best (or_introl eq_refl)). lia.
        -- apply Hmax. by right.
Qed.

(** The loop of [extract_title] keeps: the largest font size so far among
    the blocks with more than three characters, and the texts of exactly
    the blocks of that size. *)
Lemma title_fold (todo done : list block) (m : Q) (cands : list pystr) :
  (0 <= m)%Q ->
  (forall c, In c cands ->
             exists b, In b done /\ c = PyStr.strip (text b) /\ 3 < length c /\
                       (font_size b == m)%Q) ->
  (forall b, In b done -> 3 < length (PyStr.strip (text b)) ->
             (font_size b <= m)%Q /\
             ((font_size b == m)%Q -> In (PyStr.strip (text b)) cands)) ->
  (cands = [] -> (m == 0)%Q) ->
  forall m' cands',
    fold_left title_step todo (m, cands) = (m', cands') ->
    (0 <= m')%Q /\
    (forall c, In c cands' ->
               exists b, In b (done ++ todo) /\ c = PyStr.strip (text b) /\
                         3 < length c /\ (font_size b == m')%Q) /\
    (forall b, In b (done ++ todo) -> 3 < length (PyStr.strip (text b)) ->
               (font_size b <= m')%Q /\
               ((font_size b == m')%Q -> In (PyStr.strip (text b)) cands')) /\
    (cands' = [] -> (m' == 0)%Q).
Proof.
  revert done m cands. induction todo as [|b todo IH];
    intros done m cands Hm Hc Hb He m' cands' Hfold.
  { simpl in Hfold. injection Hfold as <- <-. rewrite app_nil_r.
    split; [exact Hm|]. split; [exact Hc|]. split; [exact Hb|exact He]. }
  simpl in Hfold.
  replace (done ++ b :: todo) with ((done ++ [b]) ++ todo)
    by (by rewrite <- app_assoc).
  destruct (title_step (m, cands) b) as [m1 c1] eqn:Hst. unfold title_step in Hst.
  destruct (3 <? length (PyStr.strip (text b))) eqn:Hlen;
    [apply Nat.ltb_lt in Hlen|apply Nat.ltb_ge in Hlen].
  - destruct (Qgtb (font_size b) m) eqn:Hgt; simpl andb in Hst; cbv iota in Hst.
    + apply Qgtb_true in Hgt. injection Hst as <- <-.
      eapply IH; [| | | |exact Hfold].
      * lra.
      * intros c [<-|[]]. exists b. split; [apply in_app_iff; right; by left|].
        split; [reflexivity|]. split; [exact Hlen|reflexivity].
      * intros b' Hb' Hl'. apply in_app_iff in Hb' as [Hb'|[<-|[]]].
        -- destruct (Hb b' Hb' Hl') as [Hle _]. split; [lra|]. intros Heq. lra.
        -- split; [lra|]. intros _. by left.
      * discriminate.
    + apply Qgtb_false in Hgt.
      destruct (Qeq_bool (font_size b) m) eqn:Heq; simpl andb in Hst; cbv iota in Hst.
      * apply Qeq_bool_iff in Heq. injection Hst as <- <-.
        eapply IH; [| | | |exact Hfold].
        -- exact Hm.
        -- intros c Hin. apply in_app_iff in Hin as [Hin|[<-|[]]].
           ++ destruct (Hc c Hin) as (b' & Hb' & Hrest).
              exists b'. split; [apply in_app_iff; by left|exact Hrest].
           ++ exists b. split; [apply in_app_iff; right; by left|].
              split; [reflexivity|]. split; [exact Hlen|exact Heq].
        -- intros b' Hb' Hl'. apply in_app_iff in Hb' as [Hb'|[<-|[]]].
           ++ destruct (Hb b' Hb' Hl') as [Hle Hin]. split; [exact Hle|].
              intros Hq. apply in_app_iff. left. by apply Hin.
           ++ split; [lra|]. intros _. apply in_app_iff. right. by left.
        -- intros Hnil. by apply app_eq_nil in Hnil as [_ Hnil].
      * apply Qeq_bool_neq in Heq. injection Hst as <- <-.
        eapply IH; [| | | |exact Hfold].
        -- exact Hm.
        -- intros c Hin. destruct (Hc c Hin) as (b' & Hb' & Hrest).
           exists b'. split; [apply in_app_iff; by left|exact Hrest].
        -- intros b' Hb' Hl'. apply in_app_iff in Hb' as [Hb'|[<-|[]]].
           ++ by apply Hb.
           ++ split; [exact Hgt|]. intros Hq. contradiction.
        -- exact He.
  - rewrite !andb_false_r in Hst, Hfold. injection Hst as <- <-.
    eapply IH; [| | | |exact Hfold].
    + exact Hm.
    + intros c Hin. destruct (Hc c Hin) as (b' & Hb' & Hrest).
      exists b'. split; [apply in_app_iff; by left|exact Hrest].
    + intros b' Hb' Hl'. apply in_app_iff in Hb' as [Hb'|[<-|[]]].
      * by apply Hb.
      * lia.
    + exact He.
Qed.

(** X3: [extract_title] looks at the first page only.  It answers
    "Untitled Document" when there is no page, or when no block of the first
    page has more than three characters and a font size of at least 0;
    otherwise it answers the stripped text of a block of the first page,
    with more than three characters, whose font size no such block exceeds
    and whose text is as long as that of any such block of the same size. *)
Theorem extract_title_choice (pages_data : list page) :
  match pages_data with
  | [] => extract_title pages_data = str "Untitled Document"
  | first_page :: _ =>
      (extract_title pages_data = str "Untitled Document" /\
       forall b, In b (text_blocks first_page) ->
                 3 < length (PyStr.strip (text b)) -> (font_size b < 0)%Q) \/
      (exists b,
          In b (text_blocks first_page) /\
          extract_title pages_data = PyStr.strip (text b) /\
          3 < length (extract_title pages_data) /\
          (0 <= font_size b)%Q /\
          forall b', In b' (text_blocks first_page) ->
                     3 < length (PyStr.strip (text b')) ->
                     (font_size b' <= font_size b)%Q /\
                     ((font_size b' == font_size b)%Q ->
                      length (PyStr.strip (text b')) <= length (extract_title pages_data)))
  end.
Proof.
  destruct pages_data as [|first_page rest]; [reflexivity|].
  unfold extract_title.
  destruct (fold_left title_step (text_blocks first_page) (0 # 1, []))
    as [m cands] eqn:Hfold.
  destruct (title_fold (text_blocks first_page) [] (0 # 1) [])
    with (m' := m) (cands' := cands) as (Hm & Hc & Hb & He);
    [lra|intros c []|intros b []|reflexivity|exact Hfold|].
  simpl app in Hc, Hb. cbn [snd].
  destruct cands as [|c cs].
  - left. split; [reflexivity|]. intros b Hin Hlen.
    destruct (Hb b Hin Hlen) as [Hle Hnone]. specialize (He eq_refl).
    destruct (Qlt_le_dec (font_size b) 0) as [Hlt|Hge]; [exact Hlt|].
    destruct Hnone. lra.
  - right. destruct (longest_spec cs c) as [Hin Hmax].
    destruct (Hc _ Hin) as (b & Hbin & Heq & Hlen & Hfs).
    exists b. split; [exact Hbin|]. split; [exact Heq|]. split; [exact Hlen|].
    split; [lra|]. intros b' Hb' Hl'.
    destruct (Hb b' Hb' Hl') as [Hle Hcand]. split; [lra|].
    intros Hq. apply Hmax, Hcand. lra.
Qed.
End TitleFacts.

(** ** The average font size *)
Section AverageFacts.
Import Round1a.

(** The list [font_sizes] that the two loops build: the font sizes of
    the blocks of all pages, in reading order. *)
Lemma font_sizes_of_pages (pages_data : list page) :
  concat (map (fun p => map font_size (text_blocks p)) pages_data)
  = map font_size (concat (map text_blocks pages_data)).
Proof.
  induction pages_data as [|pg pages_data IH]; [reflexivity|].
  cbn [map concat]. by rewrite map_app, IH.
Qed.

Lemma concat_all_nil {A : Type} (ls : list (list A)) :
  (forall l, In l ls -> l = []) -> concat ls = [].
Proof.
  induction ls as [|l ls IH]; intros H; [reflexivity|].
  cbn [concat]. rewrite (H l (or_introl eq_refl)).
  apply IH. intros l' Hl'. apply H. by right.
Qed.

(** X4: a document without any text block has average font size 12, also
    when it has pages.  Otherwise the average is the float quotient of
    [sum] over the font sizes of all blocks, in reading order, by their
    number; so it is the average of the one-page document that holds the
    same blocks: page breaks and page numbers do not matter. *)
Theorem average_font_size_of_blocks (ops : float_ops) (pages_data : list page) :
  ((forall pg, In pg pages_data -> text_blocks pg = []) ->
   calculate_average_font_size ops pages_data = 12 # 1) /\
  (concat (map text_blocks pages_data) <> [] ->
   calculate_average_font_size ops pages_data
   = fdiv ops (fsum ops (map font_size (concat (map text_blocks pages_data))))
              (inject_Z (Z.of_nat (length (concat (map text_blocks pages_data)))))) /\
  calculate_average_font_size ops pages_data
  = calculate_average_font_size ops
      [ {| page_number := 1; text_blocks := concat (map text_blocks pages_data) |} ].
Proof.
  unfold calculate_average_font_size. rewrite !font_sizes_of_pages.
  split; [|split].
  - intros Hnone. rewrite concat_all_nil; [reflexivity|].
    intros l Hl. apply in_map_iff in Hl as (pg & <- & Hpg). by apply Hnone.
  - intros Hne. destruct (concat (map text_blocks pages_data)) as [|b bs] eqn:Hbs;
      [contradiction|].
    cbn [map]. by rewrite <- (length_map font_size (b :: bs)).
  - cbn [map concat text_blocks]. by rewrite app_nil_r.
Qed.

Lemma average_font_size_of_blocks_witness :
  calculate_average_font_size binary64 [ {| page_number := 1; text_blocks := [] |} ]
  = 12 # 1 /\
  calculate_average_font_size binary64
    [ {| page_number := 1;
         text_blocks := [ Examples.block_of "Title" (14 # 1) 0 ] |};
      {| page_number := 2;
         text_blocks := [ Examples.block_of "body" (10 # 1) 0 ] |} ]
  = fdiv binary64 (fsum binary64 [14 # 1; 10 # 1]) (2 # 1).
Proof.
  split.
  - destruct (average_font_size_of_blocks binary64
                [ {| page_number := 1; text_blocks := [] |} ]) as (H & _ & _).
    apply H. intros pg [<-|[]]. reflexivity.
  - destruct (average_font_size_of_blocks binary64
                [ {| page_number := 1;
                     text_blocks := [ Examples.block_of "Title" (14 # 1) 0 ] |};
                  {| page_number := 2;
                     text_blocks := [ Examples.block_of "body" (10 # 1) 0 ] |} ])
      as (_ & H & _).
    apply H. discriminate.
Defined.

(** With doubles the average of three blocks of 10.7 points is
    10.699999999999998, below the size of every block, when [sum] adds
    from the left. *)
Lemma average_below_every_size :
  (calculate_average_font_size binary64
     [ {| page_number := 1;
          text_blocks := [ Examples.block_of "a" (flit binary64 (107 # 10)) 0;
                           Examples.block_of "b" (flit binary64 (107 # 10)) 0;
                           Examples.block_of "c" (flit binary64 (107 # 10)) 0 ] |} ]
   < flit binary64 (107 # 10))%Q.
Proof. vm_compute. reflexivity. Qed.
End AverageFacts.

(** ** The classifier, rule by rule *)
Section ClassifierFacts.
Import Round1a.

(** X5: [classify_heading_level] gives no level in exactly two cases: the
    stripped text has fewer than two characters or is all digits; or the
    font size is below 12, the text matches no heading pattern, and the
    span is not bold or not larger than the float [avg_font_size * 1.1]. *)
Theorem classify_none_iff (ops : float_ops) (b : block) (avg_font_size : Q) :
  classify_heading_level ops b avg_font_size = None <->
  (length (PyStr.strip (text b)) < 2 \/ PyStr.isdigit (PyStr.strip (text b)) = true) \/
  ((font_size b < 12)%Q /\
   is_heading_pattern (PyStr.strip (text b)) = false /\
   (is_bold (font_flags b) = false \/
    (font_size b <= fmul ops avg_font_size (flit ops (11 # 10)))%Q)).
Proof.
  unfold classify_heading_level.
  destruct (length (PyStr.strip (text b)) <? 2) eqn:Hlen;
    [apply Nat.ltb_lt in Hlen; simpl; split; [intros _; left; by left|reflexivity]|].
  apply Nat.ltb_ge in Hlen.
  destruct (PyStr.isdigit (PyStr.strip (text b))) eqn:Hd;
    [simpl; split; [intros _; left; by right|reflexivity]|].
  simpl orb. cbv iota.
  assert (forall thr, (12 <= thr)%Q -> Qgeb (font_size b) thr = true ->
                      ~ (font_size b < 12)%Q) as Hband.
  { intros thr Hthr H. apply Qgeb_true in H. lra. }
  destruct (Qgeb (font_size b) threshold_title) eqn:H18.
  { split; [discriminate|]. intros [[?|?]|[Hlt _]]; [lia|discriminate|].
    by apply (Hband threshold_title ltac:(unfold threshold_title; lra) H18) in Hlt. }
  destruct (Qgeb (font_size b) threshold_h1) eqn:H16.
  { split; [discriminate|]. intros [[?|?]|[Hlt _]]; [lia|discriminate|].
    by apply (Hband threshold_h1 ltac:(unfold threshold_h1; lra) H16) in Hlt. }
  destruct (Qgeb (font_size b) threshold_h2) eqn:H14.
  { split; [discriminate|]. intros [[?|?]|[Hlt _]]; [lia|discriminate|].
    by apply (Hband threshold_h2 ltac:(unfold threshold_h2; lra) H14) in Hlt. }
  destruct (Qgeb (font_size b) threshold_h3) eqn:H12.
  { split; [discriminate|]. intros [[?|?]|[Hlt _]]; [lia|discriminate|].
    by apply (Hband threshold_h3 ltac:(unfold threshold_h3; lra) H12) in Hlt. }
  apply Qgeb_false in H12. unfold threshold_h3 in H12.
  destruct (is_heading_pattern (PyStr.strip (text b))) eqn:Hpat.
  { split.
    - destruct (_ || _); [discriminate|]. destruct (Qgtb _ _); discriminate.
    - intros [[?|?]|(_ & ? & _)]; [lia|discriminate|discriminate]. }
  destruct (is_bold (font_flags b)) eqn:Hbold; simpl andb; cbv iota.
  - destruct (Qgtb (font_size b) (fmul ops avg_font_size (flit ops (11 # 10)))) eqn:H11.
    + apply Qgtb_true in H11. split.
      * destruct (Qgtb _ _); [discriminate|]. destruct (Qgtb _ _); discriminate.
      * intros [[?|?]|(_ & _ & [?|?])]; [lia|discriminate|discriminate|lra].
    + apply Qgtb_false in H11. split; [|reflexivity].
      intros _. right. split; [exact H12|]. split; [reflexivity|by right].
  - split; [|reflexivity].
    intros _. right. split; [exact H12|]. split; [reflexivity|by left].
Qed.

(** With doubles [3 * 1.1] is 3.3000000000000003: a bold span of that
    size with the text "Summary" is not larger, and gets no level at an
    average of 3. *)
Lemma bold_span_at_rounded_product :
  classify_heading_level binary64
    (Examples.block_of "Summary" (7430939385161319 # 2251799813685248) 16) (3 # 1)
  = None.
Proof. vm_compute. reflexivity. Qed.

(** X6: for a text that passes the first test, the absolute size bands
    decide alone, whatever the flags, the patterns and the average: 16
    points or more is H1, from 14 up to 16 is H2, from 12 up to 14 is H3. *)
Theorem classify_by_absolute_size (ops : float_ops) (b : block) (avg_font_size : Q) :
  2 <= length (PyStr.strip (text b)) ->
  PyStr.isdigit (PyStr.strip (text b)) = false ->
  ((16 <= font_size b)%Q -> classify_heading_level ops b avg_font_size = Some H1) /\
  ((14 <= font_size b)%Q -> (font_size b < 16)%Q ->
   classify_heading_level ops b avg_font_size = Some H2) /\
  ((12 <= font_size b)%Q -> (font_size b < 14)%Q ->
   classify_heading_level ops b avg_font_size = Some H3).
Proof.
  intros Hlen Hd. unfold classify_heading_level.
  assert ((length (PyStr.strip (text b)) <? 2) = false) as -> by (apply Nat.ltb_ge; lia).
  rewrite Hd. simpl orb. cbv iota.
  unfold threshold_title, threshold_h1, threshold_h2, threshold_h3.
  split; [|split].
  - intros H16. destruct (Qgeb (font_size b) (18 # 1)); [reflexivity|].
    by rewrite (proj2 (Qgeb_true _ _) H16).
  - intros H14 H16.
    rewrite (proj2 (Qgeb_false (font_size b) (18 # 1)) ltac:(lra)).
    rewrite (proj2 (Qgeb_false (font_size b) (16 # 1)) ltac:(lra)).
    by rewrite (proj2 (Qgeb_true _ _) H14).
  - intros H12 H14.
    rewrite (proj2 (Qgeb_false (font_size b) (18 # 1)) ltac:(lra)).
    rewrite (proj2 (Qgeb_false (font_size b) (16 # 1)) ltac:(lra)).
    rewrite (proj2 (Qgeb_false (font_size b) (14 # 1)) ltac:(lra)).
    by rewrite (proj2 (Qgeb_true _ _) H12).
Qed.

Lemma classify_by_absolute_size_witness :
  classify_heading_level binary64 (Examples.block_of "Overview" (17 # 1) 0) (12 # 1) = Some H1 /\
  classify_heading_level binary64 (Examples.block_of "Overview" (15 # 1) 16) (30 # 1) = Some H2 /\
  classify_heading_level binary64 (Examples.block_of "1. Scope" (12 # 1) 16) (8 # 1) = Some H3.
Proof.
  split; [|split].
  - apply (classify_by_absolute_size binary64 (Examples.block_of "Overview" (17 # 1) 0) (12 # 1));
      [vm_compute; lia|reflexivity|vm_compute; discriminate].
  - apply (classify_by_absolute_size binary64 (Examples.block_of "Overview" (15 # 1) 16) (30 # 1));
      [vm_compute; lia|reflexivity|vm_compute; discriminate|reflexivity].
  - apply (classify_by_absolute_size binary64 (Examples.block_of "1. Scope" (12 # 1) 16) (8 # 1));
      [vm_compute; lia|reflexivity|vm_compute; discriminate|reflexivity].
Defined.
End ClassifierFacts.

(** ** The headings of the outline *)
Section HeadingFacts.
Import Re Round1a Shapes.

(** A greedy star over one character class takes the longest run. *)
Lemma exec_star_class (p : ascii -> bool) (s : pystr) :
  exec (Star (Cls p)) s Some = Some (PyStr.drop_while p s).
Proof.
  cbn [exec].
  match goal with
  | |- ?loop (length s) s = _ =>
      assert (forall fuel t, length t <= fuel ->
                             loop fuel t = Some (PyStr.drop_while p t)) as H
  end.
  { induction fuel as [|fuel IH]; intros t Ht.
    - destruct t; [reflexivity|simpl in Ht; lia].
    - destruct t as [|c t]; [reflexivity|].
      cbn [PyStr.drop_while]. destruct (p c); [|reflexivity].
      assert ((length t <? length (c :: t)) = true) as ->
        by (apply Nat.ltb_lt; simpl; lia).
      rewrite IH by (simpl in Ht; lia). reflexivity. }
  by apply H.
Qed.

Lemma rest_after_spaces (s : pystr) :
  rest_after (Plus space) s =
  match s with
  | c :: s' => if PyStr.is_space c then Some (PyStr.drop_while PyStr.is_space s') else None
  | [] => None
  end.
Proof.
  unfold rest_after, Plus, space. cbn [exec]. destruct s as [|c s']; [reflexivity|].
  destruct (PyStr.is_space c); [|reflexivity].
  apply (exec_star_class PyStr.is_space s').
Qed.

Lemma sub_from_skip (r : regex) (repl : pystr) (n : nat) (s : pystr) :
  sub_from r repl n s = sub_from r repl 0 (drop n s).
Proof.
  revert n. induction s as [|c s IH]; intros [|n]; try reflexivity.
  cbn [sub_from drop]. apply IH.
Qed.

Lemma drop_while_as_drop (p : ascii -> bool) (s : pystr) :
  drop (length s - length (PyStr.drop_while p s)) s = PyStr.drop_while p s.
Proof.
  destruct (drop_while_suffix p s) as [a Ha].
  rewrite Ha at 1 3. rewrite length_app.
  replace (length a + length (PyStr.drop_while p s) - length (PyStr.drop_while p s))
    with (length a) by lia.
  by rewrite drop_app_length.
Qed.

Lemma drop_while_length (p : ascii -> bool) (s : pystr) :
  length (PyStr.drop_while p s) <= length s.
Proof.
  destruct (drop_while_suffix p s) as [a Ha]. rewrite Ha at 2. rewrite length_app. lia.
Qed.

(** One step of [re.sub(r'\s+', ' ', s)]. *)
Lemma sub_spaces_cons (c : ascii) (s : pystr) :
  sub (Plus space) (str " ") (c :: s) =
  if PyStr.is_space c
  then " "%char :: sub (Plus space) (str " ") (PyStr.drop_while PyStr.is_space s)
  else c :: sub (Plus space) (str " ") s.
Proof.
  unfold sub at 1. cbn [sub_from]. rewrite rest_after_spaces.
  destruct (PyStr.is_space c); [|reflexivity].
  rewrite sub_from_skip. cbn [length].
  replace (S (length s) - length (PyStr.drop_while PyStr.is_space s) - 1)
    with (length s - length (PyStr.drop_while PyStr.is_space s)) by lia.
  by rewrite drop_while_as_drop.
Qed.

Lemma sub_spaces_single_spaced (n : nat) (s : pystr) :
  length s <= n ->
  single_spaced (sub (Plus space) (str " ") s) = true /\
  (match s with [] => True | c :: _ => PyStr.is_space c = false end ->
   single_spaced_from true (sub (Plus space) (str " ") s) = true).
Proof.
  revert s. induction n as [|n IH]; intros s Hn.
  { destruct s; [by split|simpl in Hn; lia]. }
  destruct s as [|c s]; [by split|].
  rewrite sub_spaces_cons. simpl in Hn.
  destruct (PyStr.is_space c) eqn:Hc.
  - split; [|discriminate].
    unfold single_spaced. cbn [single_spaced_from].
    change (PyStr.is_space " ") with true. cbv iota.
    change (PyStr.chr_eqb " " " " && negb false) with true. cbn [andb].
    apply IH.
    + pose proof (drop_while_length PyStr.is_space s). lia.
    + apply drop_while_head.
  - destruct (IH s ltac:(lia)) as [IHs _].
    unfold single_spaced. cbn [single_spaced_from]. rewrite Hc. by split.
Qed.

Lemma heading_of_block_Some (ops : float_ops) (avg_font_size : Q) (page_no : Z)
    (b : block) (h : heading) :
  heading_of_block ops avg_font_size page_no b = Some h ->
  heading_page h = page_no /\
  classify_heading_level ops b avg_font_size = Some (level h) /\
  heading_text h = sub (Plus space) (str " ") (PyStr.strip (text b)) /\
  (matches numbered_heading (heading_text h)
   || existsb (fun a => PyStr.startswith a (heading_text h)) allowed_headings) = true.
Proof.
  unfold heading_of_block.
  destruct (classify_heading_level ops b avg_font_size) as [lvl|]; [|discriminate].
  destruct (_ || _) eqn:Hkeep; [|discriminate].
  intros [= <-]. by repeat split.
Qed.

Lemma scan_headings_In (ops : float_ops) (pages_data : list page) (h : heading) :
  In h (scan_headings ops pages_data) ->
  exists pg b, In pg pages_data /\ In b (text_blocks pg) /\
               heading_of_block ops (calculate_average_font_size ops pages_data)
                                (page_number pg) b = Some h.
Proof.
  unfold scan_headings. cbv zeta. rewrite in_concat.
  intros (l & Hl & Hh). apply in_map_iff in Hl as (pg & <- & Hpg).
  apply list_elem_of_In, list_elem_of_omap in Hh as (b & Hb & Hhb).
  exists pg, b. split; [exact Hpg|]. split; [by apply list_elem_of_In|exact Hhb].
Qed.

Lemma outline_In (ops : float_ops)
    (fitz_spans : pystr -> exc (list (list span))) (pdf_path : pystr) (h : heading) :
  In h (outline (extract_outline ops fitz_spans pdf_path)) ->
  exists doc pages_data,
    fitz_spans pdf_path = Ret doc /\
    extract_text_with_formatting fitz_spans pdf_path = Ret pages_data /\
    length pages_data = length doc /\
    (forall i pg, pages_data !! i = Some pg -> page_number pg = (Z.of_nat i + 1)%Z) /\
    In h (scan_headings ops pages_data).
Proof.
  intros Hh.
  destruct (extract_outline_cases ops fitz_spans pdf_path) as [Hnil|(pages & Hp & _ & Hout)].
  { rewrite Hnil in Hh. destruct Hh. }
  rewrite Hout in Hh. eapply Permutation_in in Hh; [|apply sort_by_page_perm].
  apply filter_seen_first in Hh as (_ & l1 & l2 & Hscan & _).
  destruct (fitz_spans pdf_path) as [e|doc] eqn:Hdoc.
  { unfold extract_text_with_formatting in Hp. rewrite Hdoc in Hp. discriminate. }
  destruct (pages_of_document fitz_spans pdf_path doc Hdoc)
    as (pages' & Hp' & Hlen & Hnum).
  rewrite Hp in Hp'. injection Hp' as <-.
  exists doc, pages. split; [reflexivity|]. split; [exact Hp|].
  split; [exact Hlen|]. split; [exact Hnum|].
  rewrite Hscan. apply in_app_iff. right. by left.
Qed.

(** X7: every heading of an outline passed the precision filter: its text
    starts with digits, a dot and a space, or with one of the allowed
    heading names; and its page is a page of the document, between 1 and
    the number of pages. *)
Theorem outline_headings_are_structural (ops : float_ops)
    (fitz_spans : pystr -> exc (list (list span))) (pdf_path : pystr) (h : heading) :
  In h (outline (extract_outline ops fitz_spans pdf_path)) ->
  (matches numbered_heading (heading_text h) = true \/
   exists name, In name allowed_headings /\
                PyStr.startswith name (heading_text h) = true) /\
  exists doc, fitz_spans pdf_path = Ret doc /\
              (1 <= heading_page h <= Z.of_nat (length doc))%Z.
Proof.
  intros Hh. apply outline_In in Hh as (doc & pages & Hdoc & _ & Hlen & Hnum & Hscan).
  apply scan_headings_In in Hscan as (pg & b & Hpg & _ & Hhb).
  apply heading_of_block_Some in Hhb as (Hpage & _ & _ & Hkeep).
  split.
  - apply orb_true_iff in Hkeep as [Hk|Hk]; [by left|right].
    apply existsb_exists in Hk as (name & Hname & Hk). by exists name.
  - exists doc. split; [exact Hdoc|].
    apply list_elem_of_In, list_elem_of_lookup in Hpg as [i Hi].
    pose proof (lookup_lt_Some _ _ _ Hi) as Hlt.
    rewrite Hpage, (Hnum i pg Hi). lia.
Qed.

Lemma outline_headings_are_structural_witness :
  (matches numbered_heading (str "2. Methods") = true \/
   exists name, In name allowed_headings /\
                PyStr.startswith name (str "2. Methods") = true) /\
  exists doc, Examples.report (str "report.pdf") = Ret doc /\
              (1 <= 2 <= Z.of_nat (length doc))%Z.
Proof.
  apply (outline_headings_are_structural binary64 Examples.report (str "report.pdf")
           {| level := H2; heading_text := str "2. Methods"; heading_page := 2 |}).
  vm_compute. right. right. left. reflexivity.
Defined.

(** X8: the text of every heading of an outline is whitespace-normalised:
    it has no whitespace character other than the space and no two
    spaces in a row. *)
Theorem outline_heading_text_single_spaced (ops : float_ops)
    (fitz_spans : pystr -> exc (list (list span))) (pdf_path : pystr) (h : heading) :
  In h (outline (extract_outline ops fitz_spans pdf_path)) ->
  single_spaced (heading_text h) = true.
Proof.
  intros Hh. apply outline_In in Hh as (doc & pages & _ & _ & _ & _ & Hscan).
  apply scan_headings_In in Hscan as (pg & b & _ & _ & Hhb).
  apply heading_of_block_Some in Hhb as (_ & _ & -> & _).
  by eapply sub_spaces_single_spaced.
Qed.

Lemma outline_heading_text_single_spaced_witness :
  In {| level := H2; heading_text := str "1. Introduction"; heading_page := 1 |}
     (outline (extract_outline binary64 Examples.report (str "report.pdf"))) /\
  single_spaced (str "1. Introduction") = true.
Proof.
  assert (In {| level := H2; heading_text := str "1. Introduction"; heading_page := 1 |}
             (outline (extract_outline binary64 Examples.report (str "report.pdf")))) as Hin
    by (vm_compute; left; reflexivity).
  split; [exact Hin|].
  exact (outline_heading_text_single_spaced binary64 Examples.report (str "report.pdf") _ Hin).
Defined.
End HeadingFacts.

(** ** Removing duplicates and sorting, again *)
Section OutlineFixedPoint.
Import Round1a.

(** Sorting a list that is in order changes nothing. *)
Lemma stable_sort_of_sorted {A : Type} (leb : A -> A -> bool) (l : list A) :
  StronglySorted (fun a b => leb a b = true) l -> stable_sort leb l = l.
Proof.
  induction 1 as [|x l _ IH Hx]; [reflexivity|].
  cbn [stable_sort]. rewrite IH.
  destruct l as [|y l]; [reflexivity|].
  cbn [insert_sorted]. apply Forall_cons in Hx as [Hxy _]. by rewrite Hxy.
Qed.

Lemma filter_seen_fixed (seen : gset (pystr * heading_level)) (hs : list heading) :
  NoDup (map heading_key hs) ->
  (forall h, In h hs -> heading_key h ∉ seen) ->
  filter_seen seen hs = hs.
Proof.
  revert seen. induction hs as [|a hs IH]; intros seen Hnd Hseen; [reflexivity|].
  cbn [map] in Hnd. apply NoDup_cons in Hnd as [Ha Hnd].
  cbn [filter_seen]. destruct (decide (heading_key a ∈ seen)) as [Hin|_].
  { destruct (Hseen a (or_introl eq_refl) Hin). }
  f_equal. apply IH; [exact Hnd|].
  intros h Hh [Hk%elem_of_singleton|Hk]%elem_of_union.
  - apply Ha. rewrite <- Hk. apply list_elem_of_In, in_map, Hh.
  - exact (Hseen h (or_intror Hh) Hk).
Qed.

(** X9: [filter_duplicate_headings] is idempotent, and leaves a list
    without duplicate keys as it is. *)
Theorem filter_duplicate_headings_idempotent (headings : list heading) :
  filter_duplicate_headings (filter_duplicate_headings headings)
  = filter_duplicate_headings headings /\
  (NoDup (map heading_key headings) -> filter_duplicate_headings headings = headings).
Proof.
  split.
  - apply filter_seen_fixed; [apply filter_seen_NoDup|].
    intros h _. apply not_elem_of_empty.
  - intros Hnd. apply filter_seen_fixed; [exact Hnd|].
    intros h _. apply not_elem_of_empty.
Qed.

Lemma filter_duplicate_headings_idempotent_witness :
  filter_duplicate_headings
    [ {| level := H1; heading_text := str "1. Scope"; heading_page := 1 |};
      {| level := H2; heading_text := str "1. Scope"; heading_page := 1 |} ]
  = [ {| level := H1; heading_text := str "1. Scope"; heading_page := 1 |};
      {| level := H2; heading_text := str "1. Scope"; heading_page := 1 |} ].
Proof.
  apply (filter_duplicate_headings_idempotent
           [ {| level := H1; heading_text := str "1. Scope"; heading_page := 1 |};
             {| level := H2; heading_text := str "1. Scope"; heading_page := 1 |} ]).
  cbn [map]. apply NoDup_cons. split.
  - intros [H|H]%list_elem_of_In; [discriminate|destruct H].
  - apply NoDup_cons. split; [intros H%list_elem_of_In; destruct H|constructor].
Defined.

Lemma filter_seen_sorted (R : heading -> heading -> Prop)
    (seen : gset (pystr * heading_level)) (hs : list heading) :
  StronglySorted R hs -> StronglySorted R (filter_seen seen hs).
Proof.
  intros H. revert seen. induction H as [|a hs _ IH Ha]; intros seen; [constructor|].
  cbn [filter_seen]. destruct (decide (heading_key a ∈ seen)); [apply IH|].
  constructor; [apply IH|].
  apply Forall_forall. intros h Hh%list_elem_of_In.
  apply filter_seen_first in Hh as (_ & l1 & l2 & -> & _).
  rewrite Forall_forall in Ha. apply Ha, list_elem_of_In, in_app_iff. right. by left.
Qed.

Lemma numbered_pages_sorted {A : Type} (f : A -> Z) (l : list A) (k : Z) :
  (forall i x, l !! i = Some x -> f x = (Z.of_nat i + k)%Z) ->
  StronglySorted (fun a b => (f a <= f b)%Z) l.
Proof.
  revert k. induction l as [|x l IH]; intros k Hl; [constructor|].
  constructor.
  - apply (IH (k + 1)%Z). intros i y Hy. rewrite (Hl (S i) y Hy). lia.
  - apply Forall_forall. intros y Hy. apply list_elem_of_lookup in Hy as [i Hy].
    rewrite (Hl 0 x eq_refl), (Hl (S i) y Hy). lia.
Qed.

Lemma scan_headings_sorted (ops : float_ops) (pages_data : list page) :
  StronglySorted (fun a b => (page_number a <= page_number b)%Z) pages_data ->
  StronglySorted (fun a b => (heading_page a <= heading_page b)%Z)
                 (scan_headings ops pages_data).
Proof.
  unfold scan_headings. cbv zeta.
  generalize (calculate_average_font_size ops pages_data) as avg. intros avg.
  induction 1 as [|pg pages _ IH Hpg]; [constructor|].
  cbn [map concat]. apply StronglySorted_app_2; [| |exact IH].
  - intros h1 h2 Hh1 Hh2.
    apply list_elem_of_omap in Hh1 as (b1 & _ & Hb1).
    apply heading_of_block_Some in Hb1 as (-> & _).
    apply list_elem_of_In, in_concat in Hh2 as (l & Hl & Hh2).
    apply in_map_iff in Hl as (pg2 & <- & Hpg2).
    apply list_elem_of_In, list_elem_of_omap in Hh2 as (b2 & _ & Hb2).
    apply heading_of_block_Some in Hb2 as (-> & _).
    rewrite Forall_forall in Hpg. by apply Hpg, list_elem_of_In.
  - generalize (text_blocks pg) as blocks.
    induction blocks as [|b blocks IHb]; [constructor|].
    cbn [omap list_omap].
    destruct (heading_of_block ops avg (page_number pg) b) as [h|] eqn:Hb; [|exact IHb].
    constructor; [exact IHb|].
    apply heading_of_block_Some in Hb as (-> & _).
    apply Forall_forall. intros h2 Hh2.
    apply list_elem_of_omap in Hh2 as (b2 & _ & Hb2).
    apply heading_of_block_Some in Hb2 as (-> & _). lia.
Qed.

(** X10: the pages are scanned in the order of their numbers, so the sort
    by page at the end of [extract_outline] never moves a heading: the
    outline is the scan without its duplicates, in scan order. *)
Theorem outline_is_scan_order (ops : float_ops)
    (fitz_spans : pystr -> exc (list (list span))) (pdf_path : pystr)
    (doc : list (list span)) :
  fitz_spans pdf_path = Ret doc -> doc <> [] ->
  exists pages_data,
    extract_text_with_formatting fitz_spans pdf_path = Ret pages_data /\
    outline (extract_outline ops fitz_spans pdf_path)
    = filter_duplicate_headings (scan_headings ops pages_data).
Proof.
  intros Hdoc Hne.
  destruct (pages_of_document fitz_spans pdf_path doc Hdoc)
    as (pages & Hp & Hlen & Hnum).
  exists pages. split; [exact Hp|].
  rewrite (extract_outline_of_pages _ _ _ _ Hp).
  - cbn [outline]. unfold sort_by_page, extract_headings. apply stable_sort_of_sorted.
    eapply StronglySorted_weaken;
      [|apply filter_seen_sorted, scan_headings_sorted, (numbered_pages_sorted _ _ 1 Hnum)].
    intros a b H. by apply Z.leb_le.
  - intros ->. destruct doc; [contradiction|discriminate].
Qed.

Lemma outline_is_scan_order_witness :
  exists pages_data,
    extract_text_with_formatting Examples.report (str "report.pdf") = Ret pages_data /\
    outline (extract_outline binary64 Examples.report (str "report.pdf"))
    = filter_duplicate_headings (scan_headings binary64 pages_data).
Proof.
  apply (outline_is_scan_order binary64 Examples.report (str "report.pdf") _ eq_refl).
  discriminate.
Defined.
End OutlineFixedPoint.


(** * Further properties of round1b.py *)

(** ** Splitting *)
Section SplitFacts.
Import Shapes.

(** A text without the first character of the separator is not split. *)
Lemma split_from_free (c0 : ascii) (sep' s acc : pystr) :
  free_of c0 s ->
  PyStr.split_from (c0 :: sep') 0 acc s = [rev acc ++ s].
Proof.
  revert acc. induction s as [|c s IH]; intros acc Hfree.
  - cbn [PyStr.split_from]. by rewrite app_nil_r.
  - cbn [PyStr.split_from PyStr.startswith].
    rewrite (Hfree c (or_introl eq_refl)). cbn [andb].
    rewrite IH by (intros d Hd; apply Hfree; by right).
    cbn [rev]. by rewrite <- app_assoc.
Qed.

Lemma split_free (c0 : ascii) (sep' s : pystr) :
  free_of c0 s -> PyStr.split (c0 :: sep') s = [s].
Proof. intros H. unfold PyStr.split. by rewrite split_from_free. Qed.

(** The pieces of a split by one character do not have that character. *)
Lemma split_from_char_free (c0 : ascii) (s acc : pystr) :
  free_of c0 acc ->
  Forall (free_of c0) (PyStr.split_from [c0] 0 acc s).
Proof.
  revert acc. induction s as [|c s IH]; intros acc Hacc.
  - cbn [PyStr.split_from]. constructor; [|constructor].
    intros d Hd. apply Hacc. by apply in_rev.
  - cbn [PyStr.split_from PyStr.startswith length Nat.sub].
    destruct (PyStr.chr_eqb c0 c) eqn:Hc; cbn [andb].
    + constructor.
      * intros d Hd. apply Hacc. by apply in_rev.
      * apply IH. intros d [].
    + apply IH. intros d [<-|Hd]; [exact Hc|by apply Hacc].
Qed.

Lemma split_char_free (c0 : ascii) (s : pystr) :
  Forall (free_of c0) (PyStr.split [c0] s).
Proof. apply split_from_char_free. intros d []. Qed.

(** No piece is longer than the text. *)
Lemma split_from_length (sep s acc : pystr) (skip : nat) :
  Forall (fun p => length p <= length acc + length s) (PyStr.split_from sep skip acc s).
Proof.
  revert skip acc. induction s as [|c s IH]; intros skip acc.
  - cbn [PyStr.split_from]. constructor; [|constructor]. rewrite length_rev. simpl. lia.
  - cbn [PyStr.split_from]. destruct skip as [|skip].
    + destruct (PyStr.startswith sep (c :: s)).
      * constructor; [rewrite length_rev; simpl; lia|].
        eapply Forall_impl; [apply IH|]. simpl. intros p Hp. lia.
      * eapply Forall_impl; [apply IH|]. simpl. intros p Hp. lia.
    + eapply Forall_impl; [apply IH|]. simpl. intros p Hp. lia.
Qed.

Lemma split_length (sep s p : pystr) :
  In p (PyStr.split sep s) -> length p <= length s.
Proof.
  intros Hp. pose proof (split_from_length sep s [] 0) as H.
  rewrite Forall_forall in H. by apply H, list_elem_of_In.
Qed.

Lemma strip_free (c : ascii) (s : pystr) : free_of c s -> free_of c (PyStr.strip s).
Proof.
  intros H d Hd. apply H. destruct (strip_infix s) as (a & b & Hs).
  rewrite Hs. apply in_app_iff. right. apply in_app_iff. by left.
Qed.

Lemma strip_trimmed (s : pystr) : trimmed (PyStr.strip s).
Proof. apply strip_ends. Qed.

Lemma strip_of_trimmed (t : pystr) : trimmed t -> PyStr.strip t = t.
Proof.
  intros [Hhead Hlast]. unfold PyStr.strip, PyStr.rstrip, PyStr.lstrip.
  rewrite (drop_while_fixed _ t Hhead), (drop_while_fixed _ (rev t) Hlast).
  apply rev_involutive.
Qed.

(** Stripping a trimmed text followed by one space gives the text back. *)
Lemma strip_body_space (body : pystr) :
  body <> [] -> trimmed body -> PyStr.strip (body ++ str " ") = body.
Proof.
  intros Hne [Hhead Hlast]. unfold PyStr.strip, PyStr.rstrip, PyStr.lstrip.
  rewrite (drop_while_fixed PyStr.is_space (body ++ str " "))
    by (destruct body; [contradiction|exact Hhead]).
  rewrite rev_app_distr. cbn [str list_ascii_of_string rev app PyStr.drop_while].
  change (PyStr.is_space " ") with true. cbv iota.
  rewrite (drop_while_fixed _ (rev body) Hlast). apply rev_involutive.
Qed.
End SplitFacts.

(** ** What the loop of [identify_sections] keeps *)
Section SegmenterInvariant.
Import Round1b Shapes.

Variable P : Z -> section -> Prop.
Variable R : Z -> Z -> Prop.

Hypothesis P_new : forall doc t n,
  P n {| document := doc; section_title := t; page_start := n; page_end := n;
         content := [] |}.
Hypothesis P_append : forall cs line n,
  P n cs -> line <> [] -> trimmed line -> free_of "010" line ->
  P n {| document := document cs; section_title := section_title cs;
         page_start := page_start cs; page_end := n;
         content := content cs ++ line ++ str " " |}.
Hypothesis P_intro : forall doc line n,
  line <> [] -> trimmed line -> free_of "010" line ->
  P n {| document := doc; section_title := str "Introduction";
         page_start := n; page_end := n; content := line ++ str " " |}.
Hypothesis P_next : forall n n' s, R n n' -> P n s -> P n' s.

Lemma save_keeps (n : Z) (sections : list section) (current_section : option section) :
  segmenter_inv P n (sections, current_section) ->
  Forall (fun s => (exists m, P m s) /\ has_content (Some s) = true)
         (save sections current_section).
Proof.
  intros [Hs Hc]. simpl in Hs, Hc. unfold save.
  destruct current_section as [cs|]; [|exact Hs].
  destruct (has_content (Some cs)) eqn:Hhas; [|exact Hs].
  apply Forall_app. split; [exact Hs|].
  constructor; [|constructor]. split; [|exact Hhas]. exists n. by apply Hc.
Qed.

Lemma line_step_keeps (pg : page_content) (st : list section * option section)
    (raw : pystr) :
  free_of "010" raw ->
  segmenter_inv P (page_number pg) st ->
  segmenter_inv P (page_number pg) (line_step pg st raw).
Proof.
  intros Hraw Hinv. destruct st as [sections current_section].
  unfold line_step.
  pose proof (strip_trimmed raw) as Htrim.
  pose proof (strip_free _ _ Hraw) as Hfree.
  destruct (PyStr.strip raw) as [|c line] eqn:Hline; [exact Hinv|].
  destruct (header_of_line (c :: line)) as [is_header title].
  destruct is_header.
  - split; cbn [fst snd].
    + eapply save_keeps, Hinv.
    + intros cs [= <-]. apply P_new.
  - destruct Hinv as [Hs Hc]. cbn [fst snd] in Hs, Hc.
    destruct current_section as [cs|]; split; cbn [fst snd]; try exact Hs.
    + intros cs' [= <-].
      apply (P_append cs (c :: line) (page_number pg));
        [by apply Hc|discriminate|exact Htrim|exact Hfree].
    + intros cs' [= <-].
      apply (P_intro (page_document pg) (c :: line) (page_number pg));
        [discriminate|exact Htrim|exact Hfree].
Qed.

Lemma lines_keep (pg : page_content) (lines : list pystr)
    (st : list section * option section) :
  Forall (free_of "010") lines ->
  segmenter_inv P (page_number pg) st ->
  segmenter_inv P (page_number pg) (fold_left (line_step pg) lines st).
Proof.
  intros Hlines. revert st. induction Hlines as [|raw lines Hraw _ IH]; intros st Hinv.
  - exact Hinv.
  - cbn [fold_left]. apply IH. by apply line_step_keeps.
Qed.

Lemma pages_keep (pages_content : list page_content)
    (st : list section * option section) (n : Z) :
  segmenter_inv P n st ->
  Forall (fun pg => R n (page_number pg)) pages_content ->
  StronglySorted (fun a b => R (page_number a) (page_number b)) pages_content ->
  exists n', segmenter_inv P n' (fold_left page_step pages_content st).
Proof.
  intros Hinv Hn Hsorted. revert st n Hinv Hn.
  induction Hsorted as [|pg pages _ IH Hpg]; intros st n Hinv Hn.
  - by exists n.
  - cbn [fold_left]. apply Forall_cons in Hn as [Hn _].
    apply (IH _ (page_number pg)); [|exact Hpg].
    unfold page_step. apply lines_keep; [apply split_char_free|].
    destruct Hinv as [Hs Hc]. split; [exact Hs|].
    intros cs Hcs. eapply P_next; [exact Hn|by apply Hc].
Qed.

Lemma identify_sections_keeps (pages_content : list page_content) (n0 : Z) :
  StronglySorted (fun a b => R (page_number a) (page_number b)) pages_content ->
  (forall pg, In pg pages_content -> R n0 (page_number pg)) ->
  Forall (fun s => (exists m, P m s) /\ has_content (Some s) = true)
         (identify_sections pages_content).
Proof.
  intros Hsorted H0. unfold identify_sections.
  destruct (pages_keep pages_content ([], None) n0) as [n Hinv].
  - split; [constructor|]. intros cs [=].
  - apply Forall_forall. intros pg Hpg. by apply H0, list_elem_of_In.
  - exact Hsorted.
  - destruct (fold_left page_step pages_content ([], None)) as [sections cur].
    by eapply save_keeps.
Qed.
End SegmenterInvariant.

(** ** The sections of [identify_sections] *)
Section SegmenterFacts.
Import Round1b Shapes.

Lemma starts_solid_app (a b : pystr) : a <> [] -> starts_solid a -> starts_solid (a ++ b).
Proof. destruct a; [contradiction|]. by intros _ H. Qed.

Lemma free_of_app (c : ascii) (a b : pystr) :
  free_of c a -> free_of c b -> free_of c (a ++ b).
Proof. intros Ha Hb d Hd. apply in_app_iff in Hd as [Hd|Hd]; [by apply Ha|by apply Hb]. Qed.

Lemma content_shape_append (t line : pystr) :
  content_shape t -> line <> [] -> trimmed line -> free_of "010" line ->
  content_shape (t ++ line ++ str " ").
Proof.
  intros [Hfree Hshape] Hne [Hhead Hlast] Hline. split.
  - apply free_of_app; [exact Hfree|]. apply free_of_app; [exact Hline|].
    intros d [<-|[]]. reflexivity.
  - right. exists (t ++ line). split; [by rewrite <- app_assoc|].
    split; [intros [_ H]%app_eq_nil; contradiction|].
    split.
    + destruct Hshape as [->|(body & -> & Hb & [Hbh _])]; [exact Hhead|].
      rewrite <- app_assoc. by apply starts_solid_app.
    + rewrite rev_app_distr. apply starts_solid_app; [|exact Hlast].
      intros H. apply Hne. by rewrite <- (rev_involutive line), H.
Qed.

Lemma StronglySorted_True {A : Type} (l : list A) : StronglySorted (fun _ _ => True) l.
Proof.
  induction l as [|x l IH]; constructor; [exact IH|].
  apply Forall_forall. by intros.
Qed.

Lemma section_content_shape (pages_content : list page_content) (s : section) :
  In s (identify_sections pages_content) ->
  content_shape (content s) /\ has_content (Some s) = true.
Proof.
  intros Hs.
  pose proof (identify_sections_keeps (fun _ sec => content_shape (content sec))
                (fun _ _ => True)) as H.
  specialize (H ltac:(intros; split; [intros d []|by left])).
  specialize (H ltac:(intros cs line n Hcs Hne Ht Hf; by apply content_shape_append)).
  specialize (H ltac:(intros doc line n Hne Ht Hf;
                      apply (content_shape_append [] line);
                      [split; [intros d []|by left]|done..])).
  specialize (H ltac:(by intros) pages_content 0%Z (StronglySorted_True _)
                ltac:(by intros)).
  rewrite Forall_forall in H.
  destruct (H s ltac:(by apply list_elem_of_In)) as [[_ Hshape] Hhas]. by split.
Qed.

Lemma shaped_content_body (t : pystr) :
  content_shape t -> t <> [] ->
  exists body, t = body ++ str " " /\ body <> [] /\ PyStr.strip t = body /\ trimmed body.
Proof.
  intros [_ [Hnil|(body & Hc & Hne & Htrim)]] Ht; [contradiction|].
  exists body. split; [exact Hc|]. split; [exact Hne|].
  split; [rewrite Hc; by apply strip_body_space|exact Htrim].
Qed.

(** X15: every section that [identify_sections] returns has content: its
    content is a non-empty text without whitespace at its ends, followed
    by one space, and has no line feed. *)
Theorem identify_sections_content (pages_content : list page_content) (s : section) :
  In s (identify_sections pages_content) ->
  exists body,
    content s = body ++ str " " /\ body <> [] /\
    PyStr.strip (content s) = body /\ trimmed body /\
    free_of "010" (content s).
Proof.
  intros Hs. destruct (section_content_shape pages_content s Hs) as [Hshape Hhas].
  destruct (shaped_content_body (content s) Hshape) as (body & Hc & Hne & Hstrip & Htrim).
  { intros Hnil. unfold has_content in Hhas. rewrite Hnil in Hhas. discriminate. }
  exists body. split; [exact Hc|]. split; [exact Hne|]. split; [exact Hstrip|].
  split; [exact Htrim|apply Hshape].
Qed.

Lemma identify_sections_content_witness :
  exists body,
    content {| document := str "paper.pdf"; section_title := str "3.2 Methodology Overview";
               page_start := 1; page_end := 1;
               content := str "the approach is described below. " |}
    = body ++ str " " /\ body <> [].
Proof.
  destruct (identify_sections_content [Examples.methodology_page]
              {| document := str "paper.pdf"; section_title := str "3.2 Methodology Overview";
                 page_start := 1; page_end := 1;
                 content := str "the approach is described below. " |})
    as (body & Hc & Hne & _).
  - vm_compute. left. reflexivity.
  - exists body. split; [exact Hc|exact Hne].
Defined.

(** X16: when the pages come in the order of their numbers, every section
    ends on the page it starts on or on a later one. *)
Theorem identify_sections_page_range (pages_content : list page_content) (s : section) :
  StronglySorted (fun a b => (page_number a <= page_number b)%Z) pages_content ->
  In s (identify_sections pages_content) ->
  (page_start s <= page_end s)%Z.
Proof.
  intros Hsorted Hs.
  pose proof (identify_sections_keeps
                (fun n sec => (page_start sec <= page_end sec)%Z /\ (page_end sec <= n)%Z)
                Z.le) as H.
  specialize (H ltac:(intros; simpl; lia)).
  specialize (H ltac:(intros cs line n [H1 H2] _ _ _; simpl; lia)).
  specialize (H ltac:(intros; simpl; lia)).
  specialize (H ltac:(intros n n' sec Hn [H1 H2]; lia) pages_content).
  destruct pages_content as [|pg pages]; [destruct Hs|].
  specialize (H (page_number pg) Hsorted).
  assert (forall pg', In pg' (pg :: pages) -> (page_number pg <= page_number pg')%Z) as Hmin.
  { intros pg' [<-|Hin]; [lia|]. apply StronglySorted_cons in Hsorted as [Hall _].
    rewrite Forall_forall in Hall. by apply Hall, list_elem_of_In. }
  specialize (H Hmin). rewrite Forall_forall in H.
  destruct (H s ltac:(by apply list_elem_of_In)) as [[m [Hle _]] _]. exact Hle.
Qed.

Lemma identify_sections_page_range_witness :
  (page_start {| document := str "paper.pdf"; section_title := str "SUMMARY OF WORK";
                 page_start := 1; page_end := 2;
                 content := str "first line second line " |}
   <= page_end {| document := str "paper.pdf"; section_title := str "SUMMARY OF WORK";
                  page_start := 1; page_end := 2;
                  content := str "first line second line " |})%Z.
Proof.
  apply (identify_sections_page_range
           [ {| page_number := 1;
                text := str "SUMMARY OF WORK" ++ ["010"%char] ++ str "first line";
                page_document := str "paper.pdf" |};
             {| page_number := 2; text := str "second line";
                page_document := str "paper.pdf" |} ]).
  - repeat constructor; simpl; lia.
  - vm_compute. left. reflexivity.
Defined.
End SegmenterFacts.

(** ** The subsections of a section *)
Section SubsectionFacts.
Import Round1b Shapes.

Lemma filter_shorter {A : Type} (f : A -> bool) (l : list A) :
  length (List.filter f l) <= length l.
Proof.
  induction l as [|x l IH]; [reflexivity|].
  cbn [List.filter]. destruct (f x); simpl; lia.
Qed.

Lemma filter_none {A : Type} (f : A -> bool) (l : list A) :
  (forall x, In x l -> f x = false) -> List.filter f l = [].
Proof.
  induction l as [|x l IH]; intros H; [reflexivity|].
  cbn [List.filter]. rewrite (H x (or_introl eq_refl)).
  apply IH. intros y Hy. apply H. by right.
Qed.

Lemma long_pieces_length (sep content p : pystr) :
  In p (long_pieces sep content) -> length p <= length content.
Proof.
  unfold long_pieces. intros Hp. apply in_map_iff in Hp as (q & <- & Hq).
  apply filter_In in Hq as [Hq _]. apply split_length in Hq.
  pose proof (strip_length q). lia.
Qed.

Lemma paragraphs_of_length (content p : pystr) :
  In p (paragraphs_of content) -> length p <= length content.
Proof.
  unfold paragraphs_of.
  destruct (long_pieces _ content) as [|p0 ps] eqn:Hlong.
  - apply long_pieces_length.
  - rewrite <- Hlong. apply long_pieces_length.
Qed.

(** X21: a section whose content has at most 100 characters has no
    subsection. *)
Theorem short_content_has_no_subsection
    (similarity : pystr -> pystr -> Q) (sec : section) (persona job : pystr)
    (top_k : nat) :
  length (content sec) <= 100 ->
  extract_subsections similarity sec persona job top_k = [].
Proof.
  intros Hlen. unfold extract_subsections, candidate_subsections.
  rewrite filter_none; [by destruct top_k|].
  intros p Hp. apply Nat.ltb_ge.
  apply list_elem_of_In, subseteq_take, list_elem_of_In, paragraphs_of_length in Hp. lia.
Qed.

Lemma short_content_has_no_subsection_witness :
  extract_subsections (Examples.constant_similarity (9 # 10)) (Examples.coastal 100)
                      (str "Travel Planner") (str "Plan a trip") 3 = [].
Proof.
  apply (short_content_has_no_subsection _ (Examples.coastal 100)).
  vm_compute. lia.
Defined.

(** X20: [extract_subsections] returns at most [top_k] and at most ten
    subsections, in the order of non-increasing similarity; each has a
    [refined_text] of more than 100 characters and the document of the
    section. *)
Theorem extract_subsections_bounds
    (similarity : pystr -> pystr -> Q) (sec : section) (persona job : pystr)
    (top_k : nat) :
  length (extract_subsections similarity sec persona job top_k) <= Nat.min top_k 10 /\
  StronglySorted (fun a b => (sub_relevance_score b <= sub_relevance_score a)%Q)
                 (extract_subsections similarity sec persona job top_k) /\
  Forall (fun s => 100 < length (refined_text s) /\ sub_document s = document sec)
         (extract_subsections similarity sec persona job top_k).
Proof.
  split; [|split].
  - unfold extract_subsections, sort_subsections, candidate_subsections.
    rewrite length_take, stable_sort_length, length_map.
    pose proof (filter_shorter (fun paragraph => 100 <? length paragraph)
                  (take 10 (paragraphs_of (content sec)))) as Hf.
    rewrite length_take in Hf. lia.
  - unfold extract_subsections, sort_subsections. apply StronglySorted_take.
    eapply StronglySorted_weaken; [|apply stable_sort_sorted].
    + intros a b H. by apply Qle_bool_iff in H.
    + intros a b.
      destruct (Qlt_le_dec (sub_relevance_score a) (sub_relevance_score b)) as [H|H].
      * right. apply Qle_bool_iff. by apply Qlt_le_weak.
      * left. by apply Qle_bool_iff.
    + intros a b c H1 H2. apply Qle_bool_iff in H1, H2. apply Qle_bool_iff.
      by apply Qle_trans with (sub_relevance_score b).
  - apply Forall_forall. intros s Hs.
    apply list_elem_of_In, extract_subsections_In in Hs as (p & _ & Hlen & ->).
    split; [|reflexivity]. rewrite length_refined_text.
    destruct (500 <? length p); lia.
Qed.

(** The subsections of a section whose content is a trimmed text and one
    space, without line feed. *)
Lemma subsections_of_shaped_content
    (similarity : pystr -> pystr -> Q) (sec : section) (body persona job : pystr)
    (top_k : nat) :
  content sec = body ++ str " " ->
  PyStr.strip (content sec) = body ->
  free_of "010" (content sec) ->
  extract_subsections similarity sec persona job top_k =
  if 100 <? length body
  then take top_k [subsection_of similarity sec (query_text persona job) body]
  else [].
Proof.
  intros Hc Hstrip Hfree.
  unfold extract_subsections, candidate_subsections.
  assert (long_pieces (str (String "010" (String "010" EmptyString))) (content sec)
          = if 50 <? length body then [body] else []) as Hlong.
  { unfold long_pieces.
    change (str (String "010" (String "010" EmptyString)))
      with ("010"%char :: ["010"%char]).
    rewrite (split_free _ _ _ Hfree). cbn [List.filter]. rewrite Hstrip.
    destruct (50 <? length body); [|reflexivity]. cbn [map]. by rewrite Hstrip. }
  destruct (100 <? length body) eqn:H100.
  - apply Nat.ltb_lt in H100.
    assert (paragraphs_of (content sec) = [body]) as ->.
    { unfold paragraphs_of. rewrite Hlong.
      by assert ((50 <? length body) = true) as -> by (apply Nat.ltb_lt; lia). }
    cbn [take List.filter].
    assert ((100 <? length body) = true) as -> by (by apply Nat.ltb_lt).
    reflexivity.
  - apply Nat.ltb_ge in H100.
    rewrite filter_none; [by destruct top_k|].
    intros p Hp. apply Nat.ltb_ge.
    apply list_elem_of_In, subseteq_take, list_elem_of_In in Hp.
    unfold paragraphs_of in Hp. rewrite Hlong in Hp.
    destruct (50 <? length body) eqn:H50.
    + destruct Hp as [<-|[]]. exact H100.
    + apply Nat.ltb_ge in H50. apply long_pieces_length in Hp.
      rewrite Hc, length_app in Hp. simpl in Hp. lia.
Qed.

Lemma segmented_section_body (pages_content : list page_content) (sec : section) :
  In sec (identify_sections pages_content) ->
  exists body,
    content sec = body ++ str " " /\ PyStr.strip (content sec) = body /\
    free_of "010" (content sec).
Proof.
  intros Hsec. destruct (section_content_shape _ _ Hsec) as [Hshape Hhas].
  destruct (shaped_content_body (content sec) Hshape) as (body & Hc & _ & Hstrip & _).
  { intros Hnil. unfold has_content in Hhas. rewrite Hnil in Hhas. discriminate. }
  exists body. split; [exact Hc|]. split; [exact Hstrip|apply Hshape].
Qed.

Lemma segmented_section_subsection_count
    (similarity : pystr -> pystr -> Q) (pages_content : list page_content)
    (sec : section) (persona job : pystr) (top_k : nat) :
  In sec (identify_sections pages_content) ->
  length (extract_subsections similarity sec persona job top_k) <= 1.
Proof.
  intros Hsec. destruct (segmented_section_body _ _ Hsec) as (body & Hc & Hstrip & Hfree).
  rewrite (subsections_of_shaped_content _ _ body _ _ _ Hc Hstrip Hfree).
  destruct (100 <? length body); [|simpl; lia].
  rewrite length_take. simpl. lia.
Qed.

(** X22: the content of a section made by [identify_sections] has no line
    feed, so the split at blank lines never splits it: such a section has
    at most one subsection, made of its whole stripped content, and it has
    one only when that content has more than 100 characters. *)
Theorem segmented_section_subsections
    (similarity : pystr -> pystr -> Q) (pages_content : list page_content)
    (sec : section) (persona job : pystr) (top_k : nat) :
  In sec (identify_sections pages_content) ->
  extract_subsections similarity sec persona job top_k =
  if 100 <? length (PyStr.strip (content sec))
  then take top_k [subsection_of similarity sec (query_text persona job)
                                 (PyStr.strip (content sec))]
  else [].
Proof.
  intros Hsec. destruct (segmented_section_body _ _ Hsec) as (body & Hc & Hstrip & Hfree).
  rewrite Hstrip. by apply subsections_of_shaped_content.
Qed.

Lemma segmented_section_subsections_witness :
  map (fun s => length (refined_text s))
      (extract_subsections (Examples.constant_similarity (9 # 10))
         {| document := str "paper.pdf"; section_title := str "SUMMARY OF WORK";
            page_start := 1; page_end := 1;
            content := repeat "a"%char 150 ++ str " " |}
         (str "Researcher") (str "Review methods") 3)
  = [150].
Proof.
  rewrite (segmented_section_subsections _
             [ {| page_number := 1;
                  text := str "SUMMARY OF WORK" ++ ["010"%char] ++ repeat "a"%char 150;
                  page_document := str "paper.pdf" |} ]).
  - vm_compute. reflexivity.
  - vm_compute. left. reflexivity.
Defined.
End SubsectionFacts.

(** ** The boosts *)
Section BoostFacts.
Import Round1b.

Lemma title_boosted_monotone (sec : section) (a b : Q) :
  (a <= b)%Q -> (title_boosted sec a <= title_boosted sec b)%Q.
Proof.
  intros H. unfold title_boosted.
  destruct (PyStr.mem _ _); destruct (existsb _ _); lra.
Qed.

(** X17: for one section, a larger similarity never gives a smaller score. *)
Theorem boosted_monotone (sec : section) (a b : Q) :
  (a <= b)%Q -> (boosted sec a <= boosted sec b)%Q.
Proof.
  intros H. pose proof (title_boosted_monotone sec a b H) as Ht.
  unfold boosted. cbv zeta.
  apply Q.min_le_compat_r.
  destruct (500 <? _); [lra|]. destruct (1000 <? _); lra.
Qed.

Lemma boosted_monotone_witness :
  (boosted (Examples.coastal 600) (1 # 10) <= boosted (Examples.coastal 600) (2 # 10))%Q.
Proof. apply (boosted_monotone (Examples.coastal 600)). vm_compute. discriminate. Defined.

(** X18: a section with a preferred title and a similarity of at least 0.5
    scores exactly 1, whatever its content: such sections tie. *)
Theorem preferred_title_saturates (sec : section) (sim : Q) :
  PyStr.mem (section_title sec) preferred_sections = true ->
  (1 # 2 <= sim)%Q ->
  (boosted sec sim == 1)%Q.
Proof.
  intros Hp Hs. unfold boosted, title_boosted. rewrite Hp. cbv zeta.
  apply Q.min_r.
  destruct (existsb _ _); destruct (500 <? _); try destruct (1000 <? _); lra.
Qed.

Lemma preferred_title_saturates_witness :
  (boosted (Examples.coastal 40) (1 # 2) == 1)%Q.
Proof.
  apply (preferred_title_saturates (Examples.coastal 40));
    [reflexivity|vm_compute; discriminate].
Defined.

(** X19: the boosts never lower a similarity that is not negative: the
    score is at least the similarity capped at 1. *)
Theorem boosts_do_not_lower (sec : section) (sim : Q) :
  (0 <= sim)%Q -> (Qmin sim 1 <= boosted sec sim)%Q.
Proof.
  intros Hs. unfold boosted, title_boosted. cbv zeta.
  apply Q.min_le_compat_r.
  destruct (PyStr.mem _ _); destruct (existsb _ _); destruct (500 <? _);
    try destruct (1000 <? _); lra.
Qed.

Lemma boosts_do_not_lower_witness :
  (Qmin (3 # 10) 1 <= boosted (Examples.coastal 1200) (3 # 10))%Q.
Proof. apply (boosts_do_not_lower (Examples.coastal 1200)). vm_compute. discriminate. Defined.
End BoostFacts.

(** ** Reading the pages of a document *)
Section PageTextFacts.
Import Round1b Shapes.

Lemma page_of_text_Some (pdf_path : pystr) (i : nat) (t : pystr) (pg : page_content) :
  page_of_text pdf_path i t = Some pg ->
  page_number pg = (Z.of_nat i + 1)%Z /\ text pg = PyStr.strip t /\ text pg <> [] /\
  page_document pg = PyStr.basename pdf_path.
Proof.
  unfold page_of_text. destruct (PyStr.strip t) eqn:Ht; [discriminate|].
  intros [= <-]. by repeat split.
Qed.

Lemma pages_from_sorted (pdf_path : pystr) (doc : list pystr) (k : nat) :
  StronglySorted (fun a b => (page_number a < page_number b)%Z)
    (omap id (imap (fun i t => page_of_text pdf_path (k + i) t) doc)) /\
  Forall (fun pg => (Z.of_nat k < page_number pg <= Z.of_nat (k + length doc))%Z)
    (omap id (imap (fun i t => page_of_text pdf_path (k + i) t) doc)).
Proof.
  revert k. induction doc as [|t doc IH]; intros k; [split; constructor|].
  rewrite imap_cons.
  rewrite (imap_ext _ (fun i t => page_of_text pdf_path (S k + i) t) doc)
    by (intros i x _; unfold compose; f_equal; lia).
  destruct (IH (S k)) as [IHs IHf].
  assert (Forall (fun pg => (Z.of_nat k + 1 < page_number pg
                             <= Z.of_nat (k + length (t :: doc)))%Z)
            (omap id (imap (fun i t => page_of_text pdf_path (S k + i) t) doc))) as Hrest.
  { eapply Forall_impl; [exact IHf|]. intros pg. simpl. lia. }
  cbn [omap list_omap]. rewrite Nat.add_0_r.
  destruct (page_of_text pdf_path k t) as [pg|] eqn:Hpg; cbn [id].
  - apply page_of_text_Some in Hpg as (Hn & _). split.
    + constructor; [exact IHs|].
      eapply Forall_impl; [exact Hrest|]. intros pg'. cbv beta. simpl length. lia.
    + constructor; [simpl; lia|].
      eapply Forall_impl; [exact Hrest|]. intros pg'. cbv beta. simpl length. lia.
  - split; [exact IHs|]. eapply Forall_impl; [exact Hrest|]. intros pg'. cbv beta. simpl length. lia.
Qed.

(** X14: [extract_text_from_pdf] drops the pages without text and keeps the
    numbers of the others: the page numbers increase strictly and lie
    between 1 and the number of pages of the document; every text is
    stripped and not empty, and every page carries the base name of the
    path. *)
Theorem extracted_text_pages
    (fitz_text : pystr -> exc (list pystr)) (pdf_path : pystr) (doc : list pystr) :
  fitz_text pdf_path = Ret doc ->
  exists pages_content,
    extract_text_from_pdf fitz_text pdf_path = Ret pages_content /\
    length pages_content <= length doc /\
    StronglySorted (fun a b => (page_number a < page_number b)%Z) pages_content /\
    Forall (fun pg =>
              (1 <= page_number pg <= Z.of_nat (length doc))%Z /\
              text pg <> [] /\ PyStr.strip (text pg) = text pg /\
              page_document pg = PyStr.basename pdf_path /\
              exists raw, doc !! Z.to_nat (page_number pg - 1) = Some raw /\
                          text pg = PyStr.strip raw)
           pages_content.
Proof.
  intros Hdoc. unfold extract_text_from_pdf. rewrite Hdoc. eexists.
  split; [reflexivity|].
  destruct (pages_from_sorted pdf_path doc 0) as [Hsorted Hrange].
  cbn [Nat.add] in Hsorted, Hrange.
  split; [|split; [exact Hsorted|]].
  - rewrite <- (length_imap (page_of_text pdf_path) doc).
    generalize (imap (page_of_text pdf_path) doc). intros l.
    induction l as [|o l IH]; [reflexivity|].
    cbn [omap list_omap]. destruct o; cbn [id length]; unfold omap in *; lia.
  - apply Forall_forall. intros pg Hpg.
    rewrite Forall_forall in Hrange. specialize (Hrange pg Hpg).
    apply list_elem_of_omap in Hpg as (o & Ho & Hid). unfold id in Hid. subst o.
    apply list_elem_of_lookup in Ho as [i Hi].
    rewrite list_lookup_imap in Hi.
    destruct (doc !! i) as [raw|] eqn:Hraw; [|discriminate].
    injection Hi as Hi. apply page_of_text_Some in Hi as (Hn & Ht & Hne & Hd).
    split; [lia|]. split; [exact Hne|].
    split; [rewrite Ht; apply strip_idempotent|]. split; [exact Hd|].
    exists raw. split; [|exact Ht].
    rewrite Hn. replace (Z.to_nat (Z.of_nat i + 1 - 1)) with i by lia. exact Hraw.
Qed.

Lemma extracted_text_pages_witness :
  exists pages_content,
    extract_text_from_pdf
      (fun _ => Ret [str "First page"; str "   "; str " Third page "])
      (str "/app/input/paper.pdf") = Ret pages_content /\
    map page_number pages_content = [1%Z; 3%Z] /\
    map page_document pages_content = [str "paper.pdf"; str "paper.pdf"].
Proof.
  destruct (extracted_text_pages
              (fun _ => Ret [str "First page"; str "   "; str " Third page "])
              (str "/app/input/paper.pdf") _ eq_refl) as (pages & Hp & _).
  exists pages. split; [exact Hp|]. injection Hp as <-. split; reflexivity.
Defined.
End PageTextFacts.

(** ** The whole analysis *)
Section AnalysisFacts.
Import Round1b Shapes.

Variable similarity : pystr -> pystr -> Q.
Variable fitz_text : pystr -> exc (list pystr).
Variable os_path_exists : pystr -> bool.
Variable now : pystr.

Lemma collect_sections_unreadable (documents : list pystr) (persona job : pystr) :
  (forall d, In d documents -> is_readable_pdf os_path_exists d = false) ->
  collect_sections similarity fitz_text os_path_exists documents persona job = Ret [].
Proof.
  induction documents as [|d documents IH]; intros H; [reflexivity|].
  cbn [collect_sections]. rewrite (H d (or_introl eq_refl)).
  rewrite IH by (intros d' Hd'; apply H; by right). reflexivity.
Qed.

Lemma collect_sections_raises (before after : list pystr) (d e persona job : pystr) :
  (forall d', In d' before ->
              is_readable_pdf os_path_exists d' = false \/
              exists doc, fitz_text d' = Ret doc) ->
  is_readable_pdf os_path_exists d = true ->
  fitz_text d = Raise e ->
  collect_sections similarity fitz_text os_path_exists (before ++ d :: after) persona job
  = Raise e.
Proof.
  intros Hbefore Hd He. induction before as [|d' before IH].
  - cbn [app collect_sections]. rewrite Hd. unfold extract_text_from_pdf.
    rewrite He. reflexivity.
  - cbn [app collect_sections].
    rewrite IH by (intros x Hx; apply Hbefore; by right).
    destruct (Hbefore d' (or_introl eq_refl)) as [Hno|[doc Hdoc]].
    + rewrite Hno. reflexivity.
    + destruct (is_readable_pdf os_path_exists d'); [|reflexivity].
      unfold extract_text_from_pdf. rewrite Hdoc. reflexivity.
Qed.

Lemma collect_sections_segmented (documents : list pystr) (persona job : pystr)
    (all_sections : list scored_section) (s : scored_section) :
  collect_sections similarity fitz_text os_path_exists documents persona job
  = Ret all_sections ->
  In s all_sections ->
  exists pages_content,
    In (scored s) (identify_sections pages_content) /\
    relevance_score s = calculate_relevance_score similarity (scored s) persona job.
Proof.
  revert all_sections. induction documents as [|d documents IH];
    intros all_sections Hall Hs.
  { injection Hall as <-. destruct Hs. }
  cbn [collect_sections] in Hall.
  destruct (collect_sections similarity fitz_text os_path_exists documents persona job)
    as [e|more] eqn:Hmore.
  { destruct (is_readable_pdf os_path_exists d); [|discriminate].
    destruct (extract_text_from_pdf fitz_text d); discriminate. }
  destruct (is_readable_pdf os_path_exists d).
  - destruct (extract_text_from_pdf fitz_text d) as [e|pages]; [discriminate|].
    injection Hall as <-. apply in_app_iff in Hs as [Hs|Hs]; [|by eapply IH].
    apply in_map_iff in Hs as (sec & <- & Hsec). by exists pages.
  - injection Hall as <-. by eapply IH.
Qed.
End AnalysisFacts.

Section AnalysisTheorems.
Import Round1b Shapes.

(** X23: when no listed document is a readable PDF (none exists, or none has
    the extension), [analyze_documents] does not fail and does not open any
    file: it returns an analysis with no section and no subsection. *)
Theorem no_readable_document_gives_empty_analysis
    (similarity : pystr -> pystr -> Q) (fitz_text : pystr -> exc (list pystr))
    (os_path_exists : pystr -> bool) (now : pystr) (inp : input_data) :
  (forall d, In d (in_documents inp) -> is_readable_pdf os_path_exists d = false) ->
  analyze_documents similarity fitz_text os_path_exists now inp
  = Analysis {| meta := {| input_documents := map PyStr.basename (in_documents inp);
                           persona := in_persona inp;
                           job_to_be_done := in_job_to_be_done inp;
                           processing_timestamp := now |};
                extracted_sections := [];
                subsection_analysis := [] |}.
Proof.
  intros H. unfold analyze_documents.
  by rewrite (collect_sections_unreadable similarity fitz_text os_path_exists _ _ _ H).
Qed.

Lemma no_readable_document_gives_empty_analysis_witness :
  analyze_documents Examples.length_similarity (fun _ => Raise (str "never opened"))
    (fun _ => true) Examples.fixed_clock
    {| in_documents := [str "/app/input/notes.txt"; str "/app/input/data.csv"];
       in_persona := str "Analyst"; in_job_to_be_done := str "Summarise" |}
  = Analysis {| meta := {| input_documents := [str "notes.txt"; str "data.csv"];
                           persona := str "Analyst";
                           job_to_be_done := str "Summarise";
                           processing_timestamp := Examples.fixed_clock |};
                extracted_sections := [];
                subsection_analysis := [] |}.
Proof.
  apply (no_readable_document_gives_empty_analysis Examples.length_similarity
           (fun _ => Raise (str "never opened")) (fun _ => true) Examples.fixed_clock
           {| in_documents := [str "/app/input/notes.txt"; str "/app/input/data.csv"];
              in_persona := str "Analyst"; in_job_to_be_done := str "Summarise" |}).
  intros d [<-|[<-|[]]]; reflexivity.
Defined.

(** X24: when the PDF layer raises on a readable document, and on none
    before it, the whole analysis is the error record with the text of
    that exception and the timestamp: the sections of the documents read
    before are not reported. *)
Theorem failing_document_aborts_analysis
    (similarity : pystr -> pystr -> Q) (fitz_text : pystr -> exc (list pystr))
    (os_path_exists : pystr -> bool) (now : pystr) (inp : input_data)
    (before after : list pystr) (d e : pystr) :
  in_documents inp = before ++ d :: after ->
  (forall d', In d' before ->
              is_readable_pdf os_path_exists d' = false \/
              exists doc, fitz_text d' = Ret doc) ->
  is_readable_pdf os_path_exists d = true ->
  fitz_text d = Raise e ->
  analyze_documents similarity fitz_text os_path_exists now inp = AnalysisError e now.
Proof.
  intros Hdocs Hbefore Hd He. unfold analyze_documents. rewrite Hdocs.
  by rewrite (collect_sections_raises similarity fitz_text os_path_exists
                before after d e _ _ Hbefore Hd He).
Qed.

Lemma failing_document_aborts_analysis_witness :
  analyze_documents Examples.length_similarity
    (fun path => if PyStr.endswith (str "broken.pdf") path
                 then Raise (str "cannot open broken document")
                 else Examples.two_pages path)
    Examples.every_path_exists Examples.fixed_clock
    {| in_documents := [str "/app/input/paper.pdf"; str "/app/input/broken.pdf"];
       in_persona := str "Researcher"; in_job_to_be_done := str "Review methods" |}
  = AnalysisError (str "cannot open broken document") Examples.fixed_clock.
Proof.
  apply (failing_document_aborts_analysis _ _ _ _ _
           [str "/app/input/paper.pdf"] [] (str "/app/input/broken.pdf")).
  - reflexivity.
  - intros d' [<-|[]]. right. eexists. reflexivity.
  - reflexivity.
  - reflexivity.
Defined.

Lemma concat_short {A : Type} (ls : list (list A)) :
  (forall l, In l ls -> length l <= 1) -> length (concat ls) <= length ls.
Proof.
  induction ls as [|l ls IH]; intros H; [reflexivity|].
  cbn [concat length]. rewrite length_app.
  pose proof (H l (or_introl eq_refl)).
  specialize (IH (fun x Hx => H x (or_intror Hx))). lia.
Qed.

(** X25: in an analysis, each of the five best sections gives at most one
    subsection, so [subsection_analysis] has at most five entries, and
    never more than [extracted_sections] has. *)
Theorem analysis_has_at_most_five_subsections
    (similarity : pystr -> pystr -> Q) (fitz_text : pystr -> exc (list pystr))
    (os_path_exists : pystr -> bool) (now : pystr) (inp : input_data) (r : analysis) :
  analyze_documents similarity fitz_text os_path_exists now inp = Analysis r ->
  length (subsection_analysis r) <= 5 /\
  length (subsection_analysis r) <= length (extracted_sections r).
Proof.
  unfold analyze_documents.
  destruct (collect_sections similarity fitz_text os_path_exists (in_documents inp)
              (in_persona inp) (in_job_to_be_done inp)) as [e|all_sections] eqn:Hall;
    [discriminate|].
  cbn [try_except mbind exc_bind]. intros [= <-].
  cbn [rank subsection_analysis extracted_sections].
  rewrite length_map, length_imap, length_take.
  unfold sort_subsections. rewrite stable_sort_length.
  set (top := take 10 (sort_sections all_sections)).
  assert (length (concat (map (fun s => extract_subsections similarity (scored s)
                                         (in_persona inp) (in_job_to_be_done inp) 3)
                              (take 5 top))) <= length (take 5 top)) as Hc.
  { rewrite <- (length_map (fun s => extract_subsections similarity (scored s)
                                       (in_persona inp) (in_job_to_be_done inp) 3)
                           (take 5 top)).
    apply concat_short. intros l Hl. apply in_map_iff in Hl as (s & <- & Hs).
    apply list_elem_of_In, subseteq_take, subseteq_take, list_elem_of_In in Hs.
    eapply Permutation_in in Hs; [|apply sort_sections_perm].
    destruct (collect_sections_segmented _ _ _ _ _ _ _ s Hall Hs) as (pages & Hseg & _).
    by eapply segmented_section_subsection_count. }
  rewrite length_take in Hc. lia.
Qed.

Lemma analysis_has_at_most_five_subsections_witness :
  exists r,
    analyze_documents Examples.length_similarity Examples.two_pages
      Examples.every_path_exists Examples.fixed_clock Examples.one_document
    = Analysis r /\
    length (subsection_analysis r) <= 5 /\
    length (subsection_analysis r) <= length (extracted_sections r).
Proof.
  eexists. split; [reflexivity|].
  apply (analysis_has_at_most_five_subsections Examples.length_similarity
           Examples.two_pages Examples.every_path_exists Examples.fixed_clock
           Examples.one_document).
  reflexivity.
Defined.
End AnalysisTheorems.


(** * Further properties: the entry points *)

(** ** [process_pdfs] *)
Section ProcessPdfsFacts.
Import Round1a Round1aMain Shapes.

Lemma replace_absent (old new s : pystr) :
  PyStr.contains old s = false -> PyPath.replace old new s = s.
Proof.
  unfold PyPath.replace. induction s as [|c s IH]; [reflexivity|].
  cbn [PyStr.contains PyPath.replace_from]. intros H.
  apply orb_false_iff in H as [Hstart Hrest]. rewrite Hstart. by rewrite IH.
Qed.

Lemma replace_extension (stem : pystr) :
  free_of "." stem ->
  PyPath.replace (str ".pdf") (str ".json") (stem ++ str ".pdf") = stem ++ str ".json".
Proof.
  unfold PyPath.replace. induction stem as [|c stem IH]; intros Hfree; [reflexivity|].
  cbn [app PyPath.replace_from].
  assert (PyStr.startswith (str ".pdf") (c :: stem ++ str ".pdf") = false) as ->.
  { cbn [str list_ascii_of_string PyStr.startswith].
    by rewrite (Hfree c (or_introl eq_refl)). }
  rewrite IH by (intros d Hd; apply Hfree; by right). reflexivity.
Qed.

Lemma lower_app (a b : pystr) : PyStr.lower (a ++ b) = PyStr.lower a ++ PyStr.lower b.
Proof. unfold PyStr.lower. apply fmap_app. Qed.

Lemma endswith_app (p a : pystr) : PyStr.endswith p (a ++ p) = true.
Proof.
  unfold PyStr.endswith. rewrite rev_app_distr.
  generalize (rev p) (rev a). intros x y.
  induction x as [|c x IH]; [reflexivity|].
  cbn [app PyStr.startswith]. unfold PyStr.chr_eqb. by rewrite Ascii.eqb_refl.
Qed.

(** X11: a file whose name is a stem without dot followed by ".pdf" is
    accepted, and its outline is written under the stem followed by
    ".json". *)
Theorem output_name_of_pdf (stem : pystr) :
  free_of "." stem ->
  is_pdf_name (stem ++ str ".pdf") = true /\
  output_filename (stem ++ str ".pdf") = stem ++ str ".json".
Proof.
  intros Hfree. split; [|by apply replace_extension].
  unfold is_pdf_name. rewrite lower_app.
  change (PyStr.lower (str ".pdf")) with (str ".pdf"). apply endswith_app.
Qed.

Lemma output_name_of_pdf_witness :
  is_pdf_name (str "annual_report.pdf") = true /\
  output_filename (str "annual_report.pdf") = str "annual_report.json".
Proof.
  apply (output_name_of_pdf (str "annual_report")).
  intros d Hd. vm_compute in Hd.
  repeat (destruct Hd as [<-|Hd]; [reflexivity|]). destruct Hd.
Defined.

(** X12: the extension is tested without regard to case, but replaced with
    regard to case: a listed file that is accepted and whose name has no
    lowercase ".pdf" gets its outline written under its own name, in the
    output directory, with no ".json". *)
Theorem uppercase_extension_keeps_name (ops : float_ops)
    (fitz_spans : pystr -> exc (list (list span))) (listing : list pystr)
    (filename : pystr) :
  In filename listing ->
  is_pdf_name filename = true ->
  PyStr.contains (str ".pdf") filename = false ->
  In (PyPath.join output_dir filename,
      extract_outline ops fitz_spans (PyPath.join input_dir filename))
     (process_pdfs ops fitz_spans listing).
Proof.
  intros Hin Hpdf Hno. unfold process_pdfs. apply in_map_iff.
  exists filename. split; [|by apply filter_In].
  unfold output_filename. by rewrite replace_absent.
Qed.

Lemma uppercase_extension_keeps_name_witness :
  In (str "/app/output/REPORT.PDF",
      extract_outline binary64 Examples.report (str "/app/input/REPORT.PDF"))
     (process_pdfs binary64 Examples.report [str "notes.txt"; str "REPORT.PDF"]).
Proof.
  apply (uppercase_extension_keeps_name binary64 Examples.report
           [str "notes.txt"; str "REPORT.PDF"] (str "REPORT.PDF"));
    [right; left; reflexivity|reflexivity|reflexivity].
Defined.

(** X13: one output file is written for each listed name with the
    extension, in the order of the listing and under the output directory;
    a document on which the PDF layer raises gets the error document and
    does not stop the batch. *)
Theorem process_pdfs_isolates_failures (ops : float_ops)
    (fitz_spans : pystr -> exc (list (list span))) (listing : list pystr) :
  map fst (process_pdfs ops fitz_spans listing)
  = map (fun filename => PyPath.join output_dir (output_filename filename))
        (List.filter is_pdf_name listing) /\
  forall filename e,
    In filename listing ->
    is_pdf_name filename = true ->
    fitz_spans (PyPath.join input_dir filename) = Raise e ->
    In (PyPath.join output_dir (output_filename filename), error_document)
       (process_pdfs ops fitz_spans listing).
Proof.
  split.
  - unfold process_pdfs. rewrite map_map. reflexivity.
  - intros filename e Hin Hpdf He. unfold process_pdfs. apply in_map_iff.
    exists filename. split; [|by apply filter_In].
    unfold extract_outline, extract_text_with_formatting. by rewrite He.
Qed.

Lemma process_pdfs_isolates_failures_witness :
  In (str "/app/output/broken.json", error_document)
     (process_pdfs binary64
        (fun path => if PyStr.endswith (str "broken.pdf") path
                     then Raise (str "cannot open broken document")
                     else Examples.report path)
        [str "broken.pdf"; str "report.pdf"]).
Proof.
  apply (process_pdfs_isolates_failures binary64
           (fun path => if PyStr.endswith (str "broken.pdf") path
                        then Raise (str "cannot open broken document")
                        else Examples.report path)
           [str "broken.pdf"; str "report.pdf"])
    with (filename := str "broken.pdf") (e := str "cannot open broken document");
    [left; reflexivity|reflexivity|reflexivity].
Defined.
End ProcessPdfsFacts.

(** ** The input of [process_round1b] *)
Section InputFacts.
Import Round1bMain.

(** X26: every document path handed to the analyzer is absolute: an
    absolute path is kept, any other is put under "/app/input/"; resolving
    twice changes nothing more. *)
Theorem resolve_path_absolute (doc : pystr) :
  PyPath.isabs (resolve_path doc) = true /\
  (PyPath.isabs doc = true -> resolve_path doc = doc) /\
  (PyPath.isabs doc = false -> resolve_path doc = str "/app/input/" ++ doc) /\
  resolve_path (resolve_path doc) = resolve_path doc.
Proof.
  assert (PyPath.isabs doc = false -> resolve_path doc = str "/app/input/" ++ doc) as Hrel.
  { intros H. unfold resolve_path, PyPath.join. rewrite H. reflexivity. }
  assert (PyPath.isabs doc = true -> resolve_path doc = doc) as Habs.
  { intros H. unfold resolve_path. by rewrite H. }
  assert (PyPath.isabs (resolve_path doc) = true) as Hres.
  { destruct (PyPath.isabs doc) eqn:H; [by rewrite Habs|by rewrite Hrel]. }
  split; [exact Hres|]. split; [exact Habs|]. split; [exact Hrel|].
  unfold resolve_path at 1. by rewrite Hres.
Qed.

Lemma resolve_path_absolute_witness :
  resolve_path (str "/data/paper.pdf") = str "/data/paper.pdf" /\
  resolve_path (str "paper.pdf") = str "/app/input/paper.pdf".
Proof.
  split.
  - destruct (resolve_path_absolute (str "/data/paper.pdf")) as (_ & Habs & _).
    apply Habs. reflexivity.
  - destruct (resolve_path_absolute (str "paper.pdf")) as (_ & _ & Hrel & _).
    apply Hrel. reflexivity.
Defined.

Lemma each_resolve_strings (names : list pystr) :
  each resolve (map JStr names) = Done (map resolve_path names).
Proof.
  induction names as [|n names IH]; [reflexivity|].
  cbn [map each resolve]. by rewrite IH.
Qed.

Lemma each_filename_of (objects : list json) (names : list pystr) :
  Forall2 (fun o n => exists fields,
               o = JObj fields /\ get (str "filename") fields = Some (JStr n))
          objects names ->
  each filename_of objects = Done (map JStr names).
Proof.
  induction 1 as [|o n objects names (fields & -> & Hget) _ IH]; [reflexivity|].
  cbn [map each filename_of]. rewrite Hget. by rewrite IH.
Qed.

(** X27: the two accepted shapes of [documents] give the same paths: a list
    of objects with a string under "filename" is normalised like the list
    of these strings. *)
Theorem document_shapes_agree
    (with_objects with_strings : list (pystr * json))
    (objects : list json) (names : list pystr) :
  get (str "documents") with_objects = Some (JArr objects) ->
  get (str "documents") with_strings = Some (JArr (map JStr names)) ->
  Forall2 (fun o n => exists fields,
               o = JObj fields /\ get (str "filename") fields = Some (JStr n))
          objects names ->
  normalise_documents with_objects = Done (map resolve_path names) /\
  normalise_documents with_strings = Done (map resolve_path names).
Proof.
  intros Ho Hs Hall. unfold normalise_documents, document_files. rewrite Ho, Hs. split.
  - destruct Hall as [|o n objects names (fields & -> & Hget) Hrest]; [reflexivity|].
    rewrite (each_filename_of (JObj fields :: objects) (n :: names)).
    + apply each_resolve_strings.
    + constructor; [by exists fields|exact Hrest].
  - destruct names as [|n names]; [reflexivity|]. cbn [map].
    apply (each_resolve_strings (n :: names)).
Qed.

Lemma document_shapes_agree_witness :
  normalise_documents
    [ (str "documents",
       JArr [ JObj [ (str "filename", JStr (str "a.pdf")); (str "title", JStr (str "A")) ];
              JObj [ (str "filename", JStr (str "/data/b.pdf")) ] ]) ]
  = Done [str "/app/input/a.pdf"; str "/data/b.pdf"] /\
  normalise_documents
    [ (str "persona", JStr (str "Analyst"));
      (str "documents", JArr [ JStr (str "a.pdf"); JStr (str "/data/b.pdf") ]) ]
  = Done [str "/app/input/a.pdf"; str "/data/b.pdf"].
Proof.
  apply (document_shapes_agree _ _
           [ JObj [ (str "filename", JStr (str "a.pdf")); (str "title", JStr (str "A")) ];
             JObj [ (str "filename", JStr (str "/data/b.pdf")) ] ]
           [str "a.pdf"; str "/data/b.pdf"]);
    [reflexivity|reflexivity|].
  constructor; [eexists; split; reflexivity|].
  constructor; [eexists; split; reflexivity|constructor].
Defined.

Lemma each_resolve_Done (files : list json) (paths : list pystr) :
  each resolve files = Done paths ->
  exists names, files = map JStr names /\ paths = map resolve_path names.
Proof.
  revert paths. induction files as [|f files IH]; intros paths H.
  - injection H as <-. by exists [].
  - cbn [each] in H. destruct f; cbn [resolve] in H; try discriminate.
    destruct (each resolve files) as [e|ps] eqn:Hrest; [discriminate|].
    injection H as <-. destruct (IH ps eq_refl) as (names & -> & ->).
    by exists (l :: names).
Qed.

Lemma each_filename_of_Done (objects files : list json) :
  each filename_of objects = Done files ->
  Forall2 (fun o f => exists fields,
               o = JObj fields /\ get (str "filename") fields = Some f)
          objects files.
Proof.
  revert files. induction objects as [|o objects IH]; intros files H.
  - injection H as <-. constructor.
  - cbn [each] in H. destruct o; cbn [filename_of] in H; try discriminate.
    destruct (get (str "filename") l) as [v|] eqn:Hget; [|discriminate].
    destruct (each filename_of objects) as [e|fs] eqn:Hrest; [discriminate|].
    injection H as <-. constructor; [by exists l|by apply IH].
Qed.

(** X28: the normalisation of [documents] succeeds only on a list of one
    shape: all strings, or all objects with a string under "filename".  A
    list that mixes the shapes, or holds anything else, raises. *)
Theorem normalise_documents_needs_one_shape
    (input_data : list (pystr * json)) (documents : list json) (paths : list pystr) :
  get (str "documents") input_data = Some (JArr documents) ->
  normalise_documents input_data = Done paths ->
  exists names,
    paths = map resolve_path names /\
    (documents = map JStr names \/
     Forall2 (fun o n => exists fields,
                  o = JObj fields /\ get (str "filename") fields = Some (JStr n))
             documents names).
Proof.
  intros Hdocs. unfold normalise_documents, document_files. rewrite Hdocs.
  assert (forall files, Done documents = Done files -> each resolve files = Done paths ->
                        exists names, paths = map resolve_path names /\
                                      documents = map JStr names) as Hplain.
  { intros files [= <-] H. apply each_resolve_Done in H as (names & -> & ->).
    by exists names. }
  destruct documents as [|[| | | | |fields] documents];
    try (intros H; destruct (Hplain _ eq_refl H) as (names & Hp & Hd);
         exists names; split; [exact Hp|by left]).
  destruct (each filename_of (JObj fields :: documents)) as [e|files] eqn:Hfiles;
    [discriminate|].
  intros H. apply each_resolve_Done in H as (names & -> & ->).
  exists names. split; [reflexivity|right].
  apply each_filename_of_Done in Hfiles.
  remember (JObj fields :: documents) as objs eqn:Hobjs. clear Hobjs Hdocs Hplain.
  revert names Hfiles. induction objs as [|o objs IH]; intros names Hall.
  - inversion Hall as [Hnil|]. destruct names; [constructor|discriminate].
  - destruct names as [|n names]; inversion Hall as [|? ? ? ? Ho Hrest]; subst.
    constructor; [exact Ho|by apply IH].
Qed.

Lemma normalise_documents_needs_one_shape_witness :
  exists names,
    [str "/app/input/a.pdf"] = map resolve_path names /\
    ([JStr (str "a.pdf")] = map JStr names \/
     Forall2 (fun o n => exists fields,
                  o = JObj fields /\ get (str "filename") fields = Some (JStr n))
             [JStr (str "a.pdf")] names).
Proof.
  apply (normalise_documents_needs_one_shape
           [ (str "documents", JArr [JStr (str "a.pdf")]) ]);
    reflexivity.
Defined.
End InputFacts.
